(** * STACKIT Terraform provider: Argus instance and DNS record set adapters

    A shallow embedding of
    - stackit/services/argus/instance/resource.go   (module [Argus])
    - the DNS record set resource and data source   (module [Dns])
    together with the few pieces of the Go standard library and of the
    Terraform plugin framework that these files call.

    Go pointers are [option]; a Go [(value, error)] result is a pair whose
    second component is [option error]; a method that mutates its response
    object is a computation in the [Op] monad below, whose state carries the
    diagnostics, the Terraform state written so far and the trace of SDK
    calls. A nil dereference is the outcome [Panic]. *)

From Stdlib Require Import ZArith Ascii String List DecimalString.
From stdpp Require Import gmap strings list fin_maps.
From coqutil Require Import Datatypes.RecordSetters.
Import TriangleBracketNotations.

Open Scope string_scope.

(** ** Go standard library: strings, strconv, fmt *)

Module Go.

(** A Go [error] is represented by its message. *)
Definition error := string.

(** [fmt.Sprintf("%v", err)] for an error that may be nil. *)
Definition fmt_v (err : option error) : string :=
  match err with
  | None => "<nil>"
  | Some msg => msg
  end.

Definition dquote : ascii := "034"%char.
Definition backslash : ascii := "092"%char.
Definition newline : ascii := "010"%char.

(** [strings.Join(elems, sep)]. *)
Definition Join (elems : list string) (sep : string) : string :=
  String.concat sep elems.

(** [strings.Split(s, sep)] for a non-empty [sep]: the pieces of [s]
    between the leftmost, non-overlapping occurrences of [sep].
    [skip] counts the bytes of the occurrence being crossed. The head of
    the result is the piece in progress. *)
Fixpoint split_scan (sep : string) (skip : nat) (s : string) : list string :=
  match s with
  | EmptyString => [EmptyString]
  | String a s' =>
      match skip with
      | S k => split_scan sep k s'
      | O =>
          if String.prefix sep s
          then EmptyString :: split_scan sep (String.length sep - 1) s'
          else match split_scan sep 0 s' with
               | piece :: pieces => String a piece :: pieces
               | [] => [String a EmptyString]
               end
      end
  end.

(** With an empty separator Go splits after each UTF-8 sequence; the
    model splits after each byte, which agrees on ASCII input. The
    provider only ever splits on [core.Separator]. *)
Definition Split (s sep : string) : list string :=
  match sep with
  | EmptyString => (fun c => String c EmptyString) <$> list_ascii_of_string s
  | _ => split_scan sep 0 s
  end.

(** [strings.EqualFold] on strings of bytes below 0x80 ([utf8.RuneSelf]):
    ASCII case folding, byte by byte. On other strings Go decodes runes and
    folds them by the Unicode tables, which this model does not have: it
    compares such bytes as they are. *)
Definition to_lower (c : ascii) : ascii :=
  let n := nat_of_ascii c in
  if (65 <=? n)%nat && (n <=? 90)%nat then ascii_of_nat (n + 32) else c.

Fixpoint EqualFold (s t : string) : bool :=
  match s, t with
  | EmptyString, EmptyString => true
  | String a s', String b t' => Ascii.eqb (to_lower a) (to_lower b) && EqualFold s' t'
  | _, _ => false
  end.

Definition hex_digit (n : nat) : ascii :=
  if (n <? 10)%nat then ascii_of_nat (48 + n) else ascii_of_nat (87 + n).

(** One byte of [strconv.Quote]: the escapes of the quote and the
    backslash, the named control characters, [\xNN] for the other
    control bytes. This is [strconv.Quote] on strings of bytes below 0x80.
    Bytes from 0x80 up are kept by the model; Go keeps only the printable
    runes of well-formed UTF-8 and escapes the rest by the Unicode tables,
    which the model does not have. *)
Definition quote_byte (c : ascii) : string :=
  let n := nat_of_ascii c in
  if Ascii.eqb c dquote then String backslash (String dquote EmptyString)
  else if Ascii.eqb c backslash then String backslash (String backslash EmptyString)
  else if (n =? 7)%nat then String backslash "a"
  else if (n =? 8)%nat then String backslash "b"
  else if (n =? 12)%nat then String backslash "f"
  else if (n =? 10)%nat then String backslash "n"
  else if (n =? 13)%nat then String backslash "r"
  else if (n =? 9)%nat then String backslash "t"
  else if (n =? 11)%nat then String backslash "v"
  else if (n <? 32)%nat || (n =? 127)%nat
       then String backslash
              (String "x" (String (hex_digit (n / 16)) (String (hex_digit (n mod 16)) EmptyString)))
  else String c EmptyString.

Fixpoint quote_body (s : string) : string :=
  match s with
  | EmptyString => String dquote EmptyString
  | String c s' => quote_byte c ++ quote_body s'
  end.

(** [strconv.Quote(s)], which is what [fmt.Sprintf("%q", s)] prints. *)
Definition Quote (s : string) : string := String dquote (quote_body s).

(** [time.Duration] counts nanoseconds. *)
Definition Duration := Z.
Definition Minute : Duration := (60 * 1000000000)%Z.

(** [strings.Contains(s, substr)]. *)
Fixpoint Contains (s substr : string) : bool :=
  String.prefix substr s
  || match s with
     | EmptyString => false
     | String _ s' => Contains s' substr
     end.

End Go.

(** ** core: the provider's shared constants and helpers *)

Module core.

(** Modelled from the spec: [core.Separator] is declared outside the files
    under verification; the specification fixes the import identifier as a
    comma-separated composite key. *)
Definition Separator : string := ",".

(** The transport the provider authenticates with; the resources only pass
    it on. *)
Inductive RoundTripper : Type := roundTripper (name : string).

(** [core.ProviderData], with the fields the three Configure methods read. *)
Record ProviderData : Type := mkProviderData {
  RoundTripper_ : RoundTripper;
  Region : string;
  ArgusCustomEndpoint : string;
  DnsCustomEndpoint : string;
}.

(** [req.ProviderData] is an [any]: nil, a [core.ProviderData], or a value
    of another type, of which only the name of the type is printed. *)
Inductive AnyProviderData : Type :=
| NoProviderData
| IsProviderData (providerData : ProviderData)
| OtherProviderData (typeName : string).

End core.

(** ** config: the options of an SDK client *)

Module config.

Inductive ConfigurationOption : Type :=
| WithCustomAuth (rt : core.RoundTripper)
| WithEndpoint (endpoint : string)
| WithRegion (region : string).

End config.

(** ** Terraform plugin framework: attribute values and diagnostics *)

Module tf.

(** A framework value is null, unknown or known. *)
Inductive tfval (A : Type) : Type :=
| Null
| Unknown
| Known (a : A).
Arguments Null {A}.
Arguments Unknown {A}.
Arguments Known {A} a.

(** [types.String], [types.Bool], [types.Int64]. *)
Definition TString := tfval string.
Definition TBool := tfval bool.
Definition TInt64 := tfval Z.

Definition StringValue (s : string) : TString := Known s.

Definition StringPointerValue (p : option string) : TString :=
  match p with
  | None => Null
  | Some s => Known s
  end.

Definition ValueString (v : TString) : string :=
  match v with
  | Known s => s
  | _ => EmptyString
  end.

Definition ValueStringPointer (v : TString) : option string :=
  match v with
  | Null => None
  | Unknown => Some EmptyString
  | Known s => Some s
  end.

Definition BoolPointerValue (p : option bool) : TBool :=
  match p with
  | None => Null
  | Some b => Known b
  end.

Definition Int64Value (i : Z) : TInt64 := Known i.

Definition Int64PointerValue (p : option Z) : TInt64 :=
  match p with
  | None => Null
  | Some i => Known i
  end.

Definition IsNull {A} (v : tfval A) : bool :=
  match v with Null => true | _ => false end.

Definition IsUnknown {A} (v : tfval A) : bool :=
  match v with Unknown => true | _ => false end.

Definition ValueInt64 (v : TInt64) : Z :=
  match v with
  | Known i => i
  | _ => 0%Z
  end.

(** [attr.Type] and [attr.Value], for the kinds of element that occur. *)
Inductive AttrType : Type := StringType | BoolType | Int64Type.

Inductive AttrValue : Type :=
| AString (v : TString)
| ABool (v : TBool)
| AInt64 (v : TInt64).

Definition Type_of (v : AttrValue) : AttrType :=
  match v with
  | AString _ => StringType
  | ABool _ => BoolType
  | AInt64 _ => Int64Type
  end.

#[global] Instance AttrType_eq_dec : EqDecision AttrType.
Proof. solve_decision. Defined.

Definition render {A} (f : A -> string) (v : tfval A) : string :=
  match v with
  | Null => "<null>"
  | Unknown => "<unknown>"
  | Known a => f a
  end.

Definition string_of_Z (z : Z) : string :=
  DecimalString.NilZero.string_of_int (Z.to_int z).

(** [attr.Value.String()]: the human-readable rendering. A known string
    is printed with [%q], a bool with [%t], an integer with [%d]. *)
Definition String_ (v : AttrValue) : string :=
  match v with
  | AString s => render Go.Quote s
  | ABool b => render (fun b : bool => if b then "true" else "false") b
  | AInt64 i => render string_of_Z i
  end.

(** Diagnostics. *)
Inductive Severity : Type := SeverityError | SeverityWarning.

Record Diagnostic : Type := mkDiagnostic {
  Severity_ : Severity;
  Summary : string;
  Detail : string;
}.

#[global] Instance Severity_eq_dec : EqDecision Severity.
Proof. solve_decision. Defined.

#[global] Instance Diagnostic_eq_dec : EqDecision Diagnostic.
Proof. solve_decision. Defined.

Definition Diagnostics := list Diagnostic.

Definition NewErrorDiagnostic (summary detail : string) : Diagnostic :=
  {| Severity_ := SeverityError; Summary := summary; Detail := detail |}.

Definition is_error (d : Diagnostic) : bool :=
  match Severity_ d with SeverityError => true | SeverityWarning => false end.

(** [Diagnostics.HasError]. *)
Definition HasError (ds : Diagnostics) : bool := existsb is_error ds.

(** [Diagnostics.Errors]. *)
Definition Errors (ds : Diagnostics) : Diagnostics := List.filter is_error ds.

(** [Diagnostics.Append]: a diagnostic already present is not repeated. *)
Fixpoint Append (ds : Diagnostics) (new : Diagnostics) : Diagnostics :=
  match new with
  | [] => ds
  | d :: rest => Append (if bool_decide (d ∈ ds) then ds else (ds ++ [d])%list) rest
  end.

(** [Diagnostics.AddError]. *)
Definition AddError (ds : Diagnostics) (summary detail : string) : Diagnostics :=
  Append ds [NewErrorDiagnostic summary detail].

(** A list of diagnostics printed inside an error message; only the
    summaries and details are kept of what [fmt] prints. *)
Definition Diagnostics_string (ds : Diagnostics) : string :=
  String.concat "; " ((fun d => Summary d ++ ": " ++ Detail d) <$> ds).

(** [types.Map] and [types.List], tagged with their element type. *)
Inductive TMap : Type :=
| MapNull (t : AttrType)
| MapUnknown (t : AttrType)
| MapKnown (t : AttrType) (elements : gmap string AttrValue).

Inductive TList : Type :=
| ListNull (t : AttrType)
| ListUnknown (t : AttrType)
| ListKnown (t : AttrType) (elements : list AttrValue).

(** [Map.Elements()] and [List.Elements()]: empty unless known. *)
Definition Map_Elements (m : TMap) : gmap string AttrValue :=
  match m with
  | MapKnown _ elements => elements
  | _ => ∅
  end.

Definition List_Elements (l : TList) : list AttrValue :=
  match l with
  | ListKnown _ elements => elements
  | _ => []
  end.

Definition has_type (t : AttrType) (v : AttrValue) : bool :=
  bool_decide (Type_of v = t).

(** The error diagnostic for an element of the wrong type; the framework's
    detail, which names the element and the two types, is not spelled out. *)
Definition element_type_error (summary : string) : Diagnostic :=
  NewErrorDiagnostic summary
    "an element does not have the element type of the collection".

(** [types.MapValueFrom(ctx, t, elements)] on a Go map of [attr.Value]:
    every element must have the element type. *)
Definition MapValueFrom (t : AttrType) (elements : gmap string AttrValue)
  : TMap * Diagnostics :=
  if forallb (fun kv => has_type t kv.2) (map_to_list elements)
  then (MapKnown t elements, [])
  else (MapUnknown t, [element_type_error "Value Conversion Error"]).

(** [types.ListValue(t, elements)]. *)
Definition ListValue (t : AttrType) (elements : list AttrValue)
  : TList * Diagnostics :=
  if forallb (has_type t) elements
  then (ListKnown t elements, [])
  else (ListUnknown t, [element_type_error "Invalid List Element Type"]).

End tf.

Export tf.

(** Modelled from the spec: [core.DiagsToError] and [core.LogAndAddError]
    live in the provider's core package, outside the files under
    verification. The specification says errors are reported as user
    diagnostics: [LogAndAddError] logs and adds an error diagnostic, and
    [DiagsToError] turns the error diagnostics into one Go error. *)
Definition DiagsToError (ds : Diagnostics) : option Go.error :=
if HasError ds then Some (Diagnostics_string (Errors ds)) else None.

Definition LogAndAddError (ds : Diagnostics) (summary detail : string) : Diagnostics :=
AddError ds summary detail.

(** ** Operations on a response object

    A resource method receives a response object and writes to it; on the
    way it calls the SDK. [Op] threads the response, the trace of SDK calls
    made so far, and stops at Go's [return] or at a panic. *)

Section Operations.

Context {Call St : Type}.

Record Response : Type := mkResponse {
  Trace : list Call;
  Diags : Diagnostics;
  State : St;
}.

Inductive Step (A : Type) : Type :=
| Next (a : A) (w : Response)
| Return (w : Response)
| Panic (w : Response).

Definition Op (A : Type) : Type := Response -> Step A.

Definition pure {A} (a : A) : Op A := fun w => Next A a w.

Definition bind {A B} (m : Op A) (k : A -> Op B) : Op B :=
  fun w =>
    match m w with
    | Next _ a w' => k a w'
    | Return _ w' => Return B w'
    | Panic _ w' => Panic B w'
    end.

(** Go's [return] from the method. *)
Definition return_ {A} : Op A := fun w => Return A w.

(** A run-time panic (nil dereference). *)
Definition panic {A} : Op A := fun w => Panic A w.

(** An SDK call: it is recorded, and its result is what the client gives. *)
Definition sdk {A} (c : Call) (result : A) : Op A :=
  fun w => Next A result (mkResponse (Trace w ++ [c])%list (Diags w) (State w)).

(** [resp.Diagnostics.Append(diags...)]. *)
Definition Diagnostics_Append (ds : Diagnostics) : Op unit :=
  fun w => Next unit tt (mkResponse (Trace w) (Append (Diags w) ds) (State w)).

(** [resp.Diagnostics.AddError(summary, detail)]. *)
Definition Diagnostics_AddError (summary detail : string) : Op unit :=
  fun w => Next unit tt (mkResponse (Trace w) (AddError (Diags w) summary detail) (State w)).

(** [resp.Diagnostics.HasError()]. *)
Definition Diagnostics_HasError : Op bool :=
  fun w => Next bool (HasError (Diags w)) w.

(** A write to [resp.State]. *)
Definition State_update (f : St -> St) : Op unit :=
  fun w => Next unit tt (mkResponse (Trace w) (Diags w) (f (State w))).

Definition when (b : bool) (m : Op unit) : Op unit :=
  if b then m else pure tt.

(** How a method ends. *)
Inductive Outcome : Type :=
| Finished (w : Response)
| Panicked (w : Response).

Definition exec (m : Op unit) (w : Response) : Outcome :=
  match m w with
  | Next _ _ w' => Finished w'
  | Return _ w' => Finished w'
  | Panic _ w' => Panicked w'
  end.

Definition final (o : Outcome) : Response :=
  match o with
  | Finished w => w
  | Panicked w => w
  end.

Definition fresh (st : St) : Response := mkResponse [] [] st.

End Operations.

Arguments Response : clear implicits.
Arguments Op : clear implicits.
Arguments Outcome : clear implicits.
Arguments Step : clear implicits.

#[global] Instance Op_ret {Call St} : MRet (Op Call St) := fun _ a => pure a.
#[global] Instance Op_bind {Call St} : MBind (Op Call St) := fun _ _ k m => bind m k.

(** ** ImportState, common part: the attributes written to the state *)

Definition Attributes := gmap string string.

(** [resp.State.SetAttribute(ctx, path.Root(name), value)]. *)
Definition State_SetAttribute {Call} (name value : string) : Op Call Attributes unit :=
  State_update (fun st => <[name := value]> st).

(** [resp.State.Set(ctx, model)]: the model becomes the state. *)
Definition State_Set {Call M} (model : M) : Op Call (option M) Diagnostics :=
  State_update (fun _ => Some model) ;; mret [].

(** What a function taking a pointer to the model leaves behind: the error
    it returned with the model as it then is, or a panic. *)
Inductive Mapped (M : Type) : Type :=
| Returned (err : option Go.error) (model : option M)
| Crashed.
Arguments Returned {M} err model.
Arguments Crashed {M}.

(** * Argus instance resource (stackit/services/argus/instance/resource.go) *)

Module Argus.

Module Model.
Record t : Type := mk {
  Id : TString;
  ProjectId : TString;
  InstanceId : TString;
  Name : TString;
  PlanName : TString;
  PlanId : TString;
  Parameters : TMap;
  DashboardURL : TString;
  IsUpdatable : TBool;
  GrafanaURL : TString;
  GrafanaPublicReadAccess : TBool;
  GrafanaInitialAdminPassword : TString;
  GrafanaInitialAdminUser : TString;
  MetricsRetentionDays : TInt64;
  MetricsRetentionDays5mDownsampling : TInt64;
  MetricsRetentionDays1hDownsampling : TInt64;
  MetricsURL : TString;
  MetricsPushURL : TString;
  TargetsURL : TString;
  AlertingURL : TString;
  LogsURL : TString;
  LogsPushURL : TString;
  JaegerTracesURL : TString;
  JaegerUIURL : TString;
  OtlpTracesURL : TString;
  ZipkinSpansURL : TString;
}.
End Model.

(** The SDK's response and payload structs, with the fields the resource
    reads or writes; every field is a pointer. *)

Module Plan.
Record t : Type := mk {
  Name : option string;
  PlanId : option string;
}.
End Plan.

Module PlansResponse.
Record t : Type := mk {
  Plans : option (list Plan.t);
}.
End PlansResponse.

Module InstanceSensitiveData.
Record t : Type := mk {
  GrafanaUrl : option string;
  GrafanaPublicReadAccess : option bool;
  GrafanaAdminPassword : option string;
  GrafanaAdminUser : option string;
  MetricsRetentionTimeRaw : option Z;
  MetricsRetentionTime5m : option Z;
  MetricsRetentionTime1h : option Z;
  MetricsUrl : option string;
  PushMetricsUrl : option string;
  TargetsUrl : option string;
  AlertingUrl : option string;
  LogsUrl : option string;
  LogsPushUrl : option string;
  JaegerTracesUrl : option string;
  JaegerUiUrl : option string;
  OtlpTracesUrl : option string;
  ZipkinSpansUrl : option string;
}.
End InstanceSensitiveData.

Module InstanceResponse.
Record t : Type := mk {
  Id : option string;
  PlanName : option string;
  PlanId : option string;
  Name : option string;
  Parameters : option (gmap string string);
  IsUpdatable : option bool;
  DashboardUrl : option string;
  Instance : option InstanceSensitiveData.t;
}.
End InstanceResponse.

Module CreateInstanceResponse.
Record t : Type := mk {
  InstanceId : option string;
}.
End CreateInstanceResponse.

(** [Parameter_] is the SDK field [Parameter], a [map[string]interface{}] whose values the resource
    fills with Go strings. *)
Module CreateInstancePayload.
Record t : Type := mk {
  Name : option string;
  PlanId : option string;
  Parameter_ : option (gmap string string);
}.
End CreateInstancePayload.

Module UpdateInstancePayload.
Record t : Type := mk {
  Name : option string;
  PlanId : option string;
  Parameter_ : option (gmap string string);
}.
End UpdateInstancePayload.

(** The [interface{}] a wait handler returns, as the type assertion to
    [*argus.InstanceResponse] sees it. *)
Inductive WaitResult : Type :=
| WaitInstanceResponse (p : option InstanceResponse.t)
| WaitOther.

(** The SDK client: what each call answers. The resource is taken to be
    configured, so [r.client] is not nil. A call that returns a response and
    an error is a pair; one whose response the method drops is the error
    alone. *)
Module APIClient.
Record t : Type := mk {
  GetPlans : string -> option PlansResponse.t * option Go.error;
  CreateInstance :
    string -> CreateInstancePayload.t -> option CreateInstanceResponse.t * option Go.error;
  CreateInstanceWaitHandler :
    string -> string -> Go.Duration -> WaitResult * option Go.error;
  GetInstance : string -> string -> option InstanceResponse.t * option Go.error;
  UpdateInstance : string -> string -> UpdateInstancePayload.t -> option Go.error;
  UpdateInstanceWaitHandler :
    string -> string -> Go.Duration -> WaitResult * option Go.error;
  DeleteInstance : string -> string -> option Go.error;
  DeleteInstanceWaitHandler : string -> string -> Go.Duration -> option Go.error;
}.
End APIClient.

(** The SDK calls a method makes, in order. *)
Module Call.
Inductive t : Type :=
| GetPlans (projectId : string)
| CreateInstance (projectId : string) (payload : CreateInstancePayload.t)
| CreateInstanceWaitHandler (instanceId projectId : string) (timeout : Go.Duration)
| GetInstance (instanceId projectId : string)
| UpdateInstance (instanceId projectId : string) (payload : UpdateInstancePayload.t)
| UpdateInstanceWaitHandler (instanceId projectId : string) (timeout : Go.Duration)
| DeleteInstance (instanceId projectId : string)
| DeleteInstanceWaitHandler (instanceId projectId : string) (timeout : Go.Duration).
End Call.

(** The requests, reduced to what the methods read from them:
    [req.Plan.Get(ctx, &model)] and [req.State.Get(ctx, &model)] fill a
    model and return diagnostics. *)
Record CreateRequest : Type := { CreatePlan : Model.t * Diagnostics }.
Record ReadRequest : Type := { ReadState : Model.t * Diagnostics }.
Record UpdateRequest : Type := { UpdatePlan : Model.t * Diagnostics }.
Record DeleteRequest : Type := { DeleteState : Model.t * Diagnostics }.
Record ImportStateRequest : Type := { ID : string }.

Abbreviation Method := (Op Call.t (option Model.t)).

(** The tail of [mapFields]: the fields of the [Instance] sub-struct. The
    three retention fields are dereferenced as they are. *)
Definition mapInstance (i : InstanceSensitiveData.t) (model : Model.t) : Mapped Model.t :=
  let model := model<|Model.GrafanaURL := StringPointerValue (InstanceSensitiveData.GrafanaUrl i)|> in
  let model := model<|Model.GrafanaPublicReadAccess :=
                        BoolPointerValue (InstanceSensitiveData.GrafanaPublicReadAccess i)|> in
  let model := model<|Model.GrafanaInitialAdminPassword :=
                        StringPointerValue (InstanceSensitiveData.GrafanaAdminPassword i)|> in
  let model := model<|Model.GrafanaInitialAdminUser :=
                        StringPointerValue (InstanceSensitiveData.GrafanaAdminUser i)|> in
  match InstanceSensitiveData.MetricsRetentionTimeRaw i with
  | None => Crashed
  | Some raw =>
  let model := model<|Model.MetricsRetentionDays := Int64Value raw|> in
  match InstanceSensitiveData.MetricsRetentionTime5m i with
  | None => Crashed
  | Some t5m =>
  let model := model<|Model.MetricsRetentionDays5mDownsampling := Int64Value t5m|> in
  match InstanceSensitiveData.MetricsRetentionTime1h i with
  | None => Crashed
  | Some t1h =>
  let model := model<|Model.MetricsRetentionDays1hDownsampling := Int64Value t1h|> in
  let model := model<|Model.MetricsURL := StringPointerValue (InstanceSensitiveData.MetricsUrl i)|> in
  let model := model<|Model.MetricsPushURL := StringPointerValue (InstanceSensitiveData.PushMetricsUrl i)|> in
  let model := model<|Model.TargetsURL := StringPointerValue (InstanceSensitiveData.TargetsUrl i)|> in
  let model := model<|Model.AlertingURL := StringPointerValue (InstanceSensitiveData.AlertingUrl i)|> in
  let model := model<|Model.LogsURL := StringPointerValue (InstanceSensitiveData.LogsUrl i)|> in
  let model := model<|Model.LogsPushURL := StringPointerValue (InstanceSensitiveData.LogsPushUrl i)|> in
  let model := model<|Model.JaegerTracesURL := StringPointerValue (InstanceSensitiveData.JaegerTracesUrl i)|> in
  let model := model<|Model.JaegerUIURL := StringPointerValue (InstanceSensitiveData.JaegerUiUrl i)|> in
  let model := model<|Model.OtlpTracesURL := StringPointerValue (InstanceSensitiveData.OtlpTracesUrl i)|> in
  let model := model<|Model.ZipkinSpansURL := StringPointerValue (InstanceSensitiveData.ZipkinSpansUrl i)|> in
  Returned None (Some model)
  end end end.

(** The middle of [mapFields], from the parameters on. *)
Definition mapParameters (r : InstanceResponse.t) (model : Model.t) : Mapped Model.t :=
  let after_parameters (model : Model.t) : Mapped Model.t :=
    let model := model<|Model.IsUpdatable := BoolPointerValue (InstanceResponse.IsUpdatable r)|> in
    let model := model<|Model.DashboardURL := StringPointerValue (InstanceResponse.DashboardUrl r)|> in
    match InstanceResponse.Instance r with
    | Some i => mapInstance i model
    | None => Returned None (Some model)
    end in
  match InstanceResponse.Parameters r with
  | None => after_parameters (model<|Model.Parameters := MapNull StringType|>)
  | Some ps =>
      let params : gmap string AttrValue := (fun v => AString (StringValue v)) <$> ps in
      let '(res, diags) := MapValueFrom StringType params in
      if HasError diags
      then Returned (Some ("parameter mapping " ++ Diagnostics_string (Errors diags))) (Some model)
      else after_parameters (model<|Model.Parameters := res|>)
  end.

Definition mapFields (r : option InstanceResponse.t) (model : option Model.t)
  : Mapped Model.t :=
  match r with
  | None => Returned (Some "response input is nil") model
  | Some r =>
  match model with
  | None => Returned (Some "model input is nil") None
  | Some model =>
  let chosen : option string :=
    if negb (ValueString (Model.InstanceId model) =? "")
    then Some (ValueString (Model.InstanceId model))
    else match InstanceResponse.Id r with
         | Some id => Some id
         | None => None
         end in
  match chosen with
  | None => Returned (Some "instance id not present") (Some model)
  | Some instanceId =>
  let idParts := [ValueString (Model.ProjectId model); instanceId] in
  let model := model<|Model.Id := StringValue (Go.Join idParts core.Separator)|> in
  let model := model<|Model.InstanceId := StringValue instanceId|> in
  let model := model<|Model.PlanName := StringPointerValue (InstanceResponse.PlanName r)|> in
  let model := model<|Model.PlanId := StringPointerValue (InstanceResponse.PlanId r)|> in
  let model := model<|Model.Name := StringPointerValue (InstanceResponse.Name r)|> in
  mapParameters r model
  end end end.

Definition toCreatePayload (model : option Model.t)
  : option CreateInstancePayload.t * option Go.error :=
  match model with
  | None => (None, Some "nil model")
  | Some model =>
      let elements := Map_Elements (Model.Parameters model) in
      let pa : gmap string string := String_ <$> elements in
      (Some {| CreateInstancePayload.Name := ValueStringPointer (Model.Name model);
               CreateInstancePayload.PlanId := ValueStringPointer (Model.PlanId model);
               CreateInstancePayload.Parameter_ := Some pa |}, None)
  end.

Definition toUpdatePayload (model : option Model.t)
  : option UpdateInstancePayload.t * option Go.error :=
  match model with
  | None => (None, Some "nil model")
  | Some model =>
      let elements := Map_Elements (Model.Parameters model) in
      let pa : gmap string string := String_ <$> elements in
      (Some {| UpdateInstancePayload.Name := ValueStringPointer (Model.Name model);
               UpdateInstancePayload.PlanId := ValueStringPointer (Model.PlanId model);
               UpdateInstancePayload.Parameter_ := Some pa |}, None)
  end.

(** The loop of [loadPlanId]: the first plan whose name folds to
    [planName] and whose id is not nil sets [model.PlanId] and ends the
    loop; the names passed over are collected in [avl]. *)
Fixpoint loadPlanId_loop (planName : string) (plans : list Plan.t)
  (model : Model.t) (avl : string) : Model.t * string :=
  match plans with
  | [] => (model, avl)
  | p :: plans' =>
      match Plan.Name p with
      | None => loadPlanId_loop planName plans' model avl
      | Some name =>
          if Go.EqualFold name planName && bool_decide (Plan.PlanId p <> None)
          then (model<|Model.PlanId := StringPointerValue (Plan.PlanId p)|>, avl)
          else loadPlanId_loop planName plans' model
                 (avl ++ String Go.newline "- " ++ name)
      end
  end.

(** [loadPlanId] writes to the response diagnostics and to the model, and
    returns nothing: its caller finds out about a failure only by looking
    at the diagnostics it passed in. *)
Definition loadPlanId {St} (r : APIClient.t) (model : Model.t) : Op Call.t St Model.t :=
  let projectId := ValueString (Model.ProjectId model) in
  '(res, err) ← sdk (Call.GetPlans projectId) (APIClient.GetPlans r projectId);
  match err with
  | Some e => Diagnostics_AddError "Failed to list argus plans" e ;; mret model
  | None =>
      let planName := ValueString (Model.PlanName model) in
      match res with
      | None => panic
      | Some res =>
      match PlansResponse.Plans res with
      | None => panic
      | Some plans =>
          let '(model, avl) := loadPlanId_loop planName plans model "" in
          if ValueString (Model.PlanId model) =? ""
          then Diagnostics_AddError "Invalid plan_name"
                 ("Couldn't find plan_name '" ++ planName ++ "', available names are:" ++ avl) ;;
               mret model
          else mret model
      end end
  end.

(** Create creates the resource and sets the initial Terraform state. *)
Definition Create (r : APIClient.t) (req : CreateRequest) : Method unit :=
  let '(model, diags) := CreatePlan req in
  Diagnostics_Append diags ;;
  failed ← Diagnostics_HasError ;
  when failed return_ ;;
  let projectId := ValueString (Model.ProjectId model) in
  model ← loadPlanId r model ;
  (* [diags] is the local result of [req.Plan.Get], not [resp.Diagnostics] *)
  when (HasError diags)
    (let diags := LogAndAddError diags "Failed to load argus service plan"
                    ("plan " ++ ValueString (Model.PlanName model)) in
     return_) ;;
  match toCreatePayload (Some model) with
  | (_, Some err) =>
      Diagnostics_AddError "Error creating instance" ("Creating API payload: " ++ err) ;;
      return_
  | (None, None) => panic
  | (Some payload, None) =>
  '(createResp, err) ← sdk (Call.CreateInstance projectId payload)
                            (APIClient.CreateInstance r projectId payload) ;
  match err with
  | Some e =>
      Diagnostics_AddError "Error creating instance" ("Calling API: " ++ e) ;;
      return_
  | None =>
  match createResp with
  | None => panic
  | Some createResp =>
  match CreateInstanceResponse.InstanceId createResp with
  | None | Some EmptyString =>
      Diagnostics_AddError "Error creating instance" "API didn't return an instance id" ;;
      return_
  | Some instanceId =>
  '(wr, err) ← sdk (Call.CreateInstanceWaitHandler instanceId projectId (20 * Go.Minute)%Z)
                    (APIClient.CreateInstanceWaitHandler r instanceId projectId (20 * Go.Minute)%Z) ;
  match err with
  | Some e =>
      Diagnostics_AddError "Error creating instance" ("Instance creation waiting: " ++ e) ;;
      return_
  | None =>
  match wr with
  | WaitOther =>
      Diagnostics_AddError "Error creating instance" "Wait result conversion, got <nil>" ;;
      return_
  | WaitInstanceResponse got =>
  match mapFields got (Some model) with
  | Crashed => panic
  | Returned (Some err) _ =>
      Diagnostics_AddError "Error mapping fields"
        ("Project id " ++ projectId ++ ", instance id " ++ instanceId ++ ": " ++ err) ;;
      return_
  | Returned None None => panic
  | Returned None (Some model) =>
      diags ← State_Set model ;
      Diagnostics_Append diags
  end end end end end end end.

(** Read refreshes the Terraform state with the latest data. *)
Definition Read (r : APIClient.t) (req : ReadRequest) : Method unit :=
  let '(model, diags) := ReadState req in
  Diagnostics_Append diags ;;
  failed ← Diagnostics_HasError ;
  when failed return_ ;;
  let projectId := ValueString (Model.ProjectId model) in
  let instanceId := ValueString (Model.InstanceId model) in
  '(instanceResp, err) ← sdk (Call.GetInstance instanceId projectId)
                              (APIClient.GetInstance r instanceId projectId) ;
  match err with
  | Some e =>
      Diagnostics_AddError "Error reading instance"
        ("Project id = " ++ projectId ++ ", instance id = " ++ instanceId ++ ": " ++ e) ;;
      return_
  | None =>
  match mapFields instanceResp (Some model) with
  | Crashed => panic
  | Returned (Some err) _ =>
      Diagnostics_AddError "Error mapping fields"
        ("Project id " ++ projectId ++ ", instance id " ++ instanceId ++ ": " ++ err) ;;
      return_
  | Returned None None => panic
  | Returned None (Some model) =>
      diags ← State_Set model ;
      Diagnostics_Append diags
  end end.

(** Update updates the resource and sets the updated Terraform state on success. *)
Definition Update (r : APIClient.t) (req : UpdateRequest) : Method unit :=
  let '(model, diags) := UpdatePlan req in
  Diagnostics_Append diags ;;
  failed ← Diagnostics_HasError ;
  when failed return_ ;;
  let projectId := ValueString (Model.ProjectId model) in
  let instanceId := ValueString (Model.InstanceId model) in
  model ← loadPlanId r model ;
  (* [diags] is the local result of [req.Plan.Get], not [resp.Diagnostics] *)
  when (HasError diags)
    (let diags := LogAndAddError diags "Failed to load argus service plan"
                    ("plan " ++ ValueString (Model.PlanName model)) in
     return_) ;;
  match toUpdatePayload (Some model) with
  | (_, Some err) =>
      Diagnostics_AddError "Error updating instance" ("Could not create API payload: " ++ err) ;;
      return_
  | (None, None) => panic
  | (Some payload, None) =>
  err ← sdk (Call.UpdateInstance instanceId projectId payload)
            (APIClient.UpdateInstance r instanceId projectId payload) ;
  match err with
  | Some e =>
      Diagnostics_AddError "Error updating instance"
        ("project id = " ++ projectId ++ ", instance Id = " ++ instanceId ++ ", " ++ e) ;;
      return_
  | None =>
  '(wr, err) ← sdk (Call.UpdateInstanceWaitHandler instanceId projectId (20 * Go.Minute)%Z)
                    (APIClient.UpdateInstanceWaitHandler r instanceId projectId (20 * Go.Minute)%Z) ;
  match err with
  | Some e =>
      Diagnostics_AddError "Error updating instance" ("Instance update waiting: " ++ e) ;;
      return_
  | None =>
  match wr with
  | WaitOther =>
      Diagnostics_AddError "Error updating instance" "Wait result conversion, got <nil>" ;;
      return_
  | WaitInstanceResponse got =>
  match mapFields got (Some model) with
  | Crashed => panic
  | Returned (Some err) _ =>
      Diagnostics_AddError "Error mapping fields in update"
        ("project id = " ++ projectId ++ ", instance Id = " ++ instanceId ++ ", " ++ err) ;;
      return_
  | Returned None None => panic
  | Returned None (Some model) =>
      diags ← State_Set model ;
      Diagnostics_Append diags
  end end end end end.

(** Delete deletes the resource and removes the Terraform state on success. *)
Definition Delete (r : APIClient.t) (req : DeleteRequest) : Method unit :=
  let '(model, diags) := DeleteState req in
  Diagnostics_Append diags ;;
  failed ← Diagnostics_HasError ;
  when failed return_ ;;
  let projectId := ValueString (Model.ProjectId model) in
  let instanceId := ValueString (Model.InstanceId model) in
  err ← sdk (Call.DeleteInstance instanceId projectId)
            (APIClient.DeleteInstance r instanceId projectId) ;
  match err with
  | Some e =>
      Diagnostics_AddError "Error deleting instance"
        ("project id = " ++ projectId ++ ", instance Id = " ++ instanceId ++ ", " ++ e) ;;
      return_
  | None =>
  err ← sdk (Call.DeleteInstanceWaitHandler instanceId projectId (10 * Go.Minute)%Z)
            (APIClient.DeleteInstanceWaitHandler r instanceId projectId (10 * Go.Minute)%Z) ;
  match err with
  | Some e =>
      Diagnostics_AddError "Error deleting instance" ("Instance deletion waiting: " ++ e) ;;
      return_
  | None => mret tt
  end end.

(** ImportState imports a resource into the Terraform state on success.
    The expected format of the resource import identifier is:
    project_id,instance_id *)
Definition ImportState (req : ImportStateRequest) : Op Call.t Attributes unit :=
  let idParts := Go.Split (ID req) core.Separator in
  when (negb (length idParts =? 2)%nat
        || (nth 0 idParts "" =? "") || (nth 1 idParts "" =? ""))
    (Diagnostics_AddError "Unexpected Import Identifier"
       ("Expected import identifier with format: [project_id],[instance_id]  Got: "
        ++ Go.Quote (ID req)) ;;
     return_) ;;
  State_SetAttribute "project_id" (nth 0 idParts "") ;;
  State_SetAttribute "instance_id" (nth 1 idParts "").

Record ConfigureRequest : Type := { ProviderData : core.AnyProviderData }.

(** Configure adds the provider configured client to the resource. The
    state of the computation is [r.client]; the trace records the options
    [argus.NewAPIClient] is called with, and [NewAPIClient] is what the SDK
    answers for them. *)
Definition Configure
  (NewAPIClient : list config.ConfigurationOption → option APIClient.t * option Go.error)
  (req : ConfigureRequest)
  : Op (list config.ConfigurationOption) (option APIClient.t) unit :=
  match ProviderData req with
  | core.NoProviderData => return_
  | core.OtherProviderData typeName =>
      Diagnostics_AddError "Unexpected Resource Configure Type"
        ("Expected stackit.ProviderData, got " ++ typeName
         ++ ". Please report this issue to the provider developers.") ;;
      return_
  | core.IsProviderData providerData =>
      let options :=
        if negb (core.ArgusCustomEndpoint providerData =? "")
        then [ config.WithCustomAuth (core.RoundTripper_ providerData);
               config.WithEndpoint (core.ArgusCustomEndpoint providerData) ]
        else [ config.WithCustomAuth (core.RoundTripper_ providerData);
               config.WithRegion (core.Region providerData) ] in
      '(apiClient, err) ← sdk options (NewAPIClient options) ;
      match err with
      | Some e =>
          Diagnostics_AddError "Could not Configure API Client" e ;;
          return_
      | None => State_update (fun _ => apiClient)
      end
  end.

End Argus.

(** [core.LogAndAddError(ctx, &resp.Diagnostics, summary, detail)]. *)
Definition Response_LogAndAddError {Call St} (summary detail : string) : Op Call St unit :=
  fun w => Next unit tt (mkResponse (Trace w) (LogAndAddError (Diags w) summary detail) (State w)).

(** ** conversion: between SDK integers and framework integers *)

Module conversion.

(** Go's conversion to [int32]: the low 32 bits, read as a signed number. *)
Definition int32 (z : Z) : Z :=
  ((z + 2 ^ 31) mod 2 ^ 32 - 2 ^ 31)%Z.

(** Modelled from the spec: the package [conversion] is outside the files
    under verification. The specification describes the state structs as
    mirroring the API's request and response schema, so [ToTypeInt64] takes
    the SDK's [*int32] to the framework's [Int64] (a nil pointer to null)
    and [ToPtrInt32] takes it back (null and unknown to nil). *)
Definition ToTypeInt64 (i : option Z) : TInt64 :=
  match i with
  | None => Int64PointerValue None
  | Some i => Int64Value i
  end.

Definition ToPtrInt32 (source : TInt64) : option Z :=
  if IsNull source || IsUnknown source then None
  else Some (int32 (ValueInt64 source)).

End conversion.

(** * DNS record set resource and data source

    The resource and the data source share [Model] and [mapFields]. Logging
    through [tflog] does not touch the response and is left out. *)

Module Dns.

Module Model.
Record t : Type := mk {
  Id : TString;
  RecordSetId : TString;
  ZoneId : TString;
  ProjectId : TString;
  Active : TBool;
  Comment : TString;
  Name : TString;
  Records : TList;
  TTL : TInt64;
  Type_ : TString;
  Error : TString;
  State : TString;
}.
End Model.

(** The SDK's structs, with the fields the resource reads or writes. *)

Module Record_.
Record t : Type := mk {
  Content : option string;
}.
End Record_.

Module RecordSet.
Record t : Type := mk {
  Id : option string;
  Records : option (list Record_.t);
  Active : option bool;
  Comment : option string;
  Error : option string;
  Name : option string;
  State : option string;
  Ttl : option Z;
  Type_ : option string;
}.
End RecordSet.

Module RecordSetResponse.
Record t : Type := mk {
  Rrset : option RecordSet.t;
}.
End RecordSetResponse.

Module RecordPayload.
Record t : Type := mk {
  Content : option string;
}.
End RecordPayload.

Module CreateRecordSetPayload.
Record t : Type := mk {
  Comment : option string;
  Name : option string;
  Records : option (list RecordPayload.t);
  Ttl : option Z;
  Type_ : option string;
}.
End CreateRecordSetPayload.

Module UpdateRecordSetPayload.
Record t : Type := mk {
  Comment : option string;
  Name : option string;
  Records : option (list RecordPayload.t);
  Ttl : option Z;
}.
End UpdateRecordSetPayload.

(** The [interface{}] a wait handler returns, as the type assertion to
    [*dns.RecordSetResponse] sees it. *)
Inductive WaitResult : Type :=
| WaitRecordSetResponse (p : option RecordSetResponse.t)
| WaitOther.

(** The SDK client, as for Argus. *)
Module APIClient.
Record t : Type := mk {
  CreateRecordSet :
    string -> string -> CreateRecordSetPayload.t -> option RecordSetResponse.t * option Go.error;
  CreateRecordSetWaitHandler :
    string -> string -> string -> Go.Duration -> WaitResult * option Go.error;
  GetRecordSet :
    string -> string -> string -> option RecordSetResponse.t * option Go.error;
  UpdateRecordSet :
    string -> string -> string -> UpdateRecordSetPayload.t -> option Go.error;
  UpdateRecordSetWaitHandler :
    string -> string -> string -> Go.Duration -> WaitResult * option Go.error;
  DeleteRecordSet : string -> string -> string -> option Go.error;
  DeleteRecordSetWaitHandler : string -> string -> string -> Go.Duration -> option Go.error;
}.
End APIClient.

(** The SDK calls a method makes, in order. *)
Module Call.
Inductive t : Type :=
| CreateRecordSet (projectId zoneId : string) (payload : CreateRecordSetPayload.t)
| CreateRecordSetWaitHandler (projectId zoneId recordSetId : string) (timeout : Go.Duration)
| GetRecordSet (projectId zoneId recordSetId : string)
| UpdateRecordSet (projectId zoneId recordSetId : string) (payload : UpdateRecordSetPayload.t)
| UpdateRecordSetWaitHandler (projectId zoneId recordSetId : string) (timeout : Go.Duration)
| DeleteRecordSet (projectId zoneId recordSetId : string)
| DeleteRecordSetWaitHandler (projectId zoneId recordSetId : string) (timeout : Go.Duration).
End Call.

Record CreateRequest : Type := { CreatePlan : Model.t * Diagnostics }.
Record ReadRequest : Type := { ReadState : Model.t * Diagnostics }.
Record UpdateRequest : Type := { UpdatePlan : Model.t * Diagnostics }.
Record DeleteRequest : Type := { DeleteState : Model.t * Diagnostics }.
Record ImportStateRequest : Type := { ID : string }.
Record DataSourceReadRequest : Type := { Config : Model.t * Diagnostics }.
Record ConfigureRequest : Type := { ProviderData : core.AnyProviderData }.

Abbreviation Method := (Op Call.t (option Model.t)).

Definition mapFields (recordSetResp : option RecordSetResponse.t) (model : option Model.t)
  : Mapped Model.t :=
  match recordSetResp ≫= RecordSetResponse.Rrset with
  | None => Returned (Some "response input is nil") model
  | Some recordSet =>
  match model with
  | None => Returned (Some "model input is nil") None
  | Some model =>
  let chosen : option string :=
    if negb (ValueString (Model.RecordSetId model) =? "")
    then Some (ValueString (Model.RecordSetId model))
    else match RecordSet.Id recordSet with
         | Some id => Some id
         | None => None
         end in
  match chosen with
  | None => Returned (Some "record set id not present") (Some model)
  | Some recordSetId =>
  let after_records (model : Model.t) : Mapped Model.t :=
    let idParts := [ValueString (Model.ProjectId model);
                    ValueString (Model.ZoneId model);
                    recordSetId] in
    let model := model<|Model.Id := StringValue (Go.Join idParts core.Separator)|> in
    let model := model<|Model.RecordSetId := StringPointerValue (RecordSet.Id recordSet)|> in
    let model := model<|Model.Active := BoolPointerValue (RecordSet.Active recordSet)|> in
    let model := model<|Model.Comment := StringPointerValue (RecordSet.Comment recordSet)|> in
    let model := model<|Model.Error := StringPointerValue (RecordSet.Error recordSet)|> in
    let model := model<|Model.Name := StringPointerValue (RecordSet.Name recordSet)|> in
    let model := model<|Model.State := StringPointerValue (RecordSet.State recordSet)|> in
    let model := model<|Model.TTL := conversion.ToTypeInt64 (RecordSet.Ttl recordSet)|> in
    let model := model<|Model.Type_ := StringPointerValue (RecordSet.Type_ recordSet)|> in
    Returned None (Some model) in
  match RecordSet.Records recordSet with
  | None => after_records (model<|Model.Records := ListNull StringType|>)
  | Some rs =>
      let records : list AttrValue :=
        (fun record => AString (StringPointerValue (Record_.Content record))) <$> rs in
      let '(recordsList, diags) := ListValue StringType records in
      if HasError diags
      then Returned (Some ("failed to map records: " ++ Go.fmt_v (DiagsToError diags)))
             (Some model)
      else after_records (model<|Model.Records := recordsList|>)
  end
  end end end.

(** [%T] of an element. *)
Definition GoTypeName (v : AttrValue) : string :=
  match v with
  | AString _ => "basetypes.StringValue"
  | ABool _ => "basetypes.BoolValue"
  | AInt64 _ => "basetypes.Int64Value"
  end.

(** The loop shared by the two payload builders: each element must be a
    [types.String]; its content is appended to [records]. *)
Fixpoint toRecords (i : nat) (elements : list AttrValue) (records : list RecordPayload.t)
  : list RecordPayload.t * option Go.error :=
  match elements with
  | [] => (records, None)
  | record :: elements' =>
      match record with
      | AString recordString =>
          toRecords (S i) elements'
            (records ++ [ {| RecordPayload.Content := ValueStringPointer recordString |} ])%list
      | _ =>
          (records,
           Some ("expected record at index " ++ string_of_Z (Z.of_nat i)
                 ++ " to be of type basetypes.StringValue, got " ++ GoTypeName record))
      end
  end.

Definition toCreatePayload (model : option Model.t)
  : option CreateRecordSetPayload.t * option Go.error :=
  match model with
  | None => (None, Some "nil model")
  | Some model =>
      match toRecords 0 (List_Elements (Model.Records model)) [] with
      | (_, Some err) => (None, Some err)
      | (records, None) =>
          (Some {| CreateRecordSetPayload.Comment := ValueStringPointer (Model.Comment model);
                   CreateRecordSetPayload.Name := ValueStringPointer (Model.Name model);
                   CreateRecordSetPayload.Records := Some records;
                   CreateRecordSetPayload.Ttl := conversion.ToPtrInt32 (Model.TTL model);
                   CreateRecordSetPayload.Type_ := ValueStringPointer (Model.Type_ model) |},
           None)
      end
  end.

Definition toUpdatePayload (model : option Model.t)
  : option UpdateRecordSetPayload.t * option Go.error :=
  match model with
  | None => (None, Some "nil model")
  | Some model =>
      match toRecords 0 (List_Elements (Model.Records model)) [] with
      | (_, Some err) => (None, Some err)
      | (records, None) =>
          (Some {| UpdateRecordSetPayload.Comment := ValueStringPointer (Model.Comment model);
                   UpdateRecordSetPayload.Name := ValueStringPointer (Model.Name model);
                   UpdateRecordSetPayload.Records := Some records;
                   UpdateRecordSetPayload.Ttl := conversion.ToPtrInt32 (Model.TTL model) |},
           None)
      end
  end.

Module recordSetResource.

(** Create creates the resource and sets the initial Terraform state. *)
Definition Create (r : APIClient.t) (req : CreateRequest) : Method unit :=
  let '(model, diags) := CreatePlan req in
  Diagnostics_Append diags ;;
  failed ← Diagnostics_HasError ;
  when failed return_ ;;
  let projectId := ValueString (Model.ProjectId model) in
  let zoneId := ValueString (Model.ZoneId model) in
  match toCreatePayload (Some model) with
  | (_, Some err) =>
      Response_LogAndAddError "Error creating recordset" ("Creating API payload: " ++ err) ;;
      return_
  | (None, None) => panic
  | (Some payload, None) =>
  '(recordSetResp, err) ← sdk (Call.CreateRecordSet projectId zoneId payload)
                               (APIClient.CreateRecordSet r projectId zoneId payload) ;
  let failure : Method unit :=
    Response_LogAndAddError "Error creating recordset" ("Calling API: " ++ Go.fmt_v err) ;;
    return_ in
  match err, recordSetResp with
  | Some _, _ => failure
  | None, None => panic
  | None, Some resp =>
  match RecordSetResponse.Rrset resp with
  | None => failure
  | Some rrset =>
  match RecordSet.Id rrset with
  | None => failure
  | Some id =>
  '(wr, err) ← sdk (Call.CreateRecordSetWaitHandler projectId zoneId id (1 * Go.Minute)%Z)
                    (APIClient.CreateRecordSetWaitHandler r projectId zoneId id (1 * Go.Minute)%Z) ;
  match err with
  | Some e =>
      Response_LogAndAddError "Error creating recordset" ("Instance creation waiting: " ++ e) ;;
      return_
  | None =>
  match wr with
  | WaitOther =>
      Response_LogAndAddError "Error creating recordset" "Wait result conversion, got <nil>" ;;
      return_
  | WaitRecordSetResponse got =>
  match mapFields got (Some model) with
  | Crashed => panic
  | Returned (Some err) _ =>
      Response_LogAndAddError "Error mapping fields" err ;;
      return_
  | Returned None None => panic
  | Returned None (Some model) =>
      diags ← State_Set model ;
      Diagnostics_Append diags
  end end end end end end end.

(** Read refreshes the Terraform state with the latest data. *)
Definition Read (r : APIClient.t) (req : ReadRequest) : Method unit :=
  let '(model, diags) := ReadState req in
  Diagnostics_Append diags ;;
  failed ← Diagnostics_HasError ;
  when failed return_ ;;
  let projectId := ValueString (Model.ProjectId model) in
  let zoneId := ValueString (Model.ZoneId model) in
  let recordSetId := ValueString (Model.RecordSetId model) in
  '(recordSetResp, err) ← sdk (Call.GetRecordSet projectId zoneId recordSetId)
                               (APIClient.GetRecordSet r projectId zoneId recordSetId) ;
  match err with
  | Some e =>
      Response_LogAndAddError "Error reading zones" e ;;
      return_
  | None =>
  match mapFields recordSetResp (Some model) with
  | Crashed => panic
  | Returned (Some err) _ =>
      Response_LogAndAddError "Error mapping fields" err ;;
      return_
  | Returned None None => panic
  | Returned None (Some model) =>
      diags ← State_Set model ;
      Diagnostics_Append diags
  end end.

(** Update updates the resource and sets the updated Terraform state on success. *)
Definition Update (r : APIClient.t) (req : UpdateRequest) : Method unit :=
  let '(model, diags) := UpdatePlan req in
  Diagnostics_Append diags ;;
  failed ← Diagnostics_HasError ;
  when failed return_ ;;
  let projectId := ValueString (Model.ProjectId model) in
  let zoneId := ValueString (Model.ZoneId model) in
  let recordSetId := ValueString (Model.RecordSetId model) in
  match toUpdatePayload (Some model) with
  | (_, Some err) =>
      Response_LogAndAddError "Error updating recordset" ("Could not create API payload: " ++ err) ;;
      return_
  | (None, None) => panic
  | (Some payload, None) =>
  err ← sdk (Call.UpdateRecordSet projectId zoneId recordSetId payload)
            (APIClient.UpdateRecordSet r projectId zoneId recordSetId payload) ;
  match err with
  | Some e =>
      Response_LogAndAddError "Error updating recordset" e ;;
      return_
  | None =>
  '(wr, err) ← sdk (Call.UpdateRecordSetWaitHandler projectId zoneId recordSetId (1 * Go.Minute)%Z)
                    (APIClient.UpdateRecordSetWaitHandler r projectId zoneId recordSetId
                       (1 * Go.Minute)%Z) ;
  match err with
  | Some e =>
      Response_LogAndAddError "Error updating recordset" ("Instance update waiting: " ++ e) ;;
      return_
  | None =>
  match wr with
  | WaitOther =>
      Response_LogAndAddError "Error updating recordset" "Wait result conversion, got <nil>" ;;
      return_
  | WaitRecordSetResponse _ =>
  '(recordSetResp, err) ← sdk (Call.GetRecordSet projectId zoneId recordSetId)
                               (APIClient.GetRecordSet r projectId zoneId recordSetId) ;
  match err with
  | Some e =>
      Response_LogAndAddError "Error reading updated data" e ;;
      return_
  | None =>
  match mapFields recordSetResp (Some model) with
  | Crashed => panic
  | Returned (Some err) _ =>
      Response_LogAndAddError "Error mapping fields in update" err ;;
      return_
  | Returned None None => panic
  | Returned None (Some model) =>
      diags ← State_Set model ;
      Diagnostics_Append diags
  end end end end end end.

(** Delete deletes the resource and removes the Terraform state on success.
    After a failed [DeleteRecordSet] the method adds the error and goes on. *)
Definition Delete (r : APIClient.t) (req : DeleteRequest) : Method unit :=
  let '(model, diags) := DeleteState req in
  Diagnostics_Append diags ;;
  failed ← Diagnostics_HasError ;
  when failed return_ ;;
  let projectId := ValueString (Model.ProjectId model) in
  let zoneId := ValueString (Model.ZoneId model) in
  let recordSetId := ValueString (Model.RecordSetId model) in
  err ← sdk (Call.DeleteRecordSet projectId zoneId recordSetId)
            (APIClient.DeleteRecordSet r projectId zoneId recordSetId) ;
  match err with
  | Some e => Response_LogAndAddError "Error deleting recordset" e
  | None => mret tt
  end ;;
  err ← sdk (Call.DeleteRecordSetWaitHandler projectId zoneId recordSetId (1 * Go.Minute)%Z)
            (APIClient.DeleteRecordSetWaitHandler r projectId zoneId recordSetId (1 * Go.Minute)%Z) ;
  match err with
  | Some e =>
      Response_LogAndAddError "Error deleting record set" ("Instance deletion waiting: " ++ e) ;;
      return_
  | None => mret tt
  end.

(** ImportState imports a resource into the Terraform state on success.
    The expected format of the resource import identifier is:
    project_id,zone_id,record_set_id *)
Definition ImportState (req : ImportStateRequest) : Op Call.t Attributes unit :=
  let idParts := Go.Split (ID req) core.Separator in
  when (negb (length idParts =? 3)%nat
        || (nth 0 idParts "" =? "") || (nth 1 idParts "" =? "") || (nth 2 idParts "" =? ""))
    (Diagnostics_AddError "Unexpected Import Identifier"
       ("Expected import identifier with format [project_id],[zone_id],[record_set_id], got "
        ++ Go.Quote (ID req)) ;;
     return_) ;;
  State_SetAttribute "project_id" (nth 0 idParts "") ;;
  State_SetAttribute "zone_id" (nth 1 idParts "") ;;
  State_SetAttribute "record_set_id" (nth 2 idParts "").

(** Configure adds the provider configured client to the resource. *)
Definition Configure
  (NewAPIClient : list config.ConfigurationOption → option APIClient.t * option Go.error)
  (req : ConfigureRequest)
  : Op (list config.ConfigurationOption) (option APIClient.t) unit :=
  match ProviderData req with
  | core.NoProviderData => return_
  | core.OtherProviderData typeName =>
      Diagnostics_AddError "Unexpected Resource Configure Type"
        ("Expected stackit.ProviderData, got " ++ typeName
         ++ ". Please report this issue to the provider developers.") ;;
      return_
  | core.IsProviderData providerData =>
      let options :=
        if negb (core.DnsCustomEndpoint providerData =? "")
        then [ config.WithCustomAuth (core.RoundTripper_ providerData);
               config.WithEndpoint (core.DnsCustomEndpoint providerData) ]
        else [ config.WithCustomAuth (core.RoundTripper_ providerData) ] in
      '(apiClient, err) ← sdk options (NewAPIClient options) ;
      match err with
      | Some e =>
          Diagnostics_AddError "Could not Configure API Client" e ;;
          return_
      | None => State_update (fun _ => apiClient)
      end
  end.

End recordSetResource.

Module recordSetDataSource.

(** Configure adds the provider configured client to the resource. *)
Definition Configure
  (NewAPIClient : list config.ConfigurationOption → option APIClient.t * option Go.error)
  (req : ConfigureRequest)
  : Op (list config.ConfigurationOption) (option APIClient.t) unit :=
  match ProviderData req with
  | core.NoProviderData => return_
  | core.OtherProviderData typeName =>
      Diagnostics_AddError "Unexpected Data Source Configure Type"
        ("Expected stackit.ProviderData, got " ++ typeName
         ++ ". Please report this issue to the provider developers.") ;;
      return_
  | core.IsProviderData providerData =>
      let options :=
        if negb (core.DnsCustomEndpoint providerData =? "")
        then [ config.WithCustomAuth (core.RoundTripper_ providerData);
               config.WithEndpoint (core.DnsCustomEndpoint providerData) ]
        else [ config.WithCustomAuth (core.RoundTripper_ providerData) ] in
      '(apiClient, err) ← sdk options (NewAPIClient options) ;
      match err with
      | Some e =>
          Diagnostics_AddError "Could not Configure API Client" e ;;
          return_
      | None => State_update (fun _ => apiClient)
      end
  end.

(** Read refreshes the Terraform state with the latest data. *)
Definition Read (d : APIClient.t) (req : DataSourceReadRequest) : Method unit :=
  let '(state, diags) := Config req in
  Diagnostics_Append diags ;;
  failed ← Diagnostics_HasError ;
  when failed return_ ;;
  let projectId := ValueString (Model.ProjectId state) in
  let zoneId := ValueString (Model.ZoneId state) in
  let recordSetId := ValueString (Model.RecordSetId state) in
  '(zoneResp, err) ← sdk (Call.GetRecordSet projectId zoneId recordSetId)
                          (APIClient.GetRecordSet d projectId zoneId recordSetId) ;
  match err with
  | Some e =>
      Response_LogAndAddError "Unable to Read record set" e ;;
      return_
  | None =>
  match mapFields zoneResp (Some state) with
  | Crashed => panic
  | Returned (Some err) _ =>
      Response_LogAndAddError "Mapping fields" err ;;
      return_
  | Returned None None => panic
  | Returned None (Some state) =>
      diags ← State_Set state ;
      Diagnostics_Append diags ;;
      failed ← Diagnostics_HasError ;
      when failed return_
  end end.

End recordSetDataSource.

End Dns.

(** * The destroy check of the PostgreSQL acceptance test
      (package postgresql_test, in the same source file) *)

(** [utils.Contains] of the SDK: the element is in the slice. *)
Module utils.
Definition Contains (slice : list string) (element : string) : bool :=
  existsb (String.eqb element) slice.
End utils.

(** The part of [terraform.State] the check reads: the resources of the
    root module, each with its type and the id of its primary instance
    ([rs.Primary] is a pointer). Go iterates the resources, a map, in no
    fixed order; the check only collects a set of ids from them, so a list
    stands for any of these orders. *)
Module terraform.
Record ResourceState : Type := {
  Type_ : string;
  Primary : option string;
}.
Definition State := list ResourceState.
End terraform.

Module postgresql.

Module InstanceLastOperation.
Record t : Type := {
  Description : option string;
  State : option string;
  Type_ : option string;
}.
End InstanceLastOperation.

Module Instance.
Record t : Type := {
  InstanceId : option string;
  LastOperation : option InstanceLastOperation.t;
}.
End Instance.

Module InstancesResponse.
Record t : Type := { Instances : option (list Instance.t) }.
End InstancesResponse.

(** The client, as the check uses it; [DeleteInstanceWaitHandler] stands
    for building the handler and waiting on it, and answers its error. *)
Module APIClient.
Record t : Type := {
  GetInstances : string → option InstancesResponse.t * option Go.error;
  DeleteInstanceExecute : string → string → option Go.error;
  DeleteInstanceWaitHandler : string → string → option Go.error;
}.
End APIClient.

Module Call.
Inductive t : Type :=
| NewAPIClient (options : list config.ConfigurationOption)
| GetInstances (projectId : string)
| DeleteInstanceExecute (projectId instanceId : string)
| DeleteInstanceWaitHandler (projectId instanceId : string).
End Call.

End postgresql.

Module postgresql_test.

Import postgresql.

(** The check returns an error; the state of the computation is the error
    returned so far ([None] is [nil]). *)
Abbreviation Check := (Op Call.t (option Go.error)).

(** [return err]. *)
Definition return_error {A} (err : Go.error) : Check A :=
  State_update (fun _ => Some err) ;; return_.

Section Check.

(** [postgresql.InstanceTypeDelete] and [postgresql.InstanceStateSuccess],
    constants of the SDK, [testutil.ProjectId] and
    [testutil.PostgreSQLCustomEndpoint], variables of the test utilities,
    and the SDK's constructor of the client. *)
Variables InstanceTypeDelete InstanceStateSuccess : string.
Variables ProjectId PostgreSQLCustomEndpoint : string.
Variable NewAPIClient :
  list config.ConfigurationOption → option APIClient.t * option Go.error.

(** [None] is a nil dereference. *)
Definition checkInstanceDeleteSuccess (i : Instance.t) : option bool :=
  match Instance.LastOperation i with
  | None => None
  | Some op =>
  match InstanceLastOperation.Type_ op with
  | None => None
  | Some type =>
      if negb (type =? InstanceTypeDelete) then Some false
      else if type =? InstanceTypeDelete then
        match InstanceLastOperation.State op with
        | None => None
        | Some state =>
            if negb (state =? InstanceStateSuccess) then Some false
            else match InstanceLastOperation.Description op with
                 | None => None
                 | Some description =>
                     if Go.Contains description "DeleteFailed"
                        || Go.Contains description "failed"
                     then Some false
                     else Some true
                 end
        end
      else Some true
  end end.

(** The first loop: the instance ids of the PostgreSQL instances in the
    state, the second part of each id. [None] is a panic: [rs.Primary] is
    nil, or the id has no second part. *)
Fixpoint instancesToDestroy_loop (resources : list terraform.ResourceState)
  (instancesToDestroy : list string) : option (list string) :=
  match resources with
  | [] => Some instancesToDestroy
  | rs :: resources' =>
      if negb (terraform.Type_ rs =? "stackit_postgresql_instance")
      then instancesToDestroy_loop resources' instancesToDestroy
      else
        match terraform.Primary rs with
        | None => None
        | Some id =>
            match nth_error (Go.Split id core.Separator) 1 with
            | None => None
            | Some instanceId =>
                instancesToDestroy_loop resources' (instancesToDestroy ++ [instanceId])%list
            end
        end
  end.

(** The second loop, over the instances the API lists. *)
Fixpoint destroy_loop (client : APIClient.t) (instancesToDestroy : list string)
  (instances : list Instance.t) : Check unit :=
  match instances with
  | [] => mret tt
  | i :: instances' =>
      match Instance.InstanceId i with
      | None => destroy_loop client instancesToDestroy instances'
      | Some instanceId =>
          if utils.Contains instancesToDestroy instanceId
          then
            match checkInstanceDeleteSuccess i with
            | None => panic
            | Some true => destroy_loop client instancesToDestroy instances'
            | Some false =>
                err ← sdk (Call.DeleteInstanceExecute ProjectId instanceId)
                          (APIClient.DeleteInstanceExecute client ProjectId instanceId) ;
                match err with
                | Some e =>
                    return_error ("destroying instance " ++ instanceId
                                  ++ " during CheckDestroy: " ++ e)
                | None =>
                err ← sdk (Call.DeleteInstanceWaitHandler ProjectId instanceId)
                          (APIClient.DeleteInstanceWaitHandler client ProjectId instanceId) ;
                match err with
                | Some e =>
                    return_error ("destroying instance " ++ instanceId
                                  ++ " during CheckDestroy: waiting for deletion " ++ e)
                | None => destroy_loop client instancesToDestroy instances'
                end end
            end
          else destroy_loop client instancesToDestroy instances'
      end
  end.

Definition testAccCheckPostgreSQLDestroy (s : terraform.State) : Check unit :=
  let options :=
    if PostgreSQLCustomEndpoint =? "" then []
    else [ config.WithEndpoint PostgreSQLCustomEndpoint ] in
  '(client, err) ← sdk (Call.NewAPIClient options) (NewAPIClient options) ;
  match err with
  | Some e => return_error ("creating client: " ++ e)
  | None =>
  match instancesToDestroy_loop s [] with
  | None => panic
  | Some instancesToDestroy =>
  match client with
  | None => panic
  | Some client =>
  '(instancesResp, err) ← sdk (Call.GetInstances ProjectId)
                              (APIClient.GetInstances client ProjectId) ;
  match err with
  | Some e => return_error ("getting instancesResp: " ++ e)
  | None =>
  match instancesResp ≫= InstancesResponse.Instances with
  | None => panic
  | Some instances => destroy_loop client instancesToDestroy instances
  end end end end end.

End Check.

End postgresql_test.

(** * Vocabulary of the properties *)

(** The identifier splits on the separator into exactly [n] parts, none of
    them empty. *)
Definition accepted (n : nat) (id : string) : bool :=
  let parts := Go.Split id core.Separator in
  (length parts =? n)%nat && forallb (fun p => negb (p =? "")) parts.

(** The string does not contain the separator (what the schema's
    [validate.NoSeparator] asks of the key attributes). *)
Definition NoSeparator (s : string) : bool :=
  forallb (fun c => negb (Ascii.eqb c ",")) (list_ascii_of_string s).

(** A function on the model returned an error. *)
Definition returns_error {M} (res : Mapped M) : Prop :=
  ∃ e m', res = Returned (Some e) m'.

(** The zero value of the two models ([var model Model]): every attribute
    is null. *)
Definition Argus_zero : Argus.Model.t :=
  {| Argus.Model.Id := Null; Argus.Model.ProjectId := Null; Argus.Model.InstanceId := Null;
     Argus.Model.Name := Null; Argus.Model.PlanName := Null; Argus.Model.PlanId := Null;
     Argus.Model.Parameters := MapNull StringType; Argus.Model.DashboardURL := Null;
     Argus.Model.IsUpdatable := Null; Argus.Model.GrafanaURL := Null;
     Argus.Model.GrafanaPublicReadAccess := Null;
     Argus.Model.GrafanaInitialAdminPassword := Null;
     Argus.Model.GrafanaInitialAdminUser := Null;
     Argus.Model.MetricsRetentionDays := Null;
     Argus.Model.MetricsRetentionDays5mDownsampling := Null;
     Argus.Model.MetricsRetentionDays1hDownsampling := Null;
     Argus.Model.MetricsURL := Null; Argus.Model.MetricsPushURL := Null;
     Argus.Model.TargetsURL := Null; Argus.Model.AlertingURL := Null;
     Argus.Model.LogsURL := Null; Argus.Model.LogsPushURL := Null;
     Argus.Model.JaegerTracesURL := Null; Argus.Model.JaegerUIURL := Null;
     Argus.Model.OtlpTracesURL := Null; Argus.Model.ZipkinSpansURL := Null |}.

Definition Dns_zero : Dns.Model.t :=
  {| Dns.Model.Id := Null; Dns.Model.RecordSetId := Null; Dns.Model.ZoneId := Null;
     Dns.Model.ProjectId := Null; Dns.Model.Active := Null; Dns.Model.Comment := Null;
     Dns.Model.Name := Null; Dns.Model.Records := ListNull StringType;
     Dns.Model.TTL := Null; Dns.Model.Type_ := Null; Dns.Model.Error := Null;
     Dns.Model.State := Null |}.

(** ** Sample inputs *)

(** The plan of an Argus instance in project "p" with plan name
    "Monitoring-Medium-EU01"; the plan id is not known yet. *)
Definition sample_plan : Argus.Model.t :=
  Argus_zero<|Argus.Model.ProjectId := Known "p"|>
            <|Argus.Model.Name := Known "monitoring"|>
            <|Argus.Model.PlanName := Known "Monitoring-Medium-EU01"|>
            <|Argus.Model.PlanId := Unknown|>
            <|Argus.Model.Parameters :=
                MapKnown StringType {[ "retention" := AString (Known "30") ]}|>.

(** An instance response that carries the [Instance] sub-struct but none
    of its retention times. *)
Definition instance_without_retention : Argus.InstanceSensitiveData.t :=
  {| Argus.InstanceSensitiveData.GrafanaUrl := Some "https://grafana";
     Argus.InstanceSensitiveData.GrafanaPublicReadAccess := Some false;
     Argus.InstanceSensitiveData.GrafanaAdminPassword := None;
     Argus.InstanceSensitiveData.GrafanaAdminUser := None;
     Argus.InstanceSensitiveData.MetricsRetentionTimeRaw := None;
     Argus.InstanceSensitiveData.MetricsRetentionTime5m := None;
     Argus.InstanceSensitiveData.MetricsRetentionTime1h := None;
     Argus.InstanceSensitiveData.MetricsUrl := None;
     Argus.InstanceSensitiveData.PushMetricsUrl := None;
     Argus.InstanceSensitiveData.TargetsUrl := None;
     Argus.InstanceSensitiveData.AlertingUrl := None;
     Argus.InstanceSensitiveData.LogsUrl := None;
     Argus.InstanceSensitiveData.LogsPushUrl := None;
     Argus.InstanceSensitiveData.JaegerTracesUrl := None;
     Argus.InstanceSensitiveData.JaegerUiUrl := None;
     Argus.InstanceSensitiveData.OtlpTracesUrl := None;
     Argus.InstanceSensitiveData.ZipkinSpansUrl := None |}.

Definition response_without_retention : Argus.InstanceResponse.t :=
  {| Argus.InstanceResponse.Id := Some "i";
     Argus.InstanceResponse.PlanName := Some "Monitoring-Medium-EU01";
     Argus.InstanceResponse.PlanId := Some "plan-1";
     Argus.InstanceResponse.Name := Some "monitoring";
     Argus.InstanceResponse.Parameters := None;
     Argus.InstanceResponse.IsUpdatable := Some true;
     Argus.InstanceResponse.DashboardUrl := None;
     Argus.InstanceResponse.Instance := Some instance_without_retention |}.

(** A record set read back from the API. *)
Definition sample_rrset : Dns.RecordSet.t :=
  {| Dns.RecordSet.Id := Some "rs";
     Dns.RecordSet.Records :=
       Some [ {| Dns.Record_.Content := Some "192.0.2.1" |};
              {| Dns.Record_.Content := Some "192.0.2.2" |} ];
     Dns.RecordSet.Active := Some true;
     Dns.RecordSet.Comment := Some "a comment";
     Dns.RecordSet.Error := None;
     Dns.RecordSet.Name := Some "www.example.com";
     Dns.RecordSet.State := Some "CREATE_SUCCEEDED";
     Dns.RecordSet.Ttl := Some 3600%Z;
     Dns.RecordSet.Type_ := Some "A" |}.

(** The same record set as the API answers it without an id. *)
Definition rrset_without_id : Dns.RecordSet.t :=
  sample_rrset<|Dns.RecordSet.Id := None|>.

(** The configuration of a record set "rs" in zone "z" of project "p". *)
Definition sample_config : Dns.Model.t :=
  Dns_zero<|Dns.Model.ProjectId := Known "p"|>
          <|Dns.Model.ZoneId := Known "z"|>
          <|Dns.Model.RecordSetId := Known "rs"|>.

(** The SDK calls made by a run. *)
Definition calls {Call St} (o : Outcome Call St) : list Call := Trace (final o).

(** The timeout a call hands to a wait handler, if it is one. *)
Definition Argus_wait_timeout (c : Argus.Call.t) : option Go.Duration :=
  match c with
  | Argus.Call.CreateInstanceWaitHandler _ _ timeout
  | Argus.Call.UpdateInstanceWaitHandler _ _ timeout
  | Argus.Call.DeleteInstanceWaitHandler _ _ timeout => Some timeout
  | _ => None
  end.

Definition Dns_wait_timeout (c : Dns.Call.t) : option Go.Duration :=
  match c with
  | Dns.Call.CreateRecordSetWaitHandler _ _ _ timeout
  | Dns.Call.UpdateRecordSetWaitHandler _ _ _ timeout
  | Dns.Call.DeleteRecordSetWaitHandler _ _ _ timeout => Some timeout
  | _ => None
  end.



(** An instance response as the API gives it for a running instance. *)
Definition sample_instance : Argus.InstanceSensitiveData.t :=
  instance_without_retention
    <|Argus.InstanceSensitiveData.MetricsRetentionTimeRaw := Some 90%Z|>
    <|Argus.InstanceSensitiveData.MetricsRetentionTime5m := Some 30%Z|>
    <|Argus.InstanceSensitiveData.MetricsRetentionTime1h := Some 10%Z|>.

Definition sample_instance_response : Argus.InstanceResponse.t :=
  response_without_retention<|Argus.InstanceResponse.Instance := Some sample_instance|>.

(** An Argus backend on which every call succeeds. *)
Definition healthy_argus : Argus.APIClient.t :=
  {| Argus.APIClient.GetPlans := fun _ =>
       (Some {| Argus.PlansResponse.Plans :=
                  Some [ {| Argus.Plan.Name := Some "Monitoring-Medium-EU01";
                            Argus.Plan.PlanId := Some "plan-1" |} ] |}, None);
     Argus.APIClient.CreateInstance := fun _ _ =>
       (Some {| Argus.CreateInstanceResponse.InstanceId := Some "i" |}, None);
     Argus.APIClient.CreateInstanceWaitHandler := fun _ _ _ =>
       (Argus.WaitInstanceResponse (Some sample_instance_response), None);
     Argus.APIClient.GetInstance := fun _ _ => (Some sample_instance_response, None);
     Argus.APIClient.UpdateInstance := fun _ _ _ => None;
     Argus.APIClient.UpdateInstanceWaitHandler := fun _ _ _ =>
       (Argus.WaitInstanceResponse (Some sample_instance_response), None);
     Argus.APIClient.DeleteInstance := fun _ _ => None;
     Argus.APIClient.DeleteInstanceWaitHandler := fun _ _ _ => None |}.

(** The same backend when listing the plans fails. *)
Definition argus_without_plans : Argus.APIClient.t :=
  healthy_argus<|Argus.APIClient.GetPlans := fun _ => (None, Some "plans unavailable")|>.

(** A DNS backend on which every call succeeds. *)
Definition healthy_dns : Dns.APIClient.t :=
  {| Dns.APIClient.CreateRecordSet := fun _ _ _ =>
       (Some {| Dns.RecordSetResponse.Rrset := Some sample_rrset |}, None);
     Dns.APIClient.CreateRecordSetWaitHandler := fun _ _ _ _ =>
       (Dns.WaitRecordSetResponse (Some {| Dns.RecordSetResponse.Rrset := Some sample_rrset |}),
        None);
     Dns.APIClient.GetRecordSet := fun _ _ _ =>
       (Some {| Dns.RecordSetResponse.Rrset := Some sample_rrset |}, None);
     Dns.APIClient.UpdateRecordSet := fun _ _ _ _ => None;
     Dns.APIClient.UpdateRecordSetWaitHandler := fun _ _ _ _ =>
       (Dns.WaitRecordSetResponse (Some {| Dns.RecordSetResponse.Rrset := Some sample_rrset |}),
        None);
     Dns.APIClient.DeleteRecordSet := fun _ _ _ => None;
     Dns.APIClient.DeleteRecordSetWaitHandler := fun _ _ _ _ => None |}.

(** The same backend when deleting a record set fails. *)
Definition dns_refusing_delete : Dns.APIClient.t :=
  healthy_dns<|Dns.APIClient.DeleteRecordSet := fun _ _ _ => Some "record set is locked"|>.

(** The same backend when it answers a read without the record set id. *)
Definition dns_answering_without_id : Dns.APIClient.t :=
  healthy_dns<|Dns.APIClient.GetRecordSet := fun _ _ _ =>
                 (Some {| Dns.RecordSetResponse.Rrset := Some rrset_without_id |}, None)|>.

(** The state of an Argus instance "i" of project "p". *)
Definition sample_state : Argus.Model.t :=
  sample_plan<|Argus.Model.InstanceId := Known "i"|>
             <|Argus.Model.PlanId := Known "plan-1"|>.

(** The test of the loop of [loadPlanId]: the plan has a name that folds to
    [planName], and an id. *)
Definition plan_matches (planName : string) (p : Argus.Plan.t) : bool :=
  match Argus.Plan.Name p with
  | Some name => Go.EqualFold name planName && bool_decide (Argus.Plan.PlanId p ≠ None)
  | None => false
  end.

(** The list of names [loadPlanId] prints: one line ["- name"] for each. *)
Definition name_lines (names : list string) : string :=
  String.concat "" ((fun name => String Go.newline "- " ++ name) <$> names).

(** An Argus backend that creates the instance but does not answer its id. *)
Definition argus_answering_without_id : Argus.APIClient.t :=
  healthy_argus<|Argus.APIClient.CreateInstance := fun _ _ =>
                   (Some {| Argus.CreateInstanceResponse.InstanceId := None |}, None)|>.

(** The element is a [types.String]. *)
Definition is_string_value (v : AttrValue) : bool :=
  match v with
  | AString _ => true
  | _ => false
  end.

(** What a record payload holds for an element that is a [types.String]. *)
Definition record_of (v : AttrValue) : Dns.RecordPayload.t :=
  {| Dns.RecordPayload.Content :=
       match v with
       | AString s => ValueStringPointer s
       | _ => None
       end |}.

(** What a Configure method leaves behind when it starts from the client
    [before] and an empty list of diagnostics: either it reports an error
    and keeps the client it had, or it reports nothing and holds the client
    the one call of the SDK's constructor answered without an error; or,
    for a provider that is not configured, it does nothing at all. *)
Definition configured_by {C}
  (NewAPIClient : list config.ConfigurationOption → option C * option Go.error)
  (providerData : core.AnyProviderData) (before : option C)
  (w : Response (list config.ConfigurationOption) (option C)) : Prop :=
  match providerData with
  | core.NoProviderData => w = fresh before
  | core.OtherProviderData _ =>
      Trace w = [] ∧ HasError (Diags w) = true ∧ State w = before
  | core.IsProviderData _ =>
      ∃ options, Trace w = [options] ∧
        ((HasError (Diags w) = true ∧ State w = before ∧
          ∃ e, (NewAPIClient options).2 = Some e) ∨
         (Diags w = [] ∧ NewAPIClient options = (State w, None)))
  end.

(** The options of one call of the constructor: the provider's round
    tripper is among them; an endpoint among them is not empty and excludes
    a region; a region is among them only if [region] allows it. *)
Definition options_of (providerData : core.ProviderData) (region : bool)
  (options : list config.ConfigurationOption) : Prop :=
  config.WithCustomAuth (core.RoundTripper_ providerData) ∈ options ∧
  (∀ e, config.WithEndpoint e ∈ options →
        e ≠ "" ∧ ∀ r, config.WithRegion r ∉ options) ∧
  (∀ r, config.WithRegion r ∈ options → region = true ∧ r = core.Region providerData).

(** The keys an SDK call is addressed to: the project, and the instance if
    the call names one. *)
Definition Argus_call_keys (c : Argus.Call.t) : string * option string :=
  match c with
  | Argus.Call.GetPlans p | Argus.Call.CreateInstance p _ => (p, None)
  | Argus.Call.CreateInstanceWaitHandler i p _
  | Argus.Call.GetInstance i p
  | Argus.Call.UpdateInstance i p _
  | Argus.Call.UpdateInstanceWaitHandler i p _
  | Argus.Call.DeleteInstance i p
  | Argus.Call.DeleteInstanceWaitHandler i p _ => (p, Some i)
  end.

(** The project, the zone, and the record set if the call names one. *)
Definition Dns_call_keys (c : Dns.Call.t) : string * string * option string :=
  match c with
  | Dns.Call.CreateRecordSet p z _ => (p, z, None)
  | Dns.Call.CreateRecordSetWaitHandler p z rs _
  | Dns.Call.GetRecordSet p z rs
  | Dns.Call.UpdateRecordSet p z rs _
  | Dns.Call.UpdateRecordSetWaitHandler p z rs _
  | Dns.Call.DeleteRecordSet p z rs
  | Dns.Call.DeleteRecordSetWaitHandler p z rs _ => (p, z, Some rs)
  end.

(** The entity a call names, if it names one, is [entity]. *)
Definition names_only (entity : string) (named : option string) : bool :=
  match named with
  | Some e => e =? entity
  | None => true
  end.

(** The call is addressed to the key attributes of the model. *)
Definition Argus_call_for (model : Argus.Model.t) (c : Argus.Call.t) : bool :=
  let '(p, i) := Argus_call_keys c in
  (p =? ValueString (Argus.Model.ProjectId model))
  && names_only (ValueString (Argus.Model.InstanceId model)) i.

Definition Dns_call_for (model : Dns.Model.t) (c : Dns.Call.t) : bool :=
  let '(p, z, rs) := Dns_call_keys c in
  (p =? ValueString (Dns.Model.ProjectId model))
  && (z =? ValueString (Dns.Model.ZoneId model))
  && names_only (ValueString (Dns.Model.RecordSetId model)) rs.

(** The call is addressed to the project (and zone) of the model. *)
Definition Argus_call_in_project (model : Argus.Model.t) (c : Argus.Call.t) : bool :=
  (Argus_call_keys c).1 =? ValueString (Argus.Model.ProjectId model).

Definition Dns_call_in_zone (model : Dns.Model.t) (c : Dns.Call.t) : bool :=
  let '(p, z, _) := Dns_call_keys c in
  (p =? ValueString (Dns.Model.ProjectId model))
  && (z =? ValueString (Dns.Model.ZoneId model)).



(** The state names the instance: one of its PostgreSQL instances has an id
    whose second part is [instanceId]. *)
Definition names_instance (s : terraform.State) (instanceId : string) : Prop :=
  ∃ rs id,
    rs ∈ s ∧ terraform.Type_ rs = "stackit_postgresql_instance" ∧
    terraform.Primary rs = Some id ∧
    nth_error (Go.Split id core.Separator) 1 = Some instanceId.

(** Where a step of a computation leaves the response. *)
Definition landed {Call St A} (s : Step Call St A) : Response Call St :=
  match s with
  | Next _ _ w | Return _ w | Panic _ w => w
  end.

(** A Terraform state with one PostgreSQL instance, and a backend that
    lists this instance, running, and deletes it when asked. *)
Definition postgres_state : terraform.State :=
  [ {| terraform.Type_ := "stackit_postgresql_instance"; terraform.Primary := Some "p,i" |} ].

Definition running_instance : postgresql.Instance.t :=
  {| postgresql.Instance.InstanceId := Some "i";
     postgresql.Instance.LastOperation :=
       Some {| postgresql.InstanceLastOperation.Description := Some "created";
               postgresql.InstanceLastOperation.State := Some "succeeded";
               postgresql.InstanceLastOperation.Type_ := Some "create" |} |}.

Definition healthy_postgresql : postgresql.APIClient.t :=
  {| postgresql.APIClient.GetInstances := fun _ =>
       (Some {| postgresql.InstancesResponse.Instances := Some [running_instance] |}, None);
     postgresql.APIClient.DeleteInstanceExecute := fun _ _ => None;
     postgresql.APIClient.DeleteInstanceWaitHandler := fun _ _ => None |}.

(** The destroy check of the test, on that backend. *)
Definition sample_destroy_check (s : terraform.State) : postgresql_test.Check unit :=
  postgresql_test.testAccCheckPostgreSQLDestroy "delete" "succeeded" "p" ""
    (fun _ => (Some healthy_postgresql, None)) s.


(** Every byte of the string is below 0x80 ([utf8.RuneSelf]). On such
    strings [Go.EqualFold] and [Go.Quote] compute what [strings.EqualFold]
    and [strconv.Quote] compute; beyond them Go folds and escapes by the
    Unicode tables, which the two models do not have. The properties that
    depend on the outcome of these two functions are stated for such
    strings. *)
Definition is_ascii (s : string) : bool :=
  forallb (fun c => (nat_of_ascii c <? 128)%nat) (list_ascii_of_string s).

(** Two plans as the API lists them. *)
Definition listed_plans : list Argus.Plan.t :=
  [ {| Argus.Plan.Name := Some "Monitoring-Small-EU01"; Argus.Plan.PlanId := Some "plan-0" |};
    {| Argus.Plan.Name := Some "Monitoring-Medium-EU01"; Argus.Plan.PlanId := Some "plan-1" |} ].



Definition Dns_created
  (answer : option Dns.RecordSetResponse.t * option Go.error) : option string :=
  match answer with
  | (Some resp, None) => Dns.RecordSetResponse.Rrset resp ≫= Dns.RecordSet.Id
  | _ => None
  end.



(** A planned record set with two records. *)
Definition config_with_records : Dns.Model.t :=
  sample_config<|Dns.Model.Name := Known "www"|>
               <|Dns.Model.Records :=
                   ListKnown StringType [AString (Known "1.2.3.4"); AString (Known "5.6.7.8")]|>.

(** * Properties *)

(** ** Diagnostics *)

Lemma elem_of_Append (ds new : Diagnostics) (d : Diagnostic) :
  d ∈ Append ds new ↔ d ∈ ds ∨ d ∈ new.
Proof.
  revert ds. induction new as [|x new IH]; intros ds; simpl.
  - rewrite elem_of_nil. tauto.
  - rewrite IH, elem_of_cons. case_bool_decide as Hin.
    + split; [tauto|]. intros [?|[->|?]]; auto.
    + rewrite elem_of_app, list_elem_of_singleton. tauto.
Qed.

Lemma HasError_elem_of (ds : Diagnostics) :
  HasError ds = true ↔ ∃ d, d ∈ ds ∧ is_error d = true.
Proof.
  unfold HasError. rewrite existsb_exists.
  split; intros (d & Hd & He); exists d; split; auto; by apply list_elem_of_In.
Qed.

Lemma HasError_Append (ds new : Diagnostics) :
  HasError (Append ds new) = HasError ds || HasError new.
Proof.
  apply eq_true_iff_eq. rewrite orb_true_iff, !HasError_elem_of.
  split.
  - intros (d & Hd & He). apply elem_of_Append in Hd as [Hd|Hd]; eauto.
  - intros [(d & Hd & He)|(d & Hd & He)]; exists d; rewrite elem_of_Append; auto.
Qed.

Lemma Append_nil_l_HasError (new : Diagnostics) :
  HasError (Append [] new) = HasError new.
Proof. by rewrite HasError_Append. Qed.

Lemma AddError_elem_of (ds : Diagnostics) (summary detail : string) :
  NewErrorDiagnostic summary detail ∈ AddError ds summary detail.
Proof. unfold AddError. rewrite elem_of_Append, list_elem_of_singleton. auto. Qed.

Lemma AddError_HasError (ds : Diagnostics) (summary detail : string) :
  HasError (AddError ds summary detail) = true.
Proof.
  apply HasError_elem_of. eexists. split; [apply AddError_elem_of|done].
Qed.

(** ** Import identifiers *)

Lemma accepted_spec (n : nat) (id : string) :
  accepted n id = true ↔
  length (Go.Split id core.Separator) = n ∧
  Forall (fun p => p ≠ "") (Go.Split id core.Separator).
Proof.
  unfold accepted. rewrite andb_true_iff, Nat.eqb_eq, forallb_forall, Forall_forall.
  split; intros [Hl Hp]; split; auto; intros p Hin.
  - apply list_elem_of_In, Hp in Hin. apply negb_true_iff, String.eqb_neq in Hin. done.
  - apply negb_true_iff, String.eqb_neq, Hp. by apply list_elem_of_In.
Qed.

Lemma guard2 (parts : list string) :
  negb (length parts =? 2)%nat || (nth 0 parts "" =? "") || (nth 1 parts "" =? "")
  = negb ((length parts =? 2)%nat && forallb (fun p => negb (p =? "")) parts).
Proof.
  destruct parts as [|a [|b [|c parts]]]; simpl; try done.
  destruct (a =? ""), (b =? ""); done.
Qed.

Lemma guard3 (parts : list string) :
  negb (length parts =? 3)%nat || (nth 0 parts "" =? "") || (nth 1 parts "" =? "")
    || (nth 2 parts "" =? "")
  = negb ((length parts =? 3)%nat && forallb (fun p => negb (p =? "")) parts).
Proof.
  destruct parts as [|a [|b [|c [|d parts]]]]; simpl; try done.
  destruct (a =? ""), (b =? ""), (c =? ""); done.
Qed.

(** C4. ImportState writes the key attributes, taken from the parts of the
    identifier, exactly when the identifier splits on the separator into the
    expected number of non-empty parts (two for the Argus instance, three
    for the DNS record set); for every other identifier it adds one
    "Unexpected Import Identifier" error and leaves the state as it was. No
    SDK call is made either way. *)
Theorem ImportState_accepts_exactly (id : string) (st : Attributes) :
  (∃ w, exec (Argus.ImportState {| Argus.ID := id |}) (fresh st) = Finished w ∧
        Trace w = [] ∧
        if accepted 2 id
        then Diags w = [] ∧
             State w = <["instance_id" := nth 1 (Go.Split id core.Separator) ""]>
                         (<["project_id" := nth 0 (Go.Split id core.Separator) ""]> st)
        else (∃ detail, Diags w = [NewErrorDiagnostic "Unexpected Import Identifier" detail]) ∧
             State w = st) ∧
  (∃ w, exec (Dns.recordSetResource.ImportState {| Dns.ID := id |}) (fresh st) = Finished w ∧
        Trace w = [] ∧
        if accepted 3 id
        then Diags w = [] ∧
             State w = <["record_set_id" := nth 2 (Go.Split id core.Separator) ""]>
                         (<["zone_id" := nth 1 (Go.Split id core.Separator) ""]>
                            (<["project_id" := nth 0 (Go.Split id core.Separator) ""]> st))
        else (∃ detail, Diags w = [NewErrorDiagnostic "Unexpected Import Identifier" detail]) ∧
             State w = st).
Proof.
  split.
  - unfold Argus.ImportState, accepted. simpl Argus.ID.
    rewrite guard2.
    destruct (_ && _); simpl; eexists; (split; [reflexivity|]); simpl; eauto.
  - unfold Dns.recordSetResource.ImportState, accepted. simpl Dns.ID.
    rewrite guard3.
    destruct (_ && _); simpl; eexists; (split; [reflexivity|]); simpl; eauto.
Qed.

(** ** Collections of strings always have the string element type *)

Lemma MapValueFrom_strings (ps : gmap string string) :
  MapValueFrom StringType ((fun v => AString (StringValue v)) <$> ps)
  = (MapKnown StringType ((fun v => AString (StringValue v)) <$> ps), []).
Proof.
  unfold MapValueFrom.
  replace (forallb _ _) with true; [done|].
  symmetry. apply forallb_forall. intros [k v] Hin.
  apply list_elem_of_In, elem_of_map_to_list in Hin.
  rewrite lookup_fmap in Hin. apply fmap_Some in Hin as (s & _ & ->). done.
Qed.

Lemma ListValue_strings {A} (f : A -> TString) (rs : list A) :
  ListValue StringType ((fun x => AString (f x)) <$> rs)
  = (ListKnown StringType ((fun x => AString (f x)) <$> rs), []).
Proof.
  unfold ListValue.
  replace (forallb _ _) with true; [done|].
  symmetry. apply forallb_forall. intros v Hin.
  apply list_elem_of_In, list_elem_of_fmap in Hin as (x & -> & _). done.
Qed.

(** ** Argus mapFields *)

Lemma Argus_mapInstance_returns i m err m' :
  Argus.mapInstance i m = Returned err m' →
  err = None ∧
  ∃ m'', m' = Some m'' ∧
         Argus.Model.Id m'' = Argus.Model.Id m ∧
         Argus.Model.InstanceId m'' = Argus.Model.InstanceId m ∧
         Argus.Model.ProjectId m'' = Argus.Model.ProjectId m.
Proof.
  unfold Argus.mapInstance.
  destruct (Argus.InstanceSensitiveData.MetricsRetentionTimeRaw i); [|done].
  destruct (Argus.InstanceSensitiveData.MetricsRetentionTime5m i); [|done].
  destruct (Argus.InstanceSensitiveData.MetricsRetentionTime1h i); [|done].
  intros [= <- <-]. split; [done|]. eexists. split; [done|]. done.
Qed.

Lemma Argus_mapParameters_returns r m err m' :
  Argus.mapParameters r m = Returned err m' →
  err = None ∧
  ∃ m'', m' = Some m'' ∧
         Argus.Model.Id m'' = Argus.Model.Id m ∧
         Argus.Model.InstanceId m'' = Argus.Model.InstanceId m ∧
         Argus.Model.ProjectId m'' = Argus.Model.ProjectId m.
Proof.
  unfold Argus.mapParameters.
  destruct (Argus.InstanceResponse.Parameters r) as [ps|].
  - rewrite MapValueFrom_strings. simpl.
    destruct (Argus.InstanceResponse.Instance r) as [i|].
    + intros H. apply Argus_mapInstance_returns in H. exact H.
    + intros [= <- <-]. split; [done|]. eexists. split; done.
  - destruct (Argus.InstanceResponse.Instance r) as [i|].
    + intros H. apply Argus_mapInstance_returns in H. exact H.
    + intros [= <- <-]. split; [done|]. eexists. split; done.
Qed.

Lemma Argus_mapFields_chosen rr m :
  Argus.mapFields (Some rr) (Some m) =
  match (if negb (ValueString (Argus.Model.InstanceId m) =? "")
         then Some (ValueString (Argus.Model.InstanceId m))
         else Argus.InstanceResponse.Id rr) with
  | None => Returned (Some "instance id not present") (Some m)
  | Some instanceId =>
      Argus.mapParameters rr
        (m<|Argus.Model.Id :=
              StringValue (Go.Join [ValueString (Argus.Model.ProjectId m); instanceId]
                             core.Separator)|>
          <|Argus.Model.InstanceId := StringValue instanceId|>
          <|Argus.Model.PlanName := StringPointerValue (Argus.InstanceResponse.PlanName rr)|>
          <|Argus.Model.PlanId := StringPointerValue (Argus.InstanceResponse.PlanId rr)|>
          <|Argus.Model.Name := StringPointerValue (Argus.InstanceResponse.Name rr)|>)
  end.
Proof.
  unfold Argus.mapFields. cbv zeta.
  destruct (negb _); [reflexivity|].
  destruct (Argus.InstanceResponse.Id rr); reflexivity.
Qed.

(** After a successful Argus [mapFields] the id is the composite of the
    project id and of the instance id now in the model. *)
Lemma Argus_mapFields_success rr m m' :
  Argus.mapFields (Some rr) (Some m) = Returned None (Some m') →
  ∃ instanceId,
    (if negb (ValueString (Argus.Model.InstanceId m) =? "")
     then Some (ValueString (Argus.Model.InstanceId m))
     else Argus.InstanceResponse.Id rr) = Some instanceId ∧
    Argus.Model.Id m' =
      StringValue (Go.Join [ValueString (Argus.Model.ProjectId m); instanceId] core.Separator) ∧
    Argus.Model.InstanceId m' = StringValue instanceId ∧
    Argus.Model.ProjectId m' = Argus.Model.ProjectId m.
Proof.
  rewrite Argus_mapFields_chosen.
  destruct (if negb _ then _ else _) as [instanceId|]; [|done].
  intros H. apply Argus_mapParameters_returns in H as (_ & m'' & [= <-] & HId & HInst & HProj).
  exists instanceId. rewrite HId, HInst, HProj. done.
Qed.

(** ** DNS mapFields *)

Lemma Dns_mapFields_chosen resp rrset m :
  Dns.RecordSetResponse.Rrset resp = Some rrset →
  Dns.mapFields (Some resp) (Some m) =
  match (if negb (ValueString (Dns.Model.RecordSetId m) =? "")
         then Some (ValueString (Dns.Model.RecordSetId m))
         else Dns.RecordSet.Id rrset) with
  | None => Returned (Some "record set id not present") (Some m)
  | Some recordSetId =>
      let records :=
        match Dns.RecordSet.Records rrset with
        | None => ListNull StringType
        | Some rs =>
            ListKnown StringType
              ((fun record => AString (StringPointerValue (Dns.Record_.Content record))) <$> rs)
        end in
      Returned None
        (Some (m<|Dns.Model.Records := records|>
                <|Dns.Model.Id :=
                    StringValue (Go.Join [ValueString (Dns.Model.ProjectId m);
                                          ValueString (Dns.Model.ZoneId m);
                                          recordSetId] core.Separator)|>
                <|Dns.Model.RecordSetId := StringPointerValue (Dns.RecordSet.Id rrset)|>
                <|Dns.Model.Active := BoolPointerValue (Dns.RecordSet.Active rrset)|>
                <|Dns.Model.Comment := StringPointerValue (Dns.RecordSet.Comment rrset)|>
                <|Dns.Model.Error := StringPointerValue (Dns.RecordSet.Error rrset)|>
                <|Dns.Model.Name := StringPointerValue (Dns.RecordSet.Name rrset)|>
                <|Dns.Model.State := StringPointerValue (Dns.RecordSet.State rrset)|>
                <|Dns.Model.TTL := conversion.ToTypeInt64 (Dns.RecordSet.Ttl rrset)|>
                <|Dns.Model.Type_ := StringPointerValue (Dns.RecordSet.Type_ rrset)|>))
  end.
Proof.
  intros Hrr. unfold Dns.mapFields.
  change (Some resp ≫= Dns.RecordSetResponse.Rrset) with (Dns.RecordSetResponse.Rrset resp).
  rewrite Hrr. cbv zeta.
  destruct (negb _).
  - destruct (Dns.RecordSet.Records rrset) as [rs|]; [|reflexivity].
    rewrite (ListValue_strings (fun record => StringPointerValue (Dns.Record_.Content record))).
    reflexivity.
  - destruct (Dns.RecordSet.Id rrset) as [id|]; [|reflexivity].
    destruct (Dns.RecordSet.Records rrset) as [rs|]; [|reflexivity].
    rewrite (ListValue_strings (fun record => StringPointerValue (Dns.Record_.Content record))).
    reflexivity.
Qed.

(** C6. [mapFields], for the Argus instance and for the DNS record set,
    returns an error exactly when the response (for DNS, the response or
    its Rrset) is nil, the model is nil, or neither the model nor the
    response gives an entity id; an error leaves the model as it was; and
    when the model holds a non-empty id and the response carries one too,
    the composite id is built from the model's id. *)
Theorem mapFields_error_exactly_when_input_or_id_missing :
  (∀ (r : option Argus.InstanceResponse.t) (model : option Argus.Model.t),
     (returns_error (Argus.mapFields r model) ↔
        r = None ∨ model = None ∨
        ∃ rr m, r = Some rr ∧ model = Some m ∧
                ValueString (Argus.Model.InstanceId m) = "" ∧
                Argus.InstanceResponse.Id rr = None) ∧
     (∀ e m', Argus.mapFields r model = Returned (Some e) m' → m' = model) ∧
     (∀ rr m id m',
        r = Some rr → model = Some m →
        ValueString (Argus.Model.InstanceId m) ≠ "" →
        Argus.InstanceResponse.Id rr = Some id →
        Argus.mapFields r model = Returned None (Some m') →
        Argus.Model.Id m' =
          StringValue (Go.Join [ValueString (Argus.Model.ProjectId m);
                                ValueString (Argus.Model.InstanceId m)] core.Separator))) ∧
  (∀ (recordSetResp : option Dns.RecordSetResponse.t) (model : option Dns.Model.t),
     (returns_error (Dns.mapFields recordSetResp model) ↔
        recordSetResp = None ∨
        (∃ resp, recordSetResp = Some resp ∧ Dns.RecordSetResponse.Rrset resp = None) ∨
        model = None ∨
        ∃ resp rrset m,
          recordSetResp = Some resp ∧ Dns.RecordSetResponse.Rrset resp = Some rrset ∧
          model = Some m ∧
          ValueString (Dns.Model.RecordSetId m) = "" ∧ Dns.RecordSet.Id rrset = None) ∧
     (∀ e m', Dns.mapFields recordSetResp model = Returned (Some e) m' → m' = model) ∧
     (∀ resp rrset m id m',
        recordSetResp = Some resp → Dns.RecordSetResponse.Rrset resp = Some rrset →
        model = Some m →
        ValueString (Dns.Model.RecordSetId m) ≠ "" →
        Dns.RecordSet.Id rrset = Some id →
        Dns.mapFields recordSetResp model = Returned None (Some m') →
        Dns.Model.Id m' =
          StringValue (Go.Join [ValueString (Dns.Model.ProjectId m);
                                ValueString (Dns.Model.ZoneId m);
                                ValueString (Dns.Model.RecordSetId m)] core.Separator))).
Proof.
  split.
  - intros r model. destruct r as [rr|]; [destruct model as [m|]|].
    + rewrite Argus_mapFields_chosen.
      destruct (ValueString (Argus.Model.InstanceId m) =? "") eqn:Hid; simpl negb; cbv iota.
      * apply String.eqb_eq in Hid.
        destruct (Argus.InstanceResponse.Id rr) as [id|] eqn:Hrid.
        -- repeat split.
           ++ intros (e & m' & H). by apply Argus_mapParameters_returns in H as [? _].
           ++ intros [?|[?|(? & ? & [= <-] & [= <-] & _ & ?)]]; congruence.
           ++ intros e m' H. by apply Argus_mapParameters_returns in H as [? _].
           ++ intros ? ? ? ? [= <-] [= <-] Hne. congruence.
        -- repeat split.
           ++ intros _. right. right. by exists rr, m.
           ++ intros _. by eexists _, _.
           ++ by intros e m' [= <- <-].
           ++ intros ? ? ? ? [= <-] [= <-] Hne. congruence.
      * apply String.eqb_neq in Hid.
        repeat split.
        -- intros (e & m' & H). by apply Argus_mapParameters_returns in H as [? _].
        -- intros [?|[?|(? & ? & [= <-] & [= <-] & ? & _)]]; congruence.
        -- intros e m' H. by apply Argus_mapParameters_returns in H as [? _].
        -- intros ? ? id m' [= <-] [= <-] _ _ H.
           apply Argus_mapParameters_returns in H as (_ & m'' & [= <-] & -> & _). done.
    + repeat split.
      * intros _. auto.
      * intros _. by eexists _, _.
      * by intros e m' [= <- <-].
      * intros; congruence.
    + repeat split.
      * intros _. auto.
      * intros _. by eexists _, _.
      * by intros e m' [= <- <-].
      * intros; congruence.
  - intros recordSetResp model.
    destruct recordSetResp as [resp|];
      [destruct (Dns.RecordSetResponse.Rrset resp) as [rrset|] eqn:Hrr; [destruct model as [m|]|]|].
    + rewrite (Dns_mapFields_chosen _ _ _ Hrr).
      destruct (ValueString (Dns.Model.RecordSetId m) =? "") eqn:Hid; simpl negb; cbv iota.
      * apply String.eqb_eq in Hid.
        destruct (Dns.RecordSet.Id rrset) as [id|] eqn:Hrid.
        -- repeat split.
           ++ by intros (e & m' & [=]).
           ++ intros [?|[(? & [= <-] & ?)|[?|(? & ? & ? & [= <-] & ? & [= <-] & _ & ?)]]];
                congruence.
           ++ by intros e m' [=].
           ++ intros ? ? ? ? ? [= <-] ? [= <-] Hne. congruence.
        -- repeat split.
           ++ intros _. right. right. right. by exists resp, rrset, m.
           ++ intros _. by eexists _, _.
           ++ by intros e m' [= <- <-].
           ++ intros ? ? ? ? ? [= <-] ? [= <-] Hne. congruence.
      * apply String.eqb_neq in Hid.
        repeat split.
        -- by intros (e & m' & [=]).
        -- intros [?|[(? & [= <-] & ?)|[?|(? & ? & ? & [= <-] & ? & [= <-] & ? & _)]]];
             congruence.
        -- by intros e m' [=].
        -- intros ? ? ? id m' [= <-] ? [= <-] _ _ [= <-]. done.
    + unfold Dns.mapFields.
      change (Some resp ≫= Dns.RecordSetResponse.Rrset) with (Dns.RecordSetResponse.Rrset resp).
      rewrite Hrr. repeat split.
      * intros _. auto.
      * intros _. by eexists _, _.
      * by intros e m' [= <- <-].
      * intros; congruence.
    + unfold Dns.mapFields.
      change (Some resp ≫= Dns.RecordSetResponse.Rrset) with (Dns.RecordSetResponse.Rrset resp).
      rewrite Hrr. repeat split.
      * intros _. right. left. by exists resp.
      * intros _. by eexists _, _.
      * by intros e m' [= <- <-].
      * intros ? ? ? ? ? [= <-]. congruence.
    + repeat split.
      * intros _. auto.
      * intros _. by eexists _, _.
      * by intros e m' [= <- <-].
      * intros; congruence.
Qed.

Lemma mapFields_error_exactly_when_input_or_id_missing_witness :
  returns_error (Argus.mapFields None (Some Argus_zero)) ∧
  (∃ m', Argus.mapFields (Some sample_instance_response)
           (Some (sample_state<|Argus.Model.InstanceId := Known "i0"|>))
         = Returned None (Some m') ∧
         Argus.Model.Id m' = Known "p,i0") ∧
  returns_error (Dns.mapFields (Some {| Dns.RecordSetResponse.Rrset := None |}) (Some Dns_zero)) ∧
  (∃ m', Dns.mapFields (Some {| Dns.RecordSetResponse.Rrset := Some sample_rrset |})
           (Some (sample_config<|Dns.Model.RecordSetId := Known "rs0"|>))
         = Returned None (Some m') ∧
         Dns.Model.Id m' = Known "p,z,rs0").
Proof.
  split; [|split; [|split]].
  - apply (proj1 mapFields_error_exactly_when_input_or_id_missing None (Some Argus_zero)).
    left. reflexivity.
  - eexists. split; [reflexivity|].
    refine (proj2 (proj2 (proj1 mapFields_error_exactly_when_input_or_id_missing
                            (Some sample_instance_response)
                            (Some (sample_state<|Argus.Model.InstanceId := Known "i0"|>))))
              sample_instance_response
              (sample_state<|Argus.Model.InstanceId := Known "i0"|>) "i" _
              eq_refl eq_refl _ eq_refl eq_refl).
    vm_compute. discriminate.
  - apply (proj2 mapFields_error_exactly_when_input_or_id_missing
             (Some {| Dns.RecordSetResponse.Rrset := None |}) (Some Dns_zero)).
    right. left. eexists. split; reflexivity.
  - eexists. split; [reflexivity|].
    refine (proj2 (proj2 (proj2 mapFields_error_exactly_when_input_or_id_missing
                            (Some {| Dns.RecordSetResponse.Rrset := Some sample_rrset |})
                            (Some (sample_config<|Dns.Model.RecordSetId := Known "rs0"|>))))
              {| Dns.RecordSetResponse.Rrset := Some sample_rrset |} sample_rrset
              (sample_config<|Dns.Model.RecordSetId := Known "rs0"|>) "rs" _
              eq_refl eq_refl eq_refl _ eq_refl eq_refl).
    vm_compute. discriminate.
Defined.

(** C2. Argus [mapFields] dereferences the three retention times of the
    [Instance] sub-struct as they are: on a response that has an id and an
    [Instance] in which one of them is nil, it panics. *)
Theorem Argus_mapFields_panics_on_nil_retention
  (rr : Argus.InstanceResponse.t) (i : Argus.InstanceSensitiveData.t)
  (id : string) (m : Argus.Model.t) :
  Argus.InstanceResponse.Id rr = Some id →
  Argus.InstanceResponse.Instance rr = Some i →
  Argus.InstanceSensitiveData.MetricsRetentionTimeRaw i = None ∨
  Argus.InstanceSensitiveData.MetricsRetentionTime5m i = None ∨
  Argus.InstanceSensitiveData.MetricsRetentionTime1h i = None →
  Argus.mapFields (Some rr) (Some m) = Crashed.
Proof.
  intros Hid Hi Hnil. rewrite Argus_mapFields_chosen, Hid.
  assert (Hchosen : ∃ c, (if negb (ValueString (Argus.Model.InstanceId m) =? "")
                          then Some (ValueString (Argus.Model.InstanceId m))
                          else Some id) = Some c).
  { destruct (negb _); eauto. }
  destruct Hchosen as [c ->].
  unfold Argus.mapParameters. cbv zeta. rewrite Hi.
  assert (Hcrash : ∀ m0, Argus.mapInstance i m0 = Crashed).
  { intros m0. unfold Argus.mapInstance.
    destruct (Argus.InstanceSensitiveData.MetricsRetentionTimeRaw i); [|done].
    destruct (Argus.InstanceSensitiveData.MetricsRetentionTime5m i); [|done].
    destruct (Argus.InstanceSensitiveData.MetricsRetentionTime1h i); [|done].
    by destruct Hnil as [?|[?|?]]. }
  destruct (Argus.InstanceResponse.Parameters rr) as [ps|].
  - rewrite MapValueFrom_strings. simpl HasError. cbv iota. apply Hcrash.
  - apply Hcrash.
Qed.

Lemma Argus_mapFields_panics_on_nil_retention_witness :
  Argus.mapFields (Some response_without_retention) (Some Argus_zero) = Crashed.
Proof.
  apply (Argus_mapFields_panics_on_nil_retention
           response_without_retention instance_without_retention "i" Argus_zero).
  - reflexivity.
  - reflexivity.
  - left. reflexivity.
Defined.

(** ** The composite id *)

Lemma append_inj_l (s a b : string) : s ++ a = s ++ b → a = b.
Proof. induction s as [|c s IH]; simpl; [done|]. intros [= H]. auto. Qed.

Lemma Join3_inj_last (p z a b : string) :
  Go.Join [p; z; a] core.Separator = Go.Join [p; z; b] core.Separator → a = b.
Proof.
  unfold Go.Join. simpl. intros H.
  apply append_inj_l in H. apply append_inj_l in H.
  apply append_inj_l in H. by apply append_inj_l in H.
Qed.

(** The Argus id is always the composite of the model's own key attributes:
    [mapFields] stores the instance id it chose. *)
Lemma Argus_mapFields_id_composite rr m m' :
  Argus.mapFields (Some rr) (Some m) = Returned None (Some m') →
  Argus.Model.Id m' =
    StringValue (Go.Join [ValueString (Argus.Model.ProjectId m');
                          ValueString (Argus.Model.InstanceId m')] core.Separator).
Proof.
  intros H. apply Argus_mapFields_success in H as (instanceId & _ & -> & -> & ->). done.
Qed.

(** C7. The DNS [mapFields] builds the id from the record set id the model
    had, and then overwrites the model's record set id with the one of the
    response: when the two differ (or the response has none) the call
    succeeds and the id is not the composite of the model's key attributes. *)
Theorem Dns_mapFields_id_differs_from_key_attributes
  (resp : Dns.RecordSetResponse.t) (rrset : Dns.RecordSet.t) (m : Dns.Model.t) :
  Dns.RecordSetResponse.Rrset resp = Some rrset →
  ValueString (Dns.Model.RecordSetId m) ≠ "" →
  Dns.RecordSet.Id rrset ≠ Some (ValueString (Dns.Model.RecordSetId m)) →
  ∃ m', Dns.mapFields (Some resp) (Some m) = Returned None (Some m') ∧
        Dns.Model.Id m' =
          StringValue (Go.Join [ValueString (Dns.Model.ProjectId m);
                                ValueString (Dns.Model.ZoneId m);
                                ValueString (Dns.Model.RecordSetId m)] core.Separator) ∧
        Dns.Model.RecordSetId m' = StringPointerValue (Dns.RecordSet.Id rrset) ∧
        Dns.Model.Id m' ≠
          StringValue (Go.Join [ValueString (Dns.Model.ProjectId m');
                                ValueString (Dns.Model.ZoneId m');
                                ValueString (Dns.Model.RecordSetId m')] core.Separator).
Proof.
  intros Hrr Hne Hdiff. rewrite (Dns_mapFields_chosen _ _ _ Hrr).
  apply String.eqb_neq in Hne as Hneb. rewrite Hneb. simpl negb. cbv iota zeta.
  eexists. split; [reflexivity|]. split; [reflexivity|]. split; [reflexivity|].
  cbn [Dns.Model.Id Dns.Model.ProjectId Dns.Model.ZoneId Dns.Model.RecordSetId
       apply_update constant].
  intros [= H]. apply Join3_inj_last in H.
  destruct (Dns.RecordSet.Id rrset) as [id|]; simpl in H; congruence.
Qed.

Lemma Dns_mapFields_id_differs_from_key_attributes_witness :
  ∃ m', Dns.mapFields (Some {| Dns.RecordSetResponse.Rrset := Some rrset_without_id |})
          (Some sample_config) = Returned None (Some m') ∧
        Dns.Model.Id m' = Known "p,z,rs" ∧
        Dns.Model.RecordSetId m' = Null ∧
        Dns.Model.Id m' ≠
          StringValue (Go.Join [ValueString (Dns.Model.ProjectId m');
                                ValueString (Dns.Model.ZoneId m');
                                ValueString (Dns.Model.RecordSetId m')] core.Separator).
Proof.
  apply (Dns_mapFields_id_differs_from_key_attributes
           {| Dns.RecordSetResponse.Rrset := Some rrset_without_id |}
           rrset_without_id sample_config).
  - reflexivity.
  - vm_compute. discriminate.
  - vm_compute. discriminate.
Defined.

(** ** DNS: reading a record set and sending it back *)

Lemma int32_in_range (z : Z) :
  (- 2 ^ 31 <= z < 2 ^ 31)%Z → conversion.int32 z = z.
Proof. intros H. unfold conversion.int32. rewrite Z.mod_small; lia. Qed.

Lemma ValueStringPointer_StringPointerValue (p : option string) :
  ValueStringPointer (StringPointerValue p) = p.
Proof. by destruct p. Qed.

Lemma ToPtrInt32_ToTypeInt64 (p : option Z) :
  (∀ z, p = Some z → - 2 ^ 31 <= z < 2 ^ 31)%Z →
  conversion.ToPtrInt32 (conversion.ToTypeInt64 p) = p.
Proof.
  intros Hrange. destruct p as [z|]; [|done].
  unfold conversion.ToPtrInt32, conversion.ToTypeInt64. simpl.
  by rewrite int32_in_range by auto.
Qed.

Lemma Dns_toRecords_strings {A} (f : A → TString) (xs : list A) (i : nat)
  (acc : list Dns.RecordPayload.t) :
  Dns.toRecords i ((fun x => AString (f x)) <$> xs) acc
  = ((acc ++ ((fun x => {| Dns.RecordPayload.Content := ValueStringPointer (f x) |}) <$> xs))%list,
     None).
Proof.
  revert i acc. induction xs as [|x xs IH]; intros i acc; simpl.
  - by rewrite app_nil_r.
  - rewrite IH. by rewrite <- app_assoc.
Qed.

(** C9. A record set response with an id, a list of records, a ttl, a name
    and a comment, mapped onto a model (a fresh one in particular) and
    turned into an update payload, gives back its records in order, its
    ttl, its name and its comment. *)
Theorem Dns_read_update_round_trip
  (resp : Dns.RecordSetResponse.t) (rrset : Dns.RecordSet.t) (m : Dns.Model.t)
  (id : string) (rs : list Dns.Record_.t) (ttl : Z) (name comment : string) :
  Dns.RecordSetResponse.Rrset resp = Some rrset →
  Dns.RecordSet.Id rrset = Some id →
  Dns.RecordSet.Records rrset = Some rs →
  Dns.RecordSet.Ttl rrset = Some ttl →
  (- 2 ^ 31 <= ttl < 2 ^ 31)%Z →
  Dns.RecordSet.Name rrset = Some name →
  Dns.RecordSet.Comment rrset = Some comment →
  ∃ m' payload,
    Dns.mapFields (Some resp) (Some m) = Returned None (Some m') ∧
    Dns.toUpdatePayload (Some m') = (Some payload, None) ∧
    Dns.UpdateRecordSetPayload.Records payload
      = Some ((fun r => {| Dns.RecordPayload.Content := Dns.Record_.Content r |}) <$> rs) ∧
    Dns.UpdateRecordSetPayload.Ttl payload = Some ttl ∧
    Dns.UpdateRecordSetPayload.Name payload = Some name ∧
    Dns.UpdateRecordSetPayload.Comment payload = Some comment.
Proof.
  intros Hrr Hid Hrs Httl Hrange Hname Hcomment.
  rewrite (Dns_mapFields_chosen _ _ _ Hrr), Hid, Hrs.
  assert (Hchosen : ∃ c, (if negb (ValueString (Dns.Model.RecordSetId m) =? "")
                          then Some (ValueString (Dns.Model.RecordSetId m))
                          else Some id) = Some c).
  { destruct (negb _); eauto. }
  destruct Hchosen as [c ->]. cbv zeta iota.
  eexists _, _. split; [reflexivity|].
  unfold Dns.toUpdatePayload.
  cbn [Dns.Model.Records Dns.Model.Comment Dns.Model.Name Dns.Model.TTL
       apply_update constant List_Elements].
  rewrite (Dns_toRecords_strings (fun record => StringPointerValue (Dns.Record_.Content record))).
  split; [reflexivity|].
  cbn [Dns.UpdateRecordSetPayload.Records Dns.UpdateRecordSetPayload.Ttl
       Dns.UpdateRecordSetPayload.Name Dns.UpdateRecordSetPayload.Comment app].
  rewrite Httl, Hname, Hcomment.
  repeat split.
  - f_equal. apply list_fmap_ext. intros _ r _.
    by rewrite ValueStringPointer_StringPointerValue.
  - apply ToPtrInt32_ToTypeInt64. by intros z [= <-].
Qed.

Lemma Dns_read_update_round_trip_witness :
  ∃ m' payload,
    Dns.mapFields (Some {| Dns.RecordSetResponse.Rrset := Some sample_rrset |}) (Some Dns_zero)
      = Returned None (Some m') ∧
    Dns.toUpdatePayload (Some m') = (Some payload, None) ∧
    Dns.UpdateRecordSetPayload.Records payload
      = Some [ {| Dns.RecordPayload.Content := Some "192.0.2.1" |};
               {| Dns.RecordPayload.Content := Some "192.0.2.2" |} ] ∧
    Dns.UpdateRecordSetPayload.Ttl payload = Some 3600%Z ∧
    Dns.UpdateRecordSetPayload.Name payload = Some "www.example.com" ∧
    Dns.UpdateRecordSetPayload.Comment payload = Some "a comment".
Proof.
  apply (Dns_read_update_round_trip
           {| Dns.RecordSetResponse.Rrset := Some sample_rrset |} sample_rrset Dns_zero
           "rs"
           [ {| Dns.Record_.Content := Some "192.0.2.1" |};
             {| Dns.Record_.Content := Some "192.0.2.2" |} ]
           3600%Z "www.example.com" "a comment").
  - reflexivity.
  - reflexivity.
  - reflexivity.
  - reflexivity.
  - lia.
  - reflexivity.
  - reflexivity.
Defined.

(** ** Argus payloads *)

Lemma length_append (a b : string) :
  String.length (a ++ b) = (String.length a + String.length b)%nat.
Proof. induction a as [|c a IH]; simpl; [done|]. by rewrite IH. Qed.

Lemma quote_byte_length (c : ascii) : (1 <= String.length (Go.quote_byte c))%nat.
Proof. unfold Go.quote_byte. repeat case_match; simpl; lia. Qed.

Lemma quote_body_length (s : string) :
  (String.length s + 1 <= String.length (Go.quote_body s))%nat.
Proof.
  induction s as [|c s IH]; simpl; [lia|].
  rewrite length_append. pose proof (quote_byte_length c). lia.
Qed.

(** The quoted rendering is never the string itself. *)
Lemma Quote_neq (s : string) : Go.Quote s ≠ s.
Proof.
  intros H. apply (f_equal String.length) in H. unfold Go.Quote in H. simpl in H.
  pose proof (quote_body_length s). lia.
Qed.

(** What the two payload builders do get right: the keys of the parameters,
    the name and the plan id. *)
Lemma Argus_payload_keys_name_plan (model : Argus.Model.t) :
  ∃ c u pc pu,
    Argus.toCreatePayload (Some model) = (Some c, None) ∧
    Argus.toUpdatePayload (Some model) = (Some u, None) ∧
    Argus.CreateInstancePayload.Parameter_ c = Some pc ∧
    Argus.UpdateInstancePayload.Parameter_ u = Some pu ∧
    dom pc = dom (Map_Elements (Argus.Model.Parameters model)) ∧
    dom pu = dom (Map_Elements (Argus.Model.Parameters model)) ∧
    Argus.CreateInstancePayload.Name c = ValueStringPointer (Argus.Model.Name model) ∧
    Argus.UpdateInstancePayload.Name u = ValueStringPointer (Argus.Model.Name model) ∧
    Argus.CreateInstancePayload.PlanId c = ValueStringPointer (Argus.Model.PlanId model) ∧
    Argus.UpdateInstancePayload.PlanId u = ValueStringPointer (Argus.Model.PlanId model).
Proof.
  eexists _, _, _, _. repeat split; simpl; apply dom_fmap_L.
Qed.

(** C5. [toCreatePayload] and [toUpdatePayload] send each parameter as the
    rendering [String()] of its value: for a parameter stored as the string
    [s] the payload holds [s] quoted, which is never [s]. *)
Theorem Argus_payload_parameters_are_quoted
  (model : Argus.Model.t) (k s : string) :
  Map_Elements (Argus.Model.Parameters model) !! k = Some (AString (Known s)) →
  ∃ c u pc pu,
    Argus.toCreatePayload (Some model) = (Some c, None) ∧
    Argus.toUpdatePayload (Some model) = (Some u, None) ∧
    Argus.CreateInstancePayload.Parameter_ c = Some pc ∧
    Argus.UpdateInstancePayload.Parameter_ u = Some pu ∧
    pc !! k = Some (Go.Quote s) ∧
    pu !! k = Some (Go.Quote s) ∧
    Go.Quote s ≠ s.
Proof.
  intros Hk. eexists _, _, _, _.
  split; [reflexivity|]. split; [reflexivity|].
  split; [reflexivity|]. split; [reflexivity|].
  rewrite !lookup_fmap, Hk. repeat split. apply Quote_neq.
Qed.

Lemma Argus_payload_parameters_are_quoted_witness :
  ∃ c u pc pu,
    Argus.toCreatePayload (Some sample_plan) = (Some c, None) ∧
    Argus.toUpdatePayload (Some sample_plan) = (Some u, None) ∧
    Argus.CreateInstancePayload.Parameter_ c = Some pc ∧
    Argus.UpdateInstancePayload.Parameter_ u = Some pu ∧
    pc !! "retention" = Some (Go.Quote "30") ∧
    pu !! "retention" = Some (Go.Quote "30") ∧
    Go.Quote "30" ≠ "30".
Proof.
  apply (Argus_payload_parameters_are_quoted sample_plan "retention" "30").
  reflexivity.
Defined.

(** ** Running a method, one statement at a time *)

Section Steps.

Context {Call St : Type}.
Implicit Types (w : Response Call St).

Lemma step_Append {B} ds (k : unit → Op Call St B) w :
  (Diagnostics_Append ds ≫= k) w
  = k tt (mkResponse (Trace w) (Append (Diags w) ds) (State w)).
Proof. reflexivity. Qed.

Lemma step_HasError {B} (k : bool → Op Call St B) w :
  (Diagnostics_HasError ≫= k) w = k (HasError (Diags w)) w.
Proof. reflexivity. Qed.

Lemma step_when {B} b (m : Op Call St unit) (k : unit → Op Call St B) w :
  (when b m ≫= k) w = if b then (m ≫= k) w else k tt w.
Proof. by destruct b. Qed.

Lemma step_when_last b (m : Op Call St unit) w :
  when b m w = if b then m w else Next unit tt w.
Proof. by destruct b. Qed.

Lemma step_return_bind {A B} (k : A → Op Call St B) w :
  (return_ ≫= k) w = Return B w.
Proof. reflexivity. Qed.

Lemma step_panic_bind {A B} (k : A → Op Call St B) w :
  (panic ≫= k) w = Panic B w.
Proof. reflexivity. Qed.

Lemma step_sdk {A B} c (res : A) (k : A → Op Call St B) w :
  (sdk c res ≫= k) w = k res (mkResponse (Trace w ++ [c])%list (Diags w) (State w)).
Proof. reflexivity. Qed.

Lemma step_AddError {B} s d (k : unit → Op Call St B) w :
  (Diagnostics_AddError s d ≫= k) w
  = k tt (mkResponse (Trace w) (AddError (Diags w) s d) (State w)).
Proof. reflexivity. Qed.

Lemma step_LogAndAddError {B} s d (k : unit → Op Call St B) w :
  (Response_LogAndAddError s d ≫= k) w
  = k tt (mkResponse (Trace w) (AddError (Diags w) s d) (State w)).
Proof. reflexivity. Qed.

Lemma step_LogAndAddError_last s d w :
  (Response_LogAndAddError s d : Op Call St unit) w
  = Next unit tt (mkResponse (Trace w) (AddError (Diags w) s d) (State w)).
Proof. reflexivity. Qed.

Lemma step_mret_bind {A B} (a : A) (k : A → Op Call St B) w :
  (mret a ≫= k) w = k a w.
Proof. reflexivity. Qed.

Lemma step_mret {A} (a : A) w : (mret a : Op Call St A) w = Next A a w.
Proof. reflexivity. Qed.

Lemma step_return {A} w : (return_ : Op Call St A) w = Return A w.
Proof. reflexivity. Qed.

Lemma step_panic {A} w : (panic : Op Call St A) w = Panic A w.
Proof. reflexivity. Qed.

Lemma step_bind_assoc {A B C} (m : Op Call St A) (k : A → Op Call St B)
  (k' : B → Op Call St C) w :
  ((m ≫= k) ≫= k') w = (m ≫= (fun a => k a ≫= k')) w.
Proof. unfold mbind, Op_bind, bind. by destruct (m w). Qed.

End Steps.

Lemma step_State_Set {Call M B} (model : M) (k : Diagnostics → Op Call (option M) B) w :
  (State_Set model ≫= k) w = k [] (mkResponse (Trace w) (Diags w) (Some model)).
Proof. reflexivity. Qed.

Lemma step_Append_last {Call St} ds (w : Response Call St) :
  Diagnostics_Append ds w = Next unit tt (mkResponse (Trace w) (Append (Diags w) ds) (State w)).
Proof. reflexivity. Qed.

Create Rewrite HintDb op.
#[global] Hint Rewrite
  @step_Append @step_HasError @step_when @step_when_last @step_return_bind
  @step_panic_bind @step_sdk @step_AddError @step_LogAndAddError
  @step_LogAndAddError_last @step_mret_bind @step_mret @step_return @step_panic
  @step_State_Set @step_Append_last : op.

Ltac run :=
  repeat (autorewrite with op; cbn [Trace Diags State app final exec calls fresh]).

#[global] Hint Rewrite @step_bind_assoc : op.

Lemma step_bind {Call St A B} (m : Op Call St A) (k : A → Op Call St B) w :
  (m ≫= k) w = match m w with
               | Next _ a w' => k a w'
               | Return _ w' => Return B w'
               | Panic _ w' => Panic B w'
               end.
Proof. reflexivity. Qed.

Ltac run_in H :=
  repeat (progress (autorewrite with op in H;
                    cbn [Trace Diags State app final exec calls fresh] in H)).

(** The request is opened, and the method run up to its first SDK call. *)
Ltac enter o Ho diags :=
  unfold exec, fresh in Ho; run_in Ho;
  rewrite Append_nil_l_HasError in Ho;
  destruct (HasError diags) eqn:?; run_in Ho.


Ltac open_membership :=
  repeat match goal with
         | H : In _ _ |- _ => cbn [In] in H
         | H : _ ∨ _ |- _ => destruct H as [H|H]
         | H : False |- _ => destruct H
         end;
  simplify_eq;
  repeat match goal with
         | H1 : ?x = _, H2 : ?x = _ |- _ => rewrite H1 in H2; simplify_eq
         end.


(** ** Argus: loading the plan id *)

Lemma Argus_loadPlanId_cases {St} r model (w : Response Argus.Call.t St) :
  let p := ValueString (Argus.Model.ProjectId model) in
  (∃ model' w', Argus.loadPlanId r model w = Next _ model' w' ∧
                Trace w' = (Trace w ++ [Argus.Call.GetPlans p])%list ∧
                State w' = State w ∧
                (∀ res e, Argus.APIClient.GetPlans r p = (res, Some e) →
                          model' = model ∧
                          Diags w' = AddError (Diags w) "Failed to list argus plans" e)) ∨
  (∃ w', Argus.loadPlanId r model w = Panic _ w' ∧
         Trace w' = (Trace w ++ [Argus.Call.GetPlans p])%list ∧
         ∃ res, Argus.APIClient.GetPlans r p = (res, None)).
Proof.
  intros p. unfold Argus.loadPlanId. fold p. autorewrite with op.
  destruct (Argus.APIClient.GetPlans r p) as [res [e|]].
  - left. autorewrite with op. eexists _, _. split; [reflexivity|].
    cbn [Trace State Diags]. split; [done|]. split; [done|].
    by intros ? ? [= _ <-].
  - destruct res as [res|]; [|right; eexists; split; [reflexivity|]; eauto].
    destruct (Argus.PlansResponse.Plans res) as [plans|];
      [|right; eexists; split; [reflexivity|]; eauto].
    left. destruct (Argus.loadPlanId_loop _ _ _ _) as [model' avl].
    destruct (ValueString (Argus.Model.PlanId model') =? ""); autorewrite with op;
      eexists _, _; (split; [reflexivity|]); cbn [Trace State];
      (split; [done|]); (split; [done|]); intros; congruence.
Qed.

(** ** Wait handlers, method by method *)







(** ** Diagnostics stay *)

Lemma Append_keeps (ds new : Diagnostics) (d : Diagnostic) :
  d ∈ ds → d ∈ Append ds new.
Proof. rewrite elem_of_Append. auto. Qed.

Lemma AddError_keeps (ds : Diagnostics) (summary detail : string) (d : Diagnostic) :
  d ∈ ds → d ∈ AddError ds summary detail.
Proof. apply Append_keeps. Qed.

Ltac keep_diag :=
  repeat first [ apply AddError_elem_of | apply AddError_keeps | apply Append_keeps ].

(** A finished branch of a run that has made the calls [c1] and [c2]. *)
Ltac solve_prefix :=
  subst; cbn [final Trace Diags];
  split; [eexists; reflexivity | keep_diag].

(** ** Argus: a failed plan load does not stop Create and Update *)

Lemma Argus_Create_after_failed_plan_load r model diags res e st :
  HasError diags = false →
  Argus.APIClient.GetPlans r (ValueString (Argus.Model.ProjectId model)) = (res, Some e) →
  ∃ payload,
    Argus.toCreatePayload (Some model) = (Some payload, None) ∧
    let o := exec (Argus.Create r {| Argus.CreatePlan := (model, diags) |}) (fresh st) in
    (∃ rest, calls o =
               Argus.Call.GetPlans (ValueString (Argus.Model.ProjectId model))
               :: Argus.Call.CreateInstance (ValueString (Argus.Model.ProjectId model)) payload
               :: rest) ∧
    NewErrorDiagnostic "Failed to list argus plans" e ∈ Diags (final o).
Proof.
  intros Hdiags Hplans. eexists. split; [reflexivity|].
  intros o. subst o. unfold calls.
  remember (exec _ _) as o eqn:Ho.
  unfold Argus.Create, Argus.toCreatePayload in Ho. cbn [Argus.CreatePlan] in Ho.
  unfold exec, fresh in Ho. run_in Ho.
  rewrite Append_nil_l_HasError, Hdiags in Ho. run_in Ho.
  rewrite step_bind in Ho.
  match type of Ho with context [Argus.loadPlanId r model ?w] =>
    destruct (Argus_loadPlanId_cases r model w)
      as [(model' & w' & Hl & Htr & _ & Hfail)|(w' & Hl & _ & res' & Hres)]
  end; [|congruence].
  rewrite Hl in Ho. destruct (Hfail _ _ Hplans) as [-> Hd].
  cbn [Trace Diags app] in Htr, Hd.
  run_in Ho. rewrite Htr, Hd in Ho. cbn [app] in Ho. clear Hl Htr Hd Hfail.
  destruct (Argus.APIClient.CreateInstance r _ _) as [[createResp|] [e'|]];
    run_in Ho; try (solve [solve_prefix]).
  destruct (Argus.CreateInstanceResponse.InstanceId createResp) as [[|a s]|];
    run_in Ho; try (solve [solve_prefix]).
  destruct (Argus.APIClient.CreateInstanceWaitHandler r _ _ _) as [wr [e'|]];
    run_in Ho; try (solve [solve_prefix]).
  destruct wr as [got|]; run_in Ho; try (solve [solve_prefix]).
  destruct (Argus.mapFields got (Some model)) as [[err|] [m'|]|];
    run_in Ho; solve [solve_prefix].
Qed.

Lemma Argus_Update_after_failed_plan_load r model diags res e st :
  HasError diags = false →
  Argus.APIClient.GetPlans r (ValueString (Argus.Model.ProjectId model)) = (res, Some e) →
  ∃ payload,
    Argus.toUpdatePayload (Some model) = (Some payload, None) ∧
    let o := exec (Argus.Update r {| Argus.UpdatePlan := (model, diags) |}) (fresh st) in
    (∃ rest, calls o =
               Argus.Call.GetPlans (ValueString (Argus.Model.ProjectId model))
               :: Argus.Call.UpdateInstance (ValueString (Argus.Model.InstanceId model))
                    (ValueString (Argus.Model.ProjectId model)) payload
               :: rest) ∧
    NewErrorDiagnostic "Failed to list argus plans" e ∈ Diags (final o).
Proof.
  intros Hdiags Hplans. eexists. split; [reflexivity|].
  intros o. subst o. unfold calls.
  remember (exec _ _) as o eqn:Ho.
  unfold Argus.Update, Argus.toUpdatePayload in Ho. cbn [Argus.UpdatePlan] in Ho.
  unfold exec, fresh in Ho. run_in Ho.
  rewrite Append_nil_l_HasError, Hdiags in Ho. run_in Ho.
  rewrite step_bind in Ho.
  match type of Ho with context [Argus.loadPlanId r model ?w] =>
    destruct (Argus_loadPlanId_cases r model w)
      as [(model' & w' & Hl & Htr & _ & Hfail)|(w' & Hl & _ & res' & Hres)]
  end; [|congruence].
  rewrite Hl in Ho. destruct (Hfail _ _ Hplans) as [-> Hd].
  cbn [Trace Diags app] in Htr, Hd.
  run_in Ho. rewrite Htr, Hd in Ho. cbn [app] in Ho. clear Hl Htr Hd Hfail.
  destruct (Argus.APIClient.UpdateInstance r _ _ _) as [e'|];
    run_in Ho; try (solve [solve_prefix]).
  destruct (Argus.APIClient.UpdateInstanceWaitHandler r _ _ _) as [wr [e'|]];
    run_in Ho; try (solve [solve_prefix]).
  destruct wr as [got|]; run_in Ho; try (solve [solve_prefix]).
  destruct (Argus.mapFields got (Some model)) as [[err|] [m'|]|];
    run_in Ho; solve [solve_prefix].
Qed.

(** C1. When [GetPlans] fails, Create and Update add the diagnostic of
    [loadPlanId] and then go on: they build the payload from the model as it
    is and call [CreateInstance], respectively [UpdateInstance]. The check
    after [loadPlanId] looks at the diagnostics of the plan, which have no
    error at that point. *)
Theorem Argus_Create_Update_go_on_after_failed_plan_load
  (r : Argus.APIClient.t) (model : Argus.Model.t) (diags : Diagnostics)
  (res : option Argus.PlansResponse.t) (e : Go.error) (st : option Argus.Model.t) :
  HasError diags = false →
  Argus.APIClient.GetPlans r (ValueString (Argus.Model.ProjectId model)) = (res, Some e) →
  (∃ payload,
     Argus.toCreatePayload (Some model) = (Some payload, None) ∧
     let o := exec (Argus.Create r {| Argus.CreatePlan := (model, diags) |}) (fresh st) in
     (∃ rest, calls o =
                Argus.Call.GetPlans (ValueString (Argus.Model.ProjectId model))
                :: Argus.Call.CreateInstance (ValueString (Argus.Model.ProjectId model)) payload
                :: rest) ∧
     NewErrorDiagnostic "Failed to list argus plans" e ∈ Diags (final o)) ∧
  (∃ payload,
     Argus.toUpdatePayload (Some model) = (Some payload, None) ∧
     let o := exec (Argus.Update r {| Argus.UpdatePlan := (model, diags) |}) (fresh st) in
     (∃ rest, calls o =
                Argus.Call.GetPlans (ValueString (Argus.Model.ProjectId model))
                :: Argus.Call.UpdateInstance (ValueString (Argus.Model.InstanceId model))
                     (ValueString (Argus.Model.ProjectId model)) payload
                :: rest) ∧
     NewErrorDiagnostic "Failed to list argus plans" e ∈ Diags (final o)).
Proof.
  intros Hdiags Hplans. split.
  - by eapply Argus_Create_after_failed_plan_load.
  - by eapply Argus_Update_after_failed_plan_load.
Qed.

Lemma Argus_Create_Update_go_on_after_failed_plan_load_witness :
  (∃ payload,
     Argus.toCreatePayload (Some sample_state) = (Some payload, None) ∧
     let o := exec (Argus.Create argus_without_plans
                      {| Argus.CreatePlan := (sample_state, []) |}) (fresh None) in
     (∃ rest, calls o =
                Argus.Call.GetPlans "p" :: Argus.Call.CreateInstance "p" payload :: rest) ∧
     NewErrorDiagnostic "Failed to list argus plans" "plans unavailable" ∈ Diags (final o)) ∧
  (∃ payload,
     Argus.toUpdatePayload (Some sample_state) = (Some payload, None) ∧
     let o := exec (Argus.Update argus_without_plans
                      {| Argus.UpdatePlan := (sample_state, []) |}) (fresh None) in
     (∃ rest, calls o =
                Argus.Call.GetPlans "p" :: Argus.Call.UpdateInstance "i" "p" payload :: rest) ∧
     NewErrorDiagnostic "Failed to list argus plans" "plans unavailable" ∈ Diags (final o)).
Proof.
  apply (Argus_Create_Update_go_on_after_failed_plan_load
           argus_without_plans sample_state [] None "plans unavailable" None).
  - reflexivity.
  - reflexivity.
Defined.

(** ** DNS: a failed delete does not stop Delete *)

(** C3. When [DeleteRecordSet] fails, the DNS Delete adds the error and
    still calls [DeleteRecordSetWaitHandler]: the SDK calls of the run are
    the delete and then the wait. *)
Theorem Dns_Delete_waits_after_failed_delete
  (r : Dns.APIClient.t) (model : Dns.Model.t) (diags : Diagnostics) (e : Go.error)
  (st : option Dns.Model.t) :
  HasError diags = false →
  Dns.APIClient.DeleteRecordSet r (ValueString (Dns.Model.ProjectId model))
    (ValueString (Dns.Model.ZoneId model)) (ValueString (Dns.Model.RecordSetId model)) = Some e →
  let o := exec (Dns.recordSetResource.Delete r {| Dns.DeleteState := (model, diags) |})
             (fresh st) in
  calls o =
    [ Dns.Call.DeleteRecordSet (ValueString (Dns.Model.ProjectId model))
        (ValueString (Dns.Model.ZoneId model)) (ValueString (Dns.Model.RecordSetId model));
      Dns.Call.DeleteRecordSetWaitHandler (ValueString (Dns.Model.ProjectId model))
        (ValueString (Dns.Model.ZoneId model)) (ValueString (Dns.Model.RecordSetId model))
        (1 * Go.Minute)%Z ] ∧
  NewErrorDiagnostic "Error deleting recordset" e ∈ Diags (final o).
Proof.
  intros Hdiags Hdel o. subst o. unfold calls.
  remember (exec _ _) as o eqn:Ho.
  unfold Dns.recordSetResource.Delete in Ho. cbn [Dns.DeleteState] in Ho.
  unfold exec, fresh in Ho. run_in Ho.
  rewrite Append_nil_l_HasError, Hdiags in Ho. run_in Ho.
  rewrite Hdel in Ho. run_in Ho.
  destruct (Dns.APIClient.DeleteRecordSetWaitHandler r _ _ _ _) as [e'|];
    run_in Ho; subst; cbn [final Trace Diags]; (split; [reflexivity|keep_diag]).
Qed.

Lemma Dns_Delete_waits_after_failed_delete_witness :
  let o := exec (Dns.recordSetResource.Delete dns_refusing_delete
                   {| Dns.DeleteState := (sample_config, []) |}) (fresh None) in
  calls o =
    [ Dns.Call.DeleteRecordSet "p" "z" "rs";
      Dns.Call.DeleteRecordSetWaitHandler "p" "z" "rs" (1 * Go.Minute)%Z ] ∧
  NewErrorDiagnostic "Error deleting recordset" "record set is locked" ∈ Diags (final o).
Proof.
  apply (Dns_Delete_waits_after_failed_delete
           dns_refusing_delete sample_config [] "record set is locked" None).
  - reflexivity.
  - reflexivity.
Defined.

(** ** DNS data source: what Read puts into the state *)

Lemma Dns_DataSource_Read_state d cfg diags resp rrset st :
  HasError diags = false →
  Dns.APIClient.GetRecordSet d (ValueString (Dns.Model.ProjectId cfg))
    (ValueString (Dns.Model.ZoneId cfg)) (ValueString (Dns.Model.RecordSetId cfg))
  = (Some resp, None) →
  Dns.RecordSetResponse.Rrset resp = Some rrset →
  ValueString (Dns.Model.RecordSetId cfg) ≠ "" →
  ∃ w state,
    exec (Dns.recordSetDataSource.Read d {| Dns.Config := (cfg, diags) |}) (fresh st)
    = Finished w ∧
    HasError (Diags w) = false ∧
    State w = Some state ∧
    Dns.Model.ProjectId state = Dns.Model.ProjectId cfg ∧
    Dns.Model.ZoneId state = Dns.Model.ZoneId cfg ∧
    Dns.Model.RecordSetId state = StringPointerValue (Dns.RecordSet.Id rrset).
Proof.
  intros Hdiags Hget Hrr Hid.
  remember (exec _ _) as o eqn:Ho.
  unfold Dns.recordSetDataSource.Read in Ho. cbn [Dns.Config] in Ho.
  unfold exec, fresh in Ho. run_in Ho.
  rewrite Append_nil_l_HasError, Hdiags in Ho. run_in Ho.
  rewrite Hget in Ho. run_in Ho.
  rewrite (Dns_mapFields_chosen _ _ _ Hrr) in Ho.
  apply String.eqb_neq in Hid. rewrite Hid in Ho. cbn [negb] in Ho. cbv iota zeta in Ho.
  run_in Ho.
  assert (Hclean : HasError (Append (Append [] diags) []) = false).
  { by rewrite !HasError_Append, Hdiags. }
  rewrite Hclean in Ho. subst o.
  eexists _, _. split; [reflexivity|]. cbn [Diags State]. split; [exact Hclean|].
  split; [reflexivity|]. done.
Qed.

(** C10. A successful Read of the DNS data source keeps the configured
    project id and zone id, but takes the record set id from the response:
    when the response carries another id, or none, the record set id in
    the state is not the configured one. *)
Theorem Dns_DataSource_Read_record_set_id_from_response
  (d : Dns.APIClient.t) (cfg : Dns.Model.t) (diags : Diagnostics)
  (resp : Dns.RecordSetResponse.t) (rrset : Dns.RecordSet.t) (st : option Dns.Model.t) :
  HasError diags = false →
  Dns.APIClient.GetRecordSet d (ValueString (Dns.Model.ProjectId cfg))
    (ValueString (Dns.Model.ZoneId cfg)) (ValueString (Dns.Model.RecordSetId cfg))
  = (Some resp, None) →
  Dns.RecordSetResponse.Rrset resp = Some rrset →
  ValueString (Dns.Model.RecordSetId cfg) ≠ "" →
  Dns.RecordSet.Id rrset ≠ Some (ValueString (Dns.Model.RecordSetId cfg)) →
  ∃ w state,
    exec (Dns.recordSetDataSource.Read d {| Dns.Config := (cfg, diags) |}) (fresh st)
    = Finished w ∧
    HasError (Diags w) = false ∧
    State w = Some state ∧
    Dns.Model.ProjectId state = Dns.Model.ProjectId cfg ∧
    Dns.Model.ZoneId state = Dns.Model.ZoneId cfg ∧
    Dns.Model.RecordSetId state = StringPointerValue (Dns.RecordSet.Id rrset) ∧
    Dns.Model.RecordSetId state ≠ Dns.Model.RecordSetId cfg.
Proof.
  intros Hdiags Hget Hrr Hid Hdiff.
  destruct (Dns_DataSource_Read_state d cfg diags resp rrset st Hdiags Hget Hrr Hid)
    as (w & state & Hexec & Hclean & Hst & Hp & Hz & Hrs).
  exists w, state. repeat (split; [assumption|]).
  rewrite Hrs. intros Heq.
  destruct (Dns.Model.RecordSetId cfg) as [| |a]; simpl in Hid; try done.
  destruct (Dns.RecordSet.Id rrset) as [b|]; simpl in *; congruence.
Qed.

Lemma Dns_DataSource_Read_record_set_id_from_response_witness :
  ∃ w state,
    exec (Dns.recordSetDataSource.Read dns_answering_without_id
            {| Dns.Config := (sample_config, []) |}) (fresh None)
    = Finished w ∧
    HasError (Diags w) = false ∧
    State w = Some state ∧
    Dns.Model.ProjectId state = Known "p" ∧
    Dns.Model.ZoneId state = Known "z" ∧
    Dns.Model.RecordSetId state = Null ∧
    Dns.Model.RecordSetId state ≠ Known "rs".
Proof.
  apply (Dns_DataSource_Read_record_set_id_from_response
           dns_answering_without_id sample_config []
           {| Dns.RecordSetResponse.Rrset := Some rrset_without_id |} rrset_without_id None).
  - reflexivity.
  - reflexivity.
  - reflexivity.
  - vm_compute. discriminate.
  - vm_compute. discriminate.
Defined.

(** ** The composite id and ImportState *)

Lemma split_scan_piece (p rest : string) :
  NoSeparator p = true →
  Go.split_scan "," 0 (p ++ "," ++ rest) = p :: Go.split_scan "," 0 rest.
Proof.
  induction p as [|c p IH]; intros Hp.
  - change ("" ++ "," ++ rest) with (String "," rest).
    cbn [Go.split_scan String.prefix].
    destruct (ascii_dec "," ",") as [_|?]; [|done].
    by destruct rest.
  - unfold NoSeparator in Hp. simpl in Hp. apply andb_true_iff in Hp as [Hc Hp].
    apply negb_true_iff, Ascii.eqb_neq in Hc.
    change (String c p ++ "," ++ rest) with (String c (p ++ "," ++ rest)).
    cbn [Go.split_scan String.prefix].
    destruct (ascii_dec "," c) as [Heq|_]; [congruence|].
    by rewrite (IH Hp).
Qed.

Lemma split_scan_last (p : string) :
  NoSeparator p = true → Go.split_scan "," 0 p = [p].
Proof.
  induction p as [|c p IH]; intros Hp.
  - reflexivity.
  - unfold NoSeparator in Hp. simpl in Hp. apply andb_true_iff in Hp as [Hc Hp].
    apply negb_true_iff, Ascii.eqb_neq in Hc.
    cbn [Go.split_scan String.prefix].
    destruct (ascii_dec "," c) as [Heq|_]; [congruence|].
    by rewrite (IH Hp).
Qed.

(** Splitting on the separator loses nothing: joining the pieces with the
    separator gives the string back, and no piece contains the separator. *)
Lemma split_scan_separator_step (a : ascii) (s : string) :
  Go.split_scan "," 0 (String a s) =
  if Ascii.eqb a ","
  then EmptyString :: Go.split_scan "," 0 s
  else match Go.split_scan "," 0 s with
       | piece :: pieces => String a piece :: pieces
       | [] => [String a EmptyString]
       end.
Proof.
  cbn [Go.split_scan String.prefix].
  destruct (ascii_dec "," a) as [<-|Hne].
  - by destruct s.
  - apply not_eq_sym, Ascii.eqb_neq in Hne. by rewrite Hne.
Qed.

Lemma split_scan_not_nil (s : string) : Go.split_scan "," 0 s ≠ [].
Proof.
  destruct s as [|a s]; [done|]. rewrite split_scan_separator_step.
  destruct (Ascii.eqb a ","); [done|]. by destruct (Go.split_scan "," 0 s).
Qed.

Lemma Join_Split_Separator (s : string) :
  Go.Join (Go.Split s core.Separator) core.Separator = s.
Proof.
  unfold Go.Split, Go.Join, core.Separator.
  induction s as [|a s IH]; [done|].
  rewrite split_scan_separator_step.
  pose proof (split_scan_not_nil s) as Hnn.
  destruct (Ascii.eqb a ",") eqn:Ha.
  - apply Ascii.eqb_eq in Ha as ->.
    destruct (Go.split_scan "," 0 s) as [|piece pieces]; [done|].
    cbn [String.concat] in *. by rewrite IH.
  - destruct (Go.split_scan "," 0 s) as [|piece pieces]; [done|].
    destruct pieces as [|piece' pieces]; cbn [String.concat] in *; by rewrite <- IH.
Qed.

Lemma Split_pieces_NoSeparator (s : string) :
  Forall (fun piece => NoSeparator piece = true) (Go.Split s core.Separator).
Proof.
  unfold Go.Split, core.Separator.
  induction s as [|a s IH]; [by repeat constructor|].
  rewrite split_scan_separator_step.
  destruct (Ascii.eqb a ",") eqn:Ha.
  - by constructor.
  - destruct (Go.split_scan "," 0 s) as [|piece pieces].
    + constructor; [|done]. unfold NoSeparator. simpl. by rewrite Ha.
    + inversion IH as [|? ? Hpiece Hpieces]; subst. constructor; [|done].
      unfold NoSeparator in *. simpl. by rewrite Ha.
Qed.

Lemma Split_Join2 (p i : string) :
  NoSeparator p = true → NoSeparator i = true →
  Go.Split (Go.Join [p; i] core.Separator) core.Separator = [p; i].
Proof.
  intros Hp Hi. unfold Go.Split, Go.Join, core.Separator. cbn [String.concat].
  by rewrite split_scan_piece, split_scan_last.
Qed.

Lemma Split_Join3 (p z rs : string) :
  NoSeparator p = true → NoSeparator z = true → NoSeparator rs = true →
  Go.Split (Go.Join [p; z; rs] core.Separator) core.Separator = [p; z; rs].
Proof.
  intros Hp Hz Hrs. unfold Go.Split, Go.Join, core.Separator. cbn [String.concat].
  by rewrite !split_scan_piece, split_scan_last.
Qed.

(** The id an Argus [mapFields] leaves in the model is an identifier that
    ImportState takes apart into the model's own project id and instance
    id, as long as the two are not empty and free of the separator. *)
Lemma Argus_mapFields_id_imports rr m m' st :
  Argus.mapFields (Some rr) (Some m) = Returned None (Some m') →
  let p := ValueString (Argus.Model.ProjectId m') in
  let i := ValueString (Argus.Model.InstanceId m') in
  p ≠ "" → i ≠ "" → NoSeparator p = true → NoSeparator i = true →
  exec (Argus.ImportState {| Argus.ID := ValueString (Argus.Model.Id m') |}) (fresh st)
  = Finished (mkResponse [] [] (<["instance_id" := i]> (<["project_id" := p]> st))).
Proof.
  intros Hmap p i Hp Hi Hsp Hsi.
  rewrite (Argus_mapFields_id_composite _ _ _ Hmap). fold p i.
  unfold Argus.ImportState. cbn [Argus.ID ValueString StringValue].
  rewrite (Split_Join2 p i Hsp Hsi). cbn [length nth Nat.eqb negb orb].
  apply String.eqb_neq in Hp, Hi. rewrite Hp, Hi. reflexivity.
Qed.

(** ** The methods at work on the sample backends *)

Example Split_three_parts : Go.Split "p,z,rs" core.Separator = ["p"; "z"; "rs"].
Proof. reflexivity. Qed.

Example Split_trailing_separator : Go.Split "p," core.Separator = ["p"; ""].
Proof. reflexivity. Qed.

Example accepted_examples :
  accepted 2 "p,i" = true ∧ accepted 2 "p," = false ∧ accepted 2 "p,z,rs" = false ∧
  accepted 3 "p,z,rs" = true ∧ accepted 3 "p,,rs" = false ∧ accepted 3 "" = false.
Proof. repeat split; reflexivity. Qed.

Example Quote_thirty :
  Go.Quote "30" = String Go.dquote ("30" ++ String Go.dquote EmptyString).
Proof. reflexivity. Qed.

Example Argus_Create_on_healthy_backend :
  ∃ w payload,
    exec (Argus.Create healthy_argus {| Argus.CreatePlan := (sample_plan, []) |}) (fresh None)
    = Finished w ∧
    Trace w = [ Argus.Call.GetPlans "p";
                Argus.Call.CreateInstance "p" payload;
                Argus.Call.CreateInstanceWaitHandler "i" "p" (20 * Go.Minute)%Z ] ∧
    Diags w = [] ∧
    (Argus.Model.Id <$> State w) = Some (Known "p,i") ∧
    Argus.CreateInstancePayload.PlanId payload = Some "plan-1".
Proof. eexists _, _. repeat split; reflexivity. Qed.

Example Argus_Delete_on_healthy_backend :
  exec (Argus.Delete healthy_argus {| Argus.DeleteState := (sample_state, []) |}) (fresh None)
  = Finished (mkResponse
                [ Argus.Call.DeleteInstance "i" "p";
                  Argus.Call.DeleteInstanceWaitHandler "i" "p" (10 * Go.Minute)%Z ]
                [] None).
Proof. reflexivity. Qed.

Example Dns_Read_on_healthy_backend :
  ∃ w,
    exec (Dns.recordSetDataSource.Read healthy_dns {| Dns.Config := (sample_config, []) |})
      (fresh None) = Finished w ∧
    Trace w = [ Dns.Call.GetRecordSet "p" "z" "rs" ] ∧
    (Dns.Model.Id <$> State w) = Some (Known "p,z,rs") ∧
    (Dns.Model.RecordSetId <$> State w) = Some (Known "rs") ∧
    (Dns.Model.TTL <$> State w) = Some (Known 3600%Z).
Proof. eexists. repeat split; reflexivity. Qed.

(** * Further properties of the methods *)

(** ** A request that does not decode *)

Ltac stop_at_request Hdiags :=
  unfold exec, fresh; run; rewrite Append_nil_l_HasError, Hdiags; run; reflexivity.

(** X1. A method whose request does not decode (the diagnostics of
    [req.Plan.Get], [req.State.Get] or [req.Config.Get] have an error) hands
    these diagnostics on and returns: no SDK call, no write to the state. *)
Theorem methods_return_on_request_errors
  (ra : Argus.APIClient.t) (rd : Dns.APIClient.t)
  (ma : Argus.Model.t) (md : Dns.Model.t) (diags : Diagnostics)
  (sta : option Argus.Model.t) (std : option Dns.Model.t) :
  HasError diags = true →
  let stopped {Call St} (st : St) : Outcome Call St :=
    Finished (mkResponse [] (Append [] diags) st) in
  exec (Argus.Create ra {| Argus.CreatePlan := (ma, diags) |}) (fresh sta) = stopped sta ∧
  exec (Argus.Read ra {| Argus.ReadState := (ma, diags) |}) (fresh sta) = stopped sta ∧
  exec (Argus.Update ra {| Argus.UpdatePlan := (ma, diags) |}) (fresh sta) = stopped sta ∧
  exec (Argus.Delete ra {| Argus.DeleteState := (ma, diags) |}) (fresh sta) = stopped sta ∧
  exec (Dns.recordSetResource.Create rd {| Dns.CreatePlan := (md, diags) |}) (fresh std)
    = stopped std ∧
  exec (Dns.recordSetResource.Read rd {| Dns.ReadState := (md, diags) |}) (fresh std)
    = stopped std ∧
  exec (Dns.recordSetResource.Update rd {| Dns.UpdatePlan := (md, diags) |}) (fresh std)
    = stopped std ∧
  exec (Dns.recordSetResource.Delete rd {| Dns.DeleteState := (md, diags) |}) (fresh std)
    = stopped std ∧
  exec (Dns.recordSetDataSource.Read rd {| Dns.Config := (md, diags) |}) (fresh std)
    = stopped std.
Proof.
  intros Hdiags stopped. subst stopped. cbv beta.
  repeat split.
  - unfold Argus.Create. cbn [Argus.CreatePlan]. stop_at_request Hdiags.
  - unfold Argus.Read. cbn [Argus.ReadState]. stop_at_request Hdiags.
  - unfold Argus.Update. cbn [Argus.UpdatePlan]. stop_at_request Hdiags.
  - unfold Argus.Delete. cbn [Argus.DeleteState]. stop_at_request Hdiags.
  - unfold Dns.recordSetResource.Create. cbn [Dns.CreatePlan]. stop_at_request Hdiags.
  - unfold Dns.recordSetResource.Read. cbn [Dns.ReadState]. stop_at_request Hdiags.
  - unfold Dns.recordSetResource.Update. cbn [Dns.UpdatePlan]. stop_at_request Hdiags.
  - unfold Dns.recordSetResource.Delete. cbn [Dns.DeleteState]. stop_at_request Hdiags.
  - unfold Dns.recordSetDataSource.Read. cbn [Dns.Config]. stop_at_request Hdiags.
Qed.

Lemma methods_return_on_request_errors_witness :
  let diags := [NewErrorDiagnostic "Value Conversion Error" "project_id is not a string"] in
  exec (Argus.Create healthy_argus {| Argus.CreatePlan := (sample_plan, diags) |}) (fresh None)
    = Finished (mkResponse [] diags None) ∧
  exec (Dns.recordSetResource.Delete healthy_dns {| Dns.DeleteState := (sample_config, diags) |})
    (fresh (Some sample_config))
    = Finished (mkResponse [] diags (Some sample_config)).
Proof.
  intros diags.
  pose proof (methods_return_on_request_errors healthy_argus healthy_dns sample_plan
                sample_config diags None (Some sample_config) eq_refl) as H.
  split.
  - exact (proj1 H).
  - exact (proj1 (proj2 (proj2 (proj2 (proj2 (proj2 (proj2 (proj2 H)))))))).
Defined.

(** ** The state is written only by a run without errors *)

Ltac solve_written :=
  subst; cbn [final State Diags];
  first
    [ by left
    | right; split;
      [ match goal with
        | H : HasError _ = false |- _ => by rewrite !HasError_Append, H
        end
      | eauto ] ].

Lemma Argus_Read_writes_clean r req st :
  let w := final (exec (Argus.Read r req) (fresh st)) in
  State w = st ∨
  (HasError (Diags w) = false ∧
   ∃ resp m', Argus.mapFields resp (Some (Argus.ReadState req).1) = Returned None (Some m') ∧
              State w = Some m').
Proof.
  intros w. subst w.
  remember (exec (Argus.Read r req) (fresh st)) as o eqn:Ho.
  unfold Argus.Read in Ho.
  destruct (Argus.ReadState req) as [model diags]. cbn [fst].
  enter o Ho diags; [solve_written|].
  destruct (Argus.APIClient.GetInstance r _ _) as [resp [e|]] eqn:?;
    run_in Ho; try (solve [solve_written]).
  destruct (Argus.mapFields resp (Some model)) as [[err|] [m'|]|] eqn:?;
    run_in Ho; solve [solve_written].
Qed.

Lemma Dns_Create_writes_clean r req st :
  let w := final (exec (Dns.recordSetResource.Create r req) (fresh st)) in
  State w = st ∨
  (HasError (Diags w) = false ∧
   ∃ resp m', Dns.mapFields resp (Some (Dns.CreatePlan req).1) = Returned None (Some m') ∧
              State w = Some m').
Proof.
  intros w. subst w.
  remember (exec (Dns.recordSetResource.Create r req) (fresh st)) as o eqn:Ho.
  unfold Dns.recordSetResource.Create, Dns.toCreatePayload in Ho.
  destruct (Dns.CreatePlan req) as [model diags]. cbn [fst].
  enter o Ho diags; [solve_written|].
  destruct (Dns.toRecords _ _ _) as [records [err|]]; run_in Ho; try (solve [solve_written]).
  destruct (Dns.APIClient.CreateRecordSet r _ _ _) as [[resp|] [e|]] eqn:?;
    run_in Ho; try (solve [solve_written]).
  destruct (Dns.RecordSetResponse.Rrset resp) as [rrset|] eqn:?;
    run_in Ho; try (solve [solve_written]).
  destruct (Dns.RecordSet.Id rrset) as [id|] eqn:?;
    run_in Ho; try (solve [solve_written]).
  destruct (Dns.APIClient.CreateRecordSetWaitHandler r _ _ _ _) as [wr [e|]] eqn:?;
    run_in Ho; try (solve [solve_written]).
  destruct wr as [got|]; run_in Ho; try (solve [solve_written]).
  destruct (Dns.mapFields got (Some model)) as [[err|] [m'|]|] eqn:?;
    run_in Ho; solve [solve_written].
Qed.

Lemma Dns_Read_writes_clean r req st :
  let w := final (exec (Dns.recordSetResource.Read r req) (fresh st)) in
  State w = st ∨
  (HasError (Diags w) = false ∧
   ∃ resp m', Dns.mapFields resp (Some (Dns.ReadState req).1) = Returned None (Some m') ∧
              State w = Some m').
Proof.
  intros w. subst w.
  remember (exec (Dns.recordSetResource.Read r req) (fresh st)) as o eqn:Ho.
  unfold Dns.recordSetResource.Read in Ho.
  destruct (Dns.ReadState req) as [model diags]. cbn [fst].
  enter o Ho diags; [solve_written|].
  destruct (Dns.APIClient.GetRecordSet r _ _ _) as [resp [e|]] eqn:?;
    run_in Ho; try (solve [solve_written]).
  destruct (Dns.mapFields resp (Some model)) as [[err|] [m'|]|] eqn:?;
    run_in Ho; solve [solve_written].
Qed.

Lemma Dns_Update_writes_clean r req st :
  let w := final (exec (Dns.recordSetResource.Update r req) (fresh st)) in
  State w = st ∨
  (HasError (Diags w) = false ∧
   ∃ resp m', Dns.mapFields resp (Some (Dns.UpdatePlan req).1) = Returned None (Some m') ∧
              State w = Some m').
Proof.
  intros w. subst w.
  remember (exec (Dns.recordSetResource.Update r req) (fresh st)) as o eqn:Ho.
  unfold Dns.recordSetResource.Update, Dns.toUpdatePayload in Ho.
  destruct (Dns.UpdatePlan req) as [model diags]. cbn [fst].
  enter o Ho diags; [solve_written|].
  destruct (Dns.toRecords _ _ _) as [records [err|]]; run_in Ho; try (solve [solve_written]).
  destruct (Dns.APIClient.UpdateRecordSet r _ _ _ _) as [e|] eqn:?;
    run_in Ho; try (solve [solve_written]).
  destruct (Dns.APIClient.UpdateRecordSetWaitHandler r _ _ _ _) as [wr [e|]] eqn:?;
    run_in Ho; try (solve [solve_written]).
  destruct wr as [got|]; run_in Ho; try (solve [solve_written]).
  destruct (Dns.APIClient.GetRecordSet r _ _ _) as [resp [e|]] eqn:?;
    run_in Ho; try (solve [solve_written]).
  destruct (Dns.mapFields resp (Some model)) as [[err|] [m'|]|] eqn:?;
    run_in Ho; solve [solve_written].
Qed.

Lemma Dns_DataSource_Read_writes_clean r req st :
  let w := final (exec (Dns.recordSetDataSource.Read r req) (fresh st)) in
  State w = st ∨
  (HasError (Diags w) = false ∧
   ∃ resp m', Dns.mapFields resp (Some (Dns.Config req).1) = Returned None (Some m') ∧
              State w = Some m').
Proof.
  intros w. subst w.
  remember (exec (Dns.recordSetDataSource.Read r req) (fresh st)) as o eqn:Ho.
  unfold Dns.recordSetDataSource.Read in Ho.
  destruct (Dns.Config req) as [model diags]. cbn [fst].
  enter o Ho diags; [solve_written|].
  destruct (Dns.APIClient.GetRecordSet r _ _ _) as [resp [e|]] eqn:?;
    run_in Ho; try (solve [solve_written]).
  destruct (Dns.mapFields resp (Some model)) as [[err|] [m'|]|] eqn:?;
    run_in Ho; try (solve [solve_written]).
  destruct (HasError (Append (Append [] diags) [])); run_in Ho; solve [solve_written].
Qed.

(** X2. The Argus Read, the DNS Create, Read and Update and the DNS data
    source Read write the state only at the end of a run that added no error:
    either the state is as it was, or the diagnostics have no error and the
    state is the model that [mapFields] made of the request's model. *)
Theorem state_written_only_without_errors :
  (∀ r req st,
     let w := final (exec (Argus.Read r req) (fresh st)) in
     State w = st ∨
     (HasError (Diags w) = false ∧
      ∃ resp m', Argus.mapFields resp (Some (Argus.ReadState req).1) = Returned None (Some m') ∧
                 State w = Some m')) ∧
  (∀ r req st,
     let w := final (exec (Dns.recordSetResource.Create r req) (fresh st)) in
     State w = st ∨
     (HasError (Diags w) = false ∧
      ∃ resp m', Dns.mapFields resp (Some (Dns.CreatePlan req).1) = Returned None (Some m') ∧
                 State w = Some m')) ∧
  (∀ r req st,
     let w := final (exec (Dns.recordSetResource.Read r req) (fresh st)) in
     State w = st ∨
     (HasError (Diags w) = false ∧
      ∃ resp m', Dns.mapFields resp (Some (Dns.ReadState req).1) = Returned None (Some m') ∧
                 State w = Some m')) ∧
  (∀ r req st,
     let w := final (exec (Dns.recordSetResource.Update r req) (fresh st)) in
     State w = st ∨
     (HasError (Diags w) = false ∧
      ∃ resp m', Dns.mapFields resp (Some (Dns.UpdatePlan req).1) = Returned None (Some m') ∧
                 State w = Some m')) ∧
  (∀ r req st,
     let w := final (exec (Dns.recordSetDataSource.Read r req) (fresh st)) in
     State w = st ∨
     (HasError (Diags w) = false ∧
      ∃ resp m', Dns.mapFields resp (Some (Dns.Config req).1) = Returned None (Some m') ∧
                 State w = Some m')).
Proof.
  split; [exact Argus_Read_writes_clean|].
  split; [exact Dns_Create_writes_clean|].
  split; [exact Dns_Read_writes_clean|].
  split; [exact Dns_Update_writes_clean|].
  exact Dns_DataSource_Read_writes_clean.
Qed.

(** ** Delete *)

(** X3. Delete, for the Argus instance and for the DNS record set, never
    panics and never writes to the state, whatever the SDK answers; it ends
    without an error exactly when both the delete call and the wait handler
    answer without one. *)
Theorem Delete_leaves_state_and_reports_failures
  (ra : Argus.APIClient.t) (rd : Dns.APIClient.t)
  (ma : Argus.Model.t) (md : Dns.Model.t) (diags : Diagnostics)
  (sta : option Argus.Model.t) (std : option Dns.Model.t) :
  HasError diags = false →
  (∃ w, exec (Argus.Delete ra {| Argus.DeleteState := (ma, diags) |}) (fresh sta) = Finished w ∧
        State w = sta ∧
        (HasError (Diags w) = false ↔
         Argus.APIClient.DeleteInstance ra (ValueString (Argus.Model.InstanceId ma))
           (ValueString (Argus.Model.ProjectId ma)) = None ∧
         Argus.APIClient.DeleteInstanceWaitHandler ra (ValueString (Argus.Model.InstanceId ma))
           (ValueString (Argus.Model.ProjectId ma)) (10 * Go.Minute)%Z = None)) ∧
  (∃ w, exec (Dns.recordSetResource.Delete rd {| Dns.DeleteState := (md, diags) |}) (fresh std)
        = Finished w ∧
        State w = std ∧
        (HasError (Diags w) = false ↔
         Dns.APIClient.DeleteRecordSet rd (ValueString (Dns.Model.ProjectId md))
           (ValueString (Dns.Model.ZoneId md)) (ValueString (Dns.Model.RecordSetId md)) = None ∧
         Dns.APIClient.DeleteRecordSetWaitHandler rd (ValueString (Dns.Model.ProjectId md))
           (ValueString (Dns.Model.ZoneId md)) (ValueString (Dns.Model.RecordSetId md))
           (1 * Go.Minute)%Z = None)).
Proof.
  intros Hdiags. split.
  - remember (exec _ _) as o eqn:Ho.
    unfold Argus.Delete in Ho. cbn [Argus.DeleteState] in Ho.
    unfold exec, fresh in Ho. run_in Ho.
    rewrite Append_nil_l_HasError, Hdiags in Ho. run_in Ho.
    destruct (Argus.APIClient.DeleteInstance ra _ _) as [e|] eqn:Hdel; run_in Ho.
    + subst o. eexists. split; [reflexivity|]. cbn [State Diags]. split; [reflexivity|].
      rewrite AddError_HasError. split; [discriminate|]. intros [? _]. congruence.
    + destruct (Argus.APIClient.DeleteInstanceWaitHandler ra _ _ _) as [e|] eqn:Hwait;
        run_in Ho; subst o; (eexists; split; [reflexivity|]); cbn [State Diags];
        (split; [reflexivity|]).
      * rewrite AddError_HasError. split; [discriminate|]. intros [_ ?]. congruence.
      * rewrite Append_nil_l_HasError. by split.
  - remember (exec _ _) as o eqn:Ho.
    unfold Dns.recordSetResource.Delete in Ho. cbn [Dns.DeleteState] in Ho.
    unfold exec, fresh in Ho. run_in Ho.
    rewrite Append_nil_l_HasError, Hdiags in Ho. run_in Ho.
    destruct (Dns.APIClient.DeleteRecordSet rd _ _ _) as [e|] eqn:Hdel; run_in Ho;
      destruct (Dns.APIClient.DeleteRecordSetWaitHandler rd _ _ _ _) as [e'|] eqn:Hwait;
      run_in Ho; subst o; (eexists; split; [reflexivity|]); cbn [State Diags];
      (split; [reflexivity|]).
    + rewrite AddError_HasError. split; [discriminate|]. intros [? _]. congruence.
    + assert (Hkeep : HasError (AddError (Append [] diags) "Error deleting recordset" e) = true)
        by apply AddError_HasError.
      rewrite Hkeep. split; [discriminate|]. intros [? _]. congruence.
    + rewrite AddError_HasError. split; [discriminate|]. intros [_ ?]. congruence.
    + rewrite Append_nil_l_HasError. by split.
Qed.

Lemma Delete_leaves_state_and_reports_failures_witness :
  (∃ w, exec (Argus.Delete healthy_argus {| Argus.DeleteState := (sample_state, []) |})
          (fresh (Some sample_state)) = Finished w ∧
        State w = Some sample_state ∧
        (HasError (Diags w) = false ↔ None = (None : option Go.error) ∧ None = (None : option Go.error))) ∧
  (∃ w, exec (Dns.recordSetResource.Delete dns_refusing_delete
                {| Dns.DeleteState := (sample_config, []) |}) (fresh (Some sample_config))
        = Finished w ∧
        State w = Some sample_config ∧
        (HasError (Diags w) = false ↔
         Some "record set is locked" = (None : option Go.error) ∧ None = (None : option Go.error))).
Proof.
  apply (Delete_leaves_state_and_reports_failures healthy_argus dns_refusing_delete
           sample_state sample_config [] (Some sample_state) (Some sample_config)).
  reflexivity.
Defined.

(** ** Argus: which plan is chosen *)

Lemma append_assoc (a b c : string) : (a ++ b) ++ c = a ++ b ++ c.
Proof.
  induction a as [|x a IH]; [reflexivity|].
  change (String x ((a ++ b) ++ c) = String x (a ++ b ++ c)). by rewrite IH.
Qed.

Lemma append_empty_r (a : string) : a ++ "" = a.
Proof.
  induction a as [|x a IH]; [reflexivity|].
  change (String x (a ++ "") = String x a). by rewrite IH.
Qed.

Lemma name_lines_cons (name : string) (names : list string) :
  name_lines (name :: names) = String Go.newline "- " ++ name ++ name_lines names.
Proof.
  unfold name_lines. cbn [fmap list_fmap String.concat].
  destruct names as [|n names].
  - cbn [fmap list_fmap String.concat]. change (String.concat "" []) with "".
    by rewrite append_empty_r.
  - cbn [fmap list_fmap]. reflexivity.
Qed.

Lemma Argus_loadPlanId_loop_find
  (planName : string) (plans : list Argus.Plan.t) (model : Argus.Model.t) (avl : string) :
  match List.find (plan_matches planName) plans with
  | Some p =>
      (Argus.loadPlanId_loop planName plans model avl).1
      = model<|Argus.Model.PlanId := StringPointerValue (Argus.Plan.PlanId p)|> ∧
      ∃ id, Argus.Plan.PlanId p = Some id
  | None =>
      Argus.loadPlanId_loop planName plans model avl
      = (model, avl ++ name_lines (omap Argus.Plan.Name plans))
  end.
Proof.
  revert avl. induction plans as [|p plans IH]; intros avl.
  - cbn. by rewrite append_empty_r.
  - cbn [List.find Argus.loadPlanId_loop]. unfold plan_matches at 1.
    destruct (Argus.Plan.Name p) as [name|] eqn:Hname.
    + destruct (Go.EqualFold name planName && bool_decide (Argus.Plan.PlanId p ≠ None)) eqn:Hm.
      * cbn [fst]. split; [done|].
        apply andb_true_iff in Hm as [_ Hid]. apply bool_decide_eq_true in Hid.
        destruct (Argus.Plan.PlanId p); [eauto|done].
      * specialize (IH (avl ++ String Go.newline "- " ++ name)).
        destruct (find (plan_matches planName) plans); [exact IH|].
        rewrite IH. cbn [omap list_omap]. rewrite Hname. cbn [option_bind mbind].
        by rewrite name_lines_cons, !append_assoc.
    + specialize (IH avl).
      destruct (find (plan_matches planName) plans); [exact IH|].
      rewrite IH. cbn [omap list_omap]. by rewrite Hname.
Qed.

(** X4. For a plan name and listed plan names of bytes below 0x80, the
    loop of [loadPlanId] takes the first plan, in the order of the API
    answer, whose name equals the plan name up to case and whose id is not
    nil, and sets only the model's plan id, to that id. When there is no
    such plan the model is returned as it was, and the text of available
    names lists every named plan, in order. *)
Theorem loadPlanId_loop_takes_first_match
  (planName : string) (plans : list Argus.Plan.t) (model : Argus.Model.t) (avl : string) :
  is_ascii planName = true →
  forallb is_ascii (omap Argus.Plan.Name plans) = true →
  match List.find (plan_matches planName) plans with
  | Some p =>
      (Argus.loadPlanId_loop planName plans model avl).1
      = model<|Argus.Model.PlanId := StringPointerValue (Argus.Plan.PlanId p)|> ∧
      ∃ id, Argus.Plan.PlanId p = Some id
  | None =>
      Argus.loadPlanId_loop planName plans model avl
      = (model, avl ++ name_lines (omap Argus.Plan.Name plans))
  end.
Proof. intros _ _. apply Argus_loadPlanId_loop_find. Qed.

Lemma loadPlanId_loop_takes_first_match_witness :
  Argus.Model.PlanId
    (Argus.loadPlanId_loop "monitoring-medium-eu01" listed_plans sample_plan "").1
  = Known "plan-1" ∧
  Argus.loadPlanId_loop "Monitoring-Large-EU01" listed_plans sample_plan ""
  = (sample_plan, name_lines ["Monitoring-Small-EU01"; "Monitoring-Medium-EU01"]).
Proof.
  split.
  - pose proof (loadPlanId_loop_takes_first_match "monitoring-medium-eu01" listed_plans
                  sample_plan "" eq_refl eq_refl) as Hfound.
    change (find _ _) with
      (Some {| Argus.Plan.Name := Some "Monitoring-Medium-EU01";
               Argus.Plan.PlanId := Some "plan-1" |}) in Hfound.
    destruct Hfound as [Hfound _]. rewrite Hfound. reflexivity.
  - exact (loadPlanId_loop_takes_first_match "Monitoring-Large-EU01" listed_plans
             sample_plan "" eq_refl eq_refl).
Defined.


Lemma Argus_loadPlanId_with_plans {St} r model res plans (w : Response Argus.Call.t St) :
  Argus.APIClient.GetPlans r (ValueString (Argus.Model.ProjectId model)) = (Some res, None) →
  Argus.PlansResponse.Plans res = Some plans →
  let found :=
    Argus.loadPlanId_loop (ValueString (Argus.Model.PlanName model)) plans model "" in
  Argus.loadPlanId r model w =
  Next _ found.1
    (mkResponse
       (Trace w ++ [Argus.Call.GetPlans (ValueString (Argus.Model.ProjectId model))])%list
       (if ValueString (Argus.Model.PlanId found.1) =? ""
        then AddError (Diags w) "Invalid plan_name"
               ("Couldn't find plan_name '" ++ ValueString (Argus.Model.PlanName model)
                ++ "', available names are:" ++ found.2)
        else Diags w)
       (State w)).
Proof.
  intros Hget Hplans found. subst found.
  unfold Argus.loadPlanId. autorewrite with op. rewrite Hget, Hplans.
  destruct (Argus.loadPlanId_loop _ _ _ _) as [model' avl]. cbn [fst snd].
  destruct (ValueString (Argus.Model.PlanId model') =? ""); autorewrite with op; reflexivity.
Qed.

(** X5. When the plans are listed and none of them matches the plan name
    (the plan name and the listed names being of bytes below 0x80),
    [loadPlanId] leaves the model alone and reports "Invalid plan_name", with
    the names of the listed plans, only if the model has no plan id of its
    own: a model that already carries a plan id (as the plan of an update
    does) passes without any diagnostic. *)
Theorem loadPlanId_reports_unknown_plan_only_without_plan_id
  {St : Type} (r : Argus.APIClient.t) (model : Argus.Model.t)
  (res : Argus.PlansResponse.t) (plans : list Argus.Plan.t)
  (w : Response Argus.Call.t St) :
  is_ascii (ValueString (Argus.Model.PlanName model)) = true →
  forallb is_ascii (omap Argus.Plan.Name plans) = true →
  Argus.APIClient.GetPlans r (ValueString (Argus.Model.ProjectId model)) = (Some res, None) →
  Argus.PlansResponse.Plans res = Some plans →
  List.find (plan_matches (ValueString (Argus.Model.PlanName model))) plans = None →
  ∃ w', Argus.loadPlanId r model w = Next _ model w' ∧
        Trace w' = (Trace w ++ [Argus.Call.GetPlans (ValueString (Argus.Model.ProjectId model))])%list ∧
        State w' = State w ∧
        (ValueString (Argus.Model.PlanId model) ≠ "" → Diags w' = Diags w) ∧
        (ValueString (Argus.Model.PlanId model) = "" →
         Diags w' =
           AddError (Diags w) "Invalid plan_name"
             ("Couldn't find plan_name '" ++ ValueString (Argus.Model.PlanName model)
              ++ "', available names are:" ++ name_lines (omap Argus.Plan.Name plans))).
Proof.
  intros _ _ Hget Hplans Hfind.
  rewrite (Argus_loadPlanId_with_plans r model res plans w Hget Hplans).
  pose proof (Argus_loadPlanId_loop_find (ValueString (Argus.Model.PlanName model))
                plans model "") as Hloop.
  rewrite Hfind in Hloop. rewrite Hloop. cbn [fst snd].
  eexists. split; [reflexivity|]. cbn [Trace State Diags].
  split; [done|]. split; [done|]. split.
  - intros Hne. apply String.eqb_neq in Hne. by rewrite Hne.
  - intros Heq. apply String.eqb_eq in Heq. by rewrite Heq.
Qed.

Lemma loadPlanId_reports_unknown_plan_only_without_plan_id_witness :
  ∃ w', Argus.loadPlanId healthy_argus
          (sample_state<|Argus.Model.PlanName := Known "Monitoring-Large-EU01"|>)
          (fresh (None : option Argus.Model.t))
        = Next _ (sample_state<|Argus.Model.PlanName := Known "Monitoring-Large-EU01"|>) w' ∧
        Trace w' = [Argus.Call.GetPlans "p"] ∧
        State w' = None ∧
        (("plan-1" : string) ≠ "" → Diags w' = []) ∧
        (("plan-1" : string) = "" →
         Diags w' =
           AddError [] "Invalid plan_name"
             ("Couldn't find plan_name 'Monitoring-Large-EU01', available names are:"
              ++ name_lines ["Monitoring-Medium-EU01"])).
Proof.
  exact (loadPlanId_reports_unknown_plan_only_without_plan_id
           (St := option Argus.Model.t) healthy_argus
           (sample_state<|Argus.Model.PlanName := Known "Monitoring-Large-EU01"|>)
           {| Argus.PlansResponse.Plans :=
                Some [ {| Argus.Plan.Name := Some "Monitoring-Medium-EU01";
                          Argus.Plan.PlanId := Some "plan-1" |} ] |}
           [ {| Argus.Plan.Name := Some "Monitoring-Medium-EU01";
                Argus.Plan.PlanId := Some "plan-1" |} ]
           (fresh None) eq_refl eq_refl eq_refl eq_refl eq_refl).
Defined.

(** ** Argus: the plan found by name is the plan sent *)

Ltac solve_sent :=
  subst; cbn [final Trace];
  eexists _, _; split; [reflexivity|];
  split; [apply ValueStringPointer_StringPointerValue | reflexivity].

Lemma Argus_Create_sends_found_plan r model diags res plans plan st :
  HasError diags = false →
  Argus.APIClient.GetPlans r (ValueString (Argus.Model.ProjectId model)) = (Some res, None) →
  Argus.PlansResponse.Plans res = Some plans →
  List.find (plan_matches (ValueString (Argus.Model.PlanName model))) plans = Some plan →
  ∃ payload rest,
    calls (exec (Argus.Create r {| Argus.CreatePlan := (model, diags) |}) (fresh st))
    = Argus.Call.GetPlans (ValueString (Argus.Model.ProjectId model))
      :: Argus.Call.CreateInstance (ValueString (Argus.Model.ProjectId model)) payload
      :: rest ∧
    Argus.CreateInstancePayload.PlanId payload = Argus.Plan.PlanId plan ∧
    Argus.CreateInstancePayload.Name payload = ValueStringPointer (Argus.Model.Name model).
Proof.
  intros Hdiags Hget Hplans Hfind. unfold calls.
  remember (exec _ _) as o eqn:Ho.
  unfold Argus.Create, Argus.toCreatePayload in Ho. cbn [Argus.CreatePlan] in Ho.
  unfold exec, fresh in Ho. run_in Ho.
  rewrite Append_nil_l_HasError, Hdiags in Ho. run_in Ho.
  rewrite step_bind, (Argus_loadPlanId_with_plans r model res plans _ Hget Hplans) in Ho.
  pose proof (Argus_loadPlanId_loop_find (ValueString (Argus.Model.PlanName model))
                plans model "") as Hloop.
  rewrite Hfind in Hloop. destruct Hloop as [Hloop _]. rewrite Hloop in Ho.
  run_in Ho.
  destruct (Argus.APIClient.CreateInstance r _ _) as [[createResp|] [e'|]];
    run_in Ho; try (solve [solve_sent]).
  destruct (Argus.CreateInstanceResponse.InstanceId createResp) as [[|a s]|];
    run_in Ho; try (solve [solve_sent]).
  destruct (Argus.APIClient.CreateInstanceWaitHandler r _ _ _) as [wr [e'|]];
    run_in Ho; try (solve [solve_sent]).
  destruct wr as [got|]; run_in Ho; try (solve [solve_sent]).
  destruct (Argus.mapFields got _) as [[err|] [m'|]|];
    run_in Ho; solve [solve_sent].
Qed.

Lemma Argus_Update_sends_found_plan r model diags res plans plan st :
  HasError diags = false →
  Argus.APIClient.GetPlans r (ValueString (Argus.Model.ProjectId model)) = (Some res, None) →
  Argus.PlansResponse.Plans res = Some plans →
  List.find (plan_matches (ValueString (Argus.Model.PlanName model))) plans = Some plan →
  ∃ payload rest,
    calls (exec (Argus.Update r {| Argus.UpdatePlan := (model, diags) |}) (fresh st))
    = Argus.Call.GetPlans (ValueString (Argus.Model.ProjectId model))
      :: Argus.Call.UpdateInstance (ValueString (Argus.Model.InstanceId model))
           (ValueString (Argus.Model.ProjectId model)) payload
      :: rest ∧
    Argus.UpdateInstancePayload.PlanId payload = Argus.Plan.PlanId plan ∧
    Argus.UpdateInstancePayload.Name payload = ValueStringPointer (Argus.Model.Name model).
Proof.
  intros Hdiags Hget Hplans Hfind. unfold calls.
  remember (exec _ _) as o eqn:Ho.
  unfold Argus.Update, Argus.toUpdatePayload in Ho. cbn [Argus.UpdatePlan] in Ho.
  unfold exec, fresh in Ho. run_in Ho.
  rewrite Append_nil_l_HasError, Hdiags in Ho. run_in Ho.
  rewrite step_bind, (Argus_loadPlanId_with_plans r model res plans _ Hget Hplans) in Ho.
  pose proof (Argus_loadPlanId_loop_find (ValueString (Argus.Model.PlanName model))
                plans model "") as Hloop.
  rewrite Hfind in Hloop. destruct Hloop as [Hloop _]. rewrite Hloop in Ho.
  run_in Ho.
  destruct (Argus.APIClient.UpdateInstance r _ _ _) as [e'|];
    run_in Ho; try (solve [solve_sent]).
  destruct (Argus.APIClient.UpdateInstanceWaitHandler r _ _ _) as [wr [e'|]];
    run_in Ho; try (solve [solve_sent]).
  destruct wr as [got|]; run_in Ho; try (solve [solve_sent]).
  destruct (Argus.mapFields got _) as [[err|] [m'|]|];
    run_in Ho; solve [solve_sent].
Qed.

(** X6. When the plans are listed and one of them matches the plan name
    (the plan name and the listed names being of bytes below 0x80),
    Create and Update send the id of the first such plan: after [GetPlans]
    the next call is [CreateInstance], respectively [UpdateInstance], with a
    payload whose plan id is that plan's id and whose name is the model's. *)
Theorem Argus_Create_Update_send_found_plan
  (r : Argus.APIClient.t) (model : Argus.Model.t) (diags : Diagnostics)
  (res : Argus.PlansResponse.t) (plans : list Argus.Plan.t) (plan : Argus.Plan.t)
  (st : option Argus.Model.t) :
  is_ascii (ValueString (Argus.Model.PlanName model)) = true →
  forallb is_ascii (omap Argus.Plan.Name plans) = true →
  HasError diags = false →
  Argus.APIClient.GetPlans r (ValueString (Argus.Model.ProjectId model)) = (Some res, None) →
  Argus.PlansResponse.Plans res = Some plans →
  List.find (plan_matches (ValueString (Argus.Model.PlanName model))) plans = Some plan →
  (∃ payload rest,
     calls (exec (Argus.Create r {| Argus.CreatePlan := (model, diags) |}) (fresh st))
     = Argus.Call.GetPlans (ValueString (Argus.Model.ProjectId model))
       :: Argus.Call.CreateInstance (ValueString (Argus.Model.ProjectId model)) payload
       :: rest ∧
     Argus.CreateInstancePayload.PlanId payload = Argus.Plan.PlanId plan ∧
     Argus.CreateInstancePayload.Name payload = ValueStringPointer (Argus.Model.Name model)) ∧
  (∃ payload rest,
     calls (exec (Argus.Update r {| Argus.UpdatePlan := (model, diags) |}) (fresh st))
     = Argus.Call.GetPlans (ValueString (Argus.Model.ProjectId model))
       :: Argus.Call.UpdateInstance (ValueString (Argus.Model.InstanceId model))
            (ValueString (Argus.Model.ProjectId model)) payload
       :: rest ∧
     Argus.UpdateInstancePayload.PlanId payload = Argus.Plan.PlanId plan ∧
     Argus.UpdateInstancePayload.Name payload = ValueStringPointer (Argus.Model.Name model)).
Proof.
  intros _ _ Hdiags Hget Hplans Hfind. split.
  - by eapply Argus_Create_sends_found_plan.
  - by eapply Argus_Update_sends_found_plan.
Qed.

Lemma Argus_Create_Update_send_found_plan_witness :
  (∃ payload rest,
     calls (exec (Argus.Create healthy_argus {| Argus.CreatePlan := (sample_plan, []) |})
              (fresh None))
     = Argus.Call.GetPlans "p" :: Argus.Call.CreateInstance "p" payload :: rest ∧
     Argus.CreateInstancePayload.PlanId payload = Some "plan-1" ∧
     Argus.CreateInstancePayload.Name payload = Some "monitoring") ∧
  (∃ payload rest,
     calls (exec (Argus.Update healthy_argus {| Argus.UpdatePlan := (sample_plan, []) |})
              (fresh None))
     = Argus.Call.GetPlans "p" :: Argus.Call.UpdateInstance "" "p" payload :: rest ∧
     Argus.UpdateInstancePayload.PlanId payload = Some "plan-1" ∧
     Argus.UpdateInstancePayload.Name payload = Some "monitoring").
Proof.
  exact (Argus_Create_Update_send_found_plan healthy_argus sample_plan []
           {| Argus.PlansResponse.Plans :=
                Some [ {| Argus.Plan.Name := Some "Monitoring-Medium-EU01";
                          Argus.Plan.PlanId := Some "plan-1" |} ] |}
           [ {| Argus.Plan.Name := Some "Monitoring-Medium-EU01";
                Argus.Plan.PlanId := Some "plan-1" |} ]
           {| Argus.Plan.Name := Some "Monitoring-Medium-EU01";
              Argus.Plan.PlanId := Some "plan-1" |}
           None eq_refl eq_refl eq_refl eq_refl eq_refl eq_refl).
Defined.

(** ** Create without the id of what was created *)

Ltac solve_no_id :=
  subst; cbn [final Trace State Diags];
  intros; open_membership;
  first [ congruence
        | split; [reflexivity|]; split; [reflexivity|]; keep_diag ].

Lemma Argus_Create_without_instance_id r req st :
  let w := final (exec (Argus.Create r req) (fresh st)) in
  ∀ p payload cr,
    In (Argus.Call.CreateInstance p payload) (Trace w) →
    Argus.APIClient.CreateInstance r p payload = (Some cr, None) →
    Argus.CreateInstanceResponse.InstanceId cr = None ∨
    Argus.CreateInstanceResponse.InstanceId cr = Some "" →
    omap Argus_wait_timeout (Trace w) = [] ∧
    State w = st ∧
    NewErrorDiagnostic "Error creating instance" "API didn't return an instance id" ∈ Diags w.
Proof.
  intros w. subst w.
  remember (exec (Argus.Create r req) (fresh st)) as o eqn:Ho.
  unfold Argus.Create, Argus.toCreatePayload in Ho.
  destruct (Argus.CreatePlan req) as [model diags].
  enter o Ho diags; [solve_no_id|].
  rewrite step_bind in Ho.
  match type of Ho with context [Argus.loadPlanId r model ?w] =>
    destruct (Argus_loadPlanId_cases r model w)
      as [(model' & w' & Hl & Htr & Hst & _)|(w' & Hl & Htr & _)]
  end; rewrite Hl in Ho; cbn [Trace State app] in *.
  2: { subst o. cbn [final Trace]. rewrite Htr. intros. open_membership. }
  run_in Ho. rewrite Htr in Ho. cbn [app] in Ho. clear Hl Htr.
  destruct (Argus.APIClient.CreateInstance r _ _) as [[createResp|] [e|]] eqn:?;
    run_in Ho; try (solve [solve_no_id]).
  destruct (Argus.CreateInstanceResponse.InstanceId createResp) as [[|a s]|] eqn:?;
    run_in Ho; try (solve [solve_no_id]).
  destruct (Argus.APIClient.CreateInstanceWaitHandler r _ _ _) as [wr [e|]] eqn:?;
    run_in Ho; try (solve [solve_no_id]).
  destruct wr as [got|]; run_in Ho; try (solve [solve_no_id]).
  destruct (Argus.mapFields got (Some model')) as [[err|] [m'|]|];
    run_in Ho; solve [solve_no_id].
Qed.

Lemma Dns_Create_without_record_set_id r req st :
  let w := final (exec (Dns.recordSetResource.Create r req) (fresh st)) in
  ∀ p z payload resp,
    In (Dns.Call.CreateRecordSet p z payload) (Trace w) →
    Dns.APIClient.CreateRecordSet r p z payload = (Some resp, None) →
    Dns.RecordSetResponse.Rrset resp = None ∨
    (∃ rrset, Dns.RecordSetResponse.Rrset resp = Some rrset ∧ Dns.RecordSet.Id rrset = None) →
    omap Dns_wait_timeout (Trace w) = [] ∧
    State w = st ∧
    NewErrorDiagnostic "Error creating recordset" "Calling API: <nil>" ∈ Diags w.
Proof.
  intros w. subst w.
  remember (exec (Dns.recordSetResource.Create r req) (fresh st)) as o eqn:Ho.
  unfold Dns.recordSetResource.Create, Dns.toCreatePayload in Ho.
  destruct (Dns.CreatePlan req) as [model diags].
  enter o Ho diags; [solve_no_id|].
  destruct (Dns.toRecords _ _ _) as [records [err|]]; run_in Ho; try (solve [solve_no_id]).
  destruct (Dns.APIClient.CreateRecordSet r _ _ _) as [[resp|] [e|]] eqn:?;
    run_in Ho; try (solve [solve_no_id]).
  destruct (Dns.RecordSetResponse.Rrset resp) as [rrset|] eqn:?;
    run_in Ho; try (solve [solve_no_id]).
  destruct (Dns.RecordSet.Id rrset) as [id|] eqn:?;
    run_in Ho; try (solve [solve_no_id]).
  all: intros p z payload resp' Hin Hans Hnone.
  all: assert (Hcontra : False); [|done].
  all: destruct (Dns.APIClient.CreateRecordSetWaitHandler r _ _ _ _) as [wr [e|]] eqn:?;
    run_in Ho; [| destruct wr as [got|]; run_in Ho;
                  [destruct (Dns.mapFields got (Some model)) as [[err|] [m'|]|]; run_in Ho|] ].
  all: subst; cbn [final Trace] in Hin; open_membership;
    destruct Hnone as (rrset' & ? & ?); congruence.
Qed.

(** X7. A create call that is answered without error but without the id of
    what was created ends the method there: Argus Create (instance id nil or
    empty) and DNS Create (Rrset nil, or its id nil) add an error, call no
    wait handler and leave the state as it was. The DNS error text is built
    from the nil error: "Calling API: <nil>". *)
Theorem Create_without_id_stops
  (ra : Argus.APIClient.t) (reqa : Argus.CreateRequest) (sta : option Argus.Model.t)
  (rd : Dns.APIClient.t) (reqd : Dns.CreateRequest) (std : option Dns.Model.t) :
  (let w := final (exec (Argus.Create ra reqa) (fresh sta)) in
   ∀ p payload cr,
     In (Argus.Call.CreateInstance p payload) (Trace w) →
     Argus.APIClient.CreateInstance ra p payload = (Some cr, None) →
     Argus.CreateInstanceResponse.InstanceId cr = None ∨
     Argus.CreateInstanceResponse.InstanceId cr = Some "" →
     omap Argus_wait_timeout (Trace w) = [] ∧
     State w = sta ∧
     NewErrorDiagnostic "Error creating instance" "API didn't return an instance id"
       ∈ Diags w) ∧
  (let w := final (exec (Dns.recordSetResource.Create rd reqd) (fresh std)) in
   ∀ p z payload resp,
     In (Dns.Call.CreateRecordSet p z payload) (Trace w) →
     Dns.APIClient.CreateRecordSet rd p z payload = (Some resp, None) →
     Dns.RecordSetResponse.Rrset resp = None ∨
     (∃ rrset, Dns.RecordSetResponse.Rrset resp = Some rrset ∧ Dns.RecordSet.Id rrset = None) →
     omap Dns_wait_timeout (Trace w) = [] ∧
     State w = std ∧
     NewErrorDiagnostic "Error creating recordset" "Calling API: <nil>" ∈ Diags w).
Proof.
  split.
  - apply Argus_Create_without_instance_id.
  - apply Dns_Create_without_record_set_id.
Qed.

Lemma Create_without_id_stops_witness :
  let w := final (exec (Argus.Create argus_answering_without_id
                          {| Argus.CreatePlan := (sample_plan, []) |}) (fresh None)) in
  omap Argus_wait_timeout (Trace w) = [] ∧
  State w = None ∧
  NewErrorDiagnostic "Error creating instance" "API didn't return an instance id" ∈ Diags w.
Proof.
  refine (proj1 (Create_without_id_stops argus_answering_without_id
                   {| Argus.CreatePlan := (sample_plan, []) |} None
                   healthy_dns {| Dns.CreatePlan := (sample_config, []) |} None)
            "p" _ {| Argus.CreateInstanceResponse.InstanceId := None |} _ eq_refl _).
  - right. left. reflexivity.
  - left. reflexivity.
Defined.

(** ** DNS payloads *)

Lemma Dns_toRecords_spec (elements : list AttrValue) (i : nat)
  (acc : list Dns.RecordPayload.t) :
  if forallb is_string_value elements
  then Dns.toRecords i elements acc = ((acc ++ (record_of <$> elements))%list, None)
  else ∃ records err, Dns.toRecords i elements acc = (records, Some err).
Proof.
  revert i acc. induction elements as [|v elements IH]; intros i acc.
  - cbn. by rewrite app_nil_r.
  - cbn [forallb Dns.toRecords]. destruct v as [s| |]; cbn [is_string_value andb]; [|eauto..].
    specialize (IH (S i) (acc ++ [ {| Dns.RecordPayload.Content := ValueStringPointer s |} ])%list).
    destruct (forallb is_string_value elements); [|exact IH].
    rewrite IH. cbn [fmap list_fmap]. by rewrite <- app_assoc.
Qed.

(** X8. The two DNS payload builders fail exactly when some element of the
    records list is not a [types.String], and then both fail, without a
    payload; otherwise both succeed, with one record per element in the same
    order, and they agree on the comment, the name and the ttl. *)
Theorem Dns_payloads_need_string_records (model : Dns.Model.t) :
  if forallb is_string_value (List_Elements (Dns.Model.Records model))
  then ∃ c u,
         Dns.toCreatePayload (Some model) = (Some c, None) ∧
         Dns.toUpdatePayload (Some model) = (Some u, None) ∧
         Dns.CreateRecordSetPayload.Records c
           = Some (record_of <$> List_Elements (Dns.Model.Records model)) ∧
         Dns.UpdateRecordSetPayload.Records u = Dns.CreateRecordSetPayload.Records c ∧
         Dns.UpdateRecordSetPayload.Comment u = Dns.CreateRecordSetPayload.Comment c ∧
         Dns.UpdateRecordSetPayload.Name u = Dns.CreateRecordSetPayload.Name c ∧
         Dns.UpdateRecordSetPayload.Ttl u = Dns.CreateRecordSetPayload.Ttl c
  else ∃ err,
         Dns.toCreatePayload (Some model) = (None, Some err) ∧
         Dns.toUpdatePayload (Some model) = (None, Some err).
Proof.
  unfold Dns.toCreatePayload, Dns.toUpdatePayload.
  pose proof (Dns_toRecords_spec (List_Elements (Dns.Model.Records model)) 0 []) as H.
  destruct (forallb is_string_value (List_Elements (Dns.Model.Records model))).
  - rewrite H. eexists _, _. repeat split.
  - destruct H as (records & err & ->). by exists err.
Qed.

(** ** The calls of a run, operation by operation *)





Lemma Dns_Create_trace r model diags st :
  HasError diags = false →
  forallb is_string_value (List_Elements (Dns.Model.Records model)) = true →
  let p := ValueString (Dns.Model.ProjectId model) in
  let z := ValueString (Dns.Model.ZoneId model) in
  ∃ payload,
    Dns.toCreatePayload (Some model) = (Some payload, None) ∧
    calls (exec (Dns.recordSetResource.Create r {| Dns.CreatePlan := (model, diags) |})
             (fresh st))
    = Dns.Call.CreateRecordSet p z payload
      :: match Dns_created (Dns.APIClient.CreateRecordSet r p z payload) with
         | Some id => [Dns.Call.CreateRecordSetWaitHandler p z id (1 * Go.Minute)%Z]
         | None => []
         end.
Proof.
  intros Hdiags Hrecords p z. subst p z. unfold calls.
  remember (exec _ _) as o eqn:Ho.
  unfold Dns.recordSetResource.Create in Ho. cbn [Dns.CreatePlan] in Ho.
  unfold exec, fresh in Ho. run_in Ho.
  rewrite Append_nil_l_HasError, Hdiags in Ho. run_in Ho.
  pose proof (Dns_toRecords_spec (List_Elements (Dns.Model.Records model)) 0 []) as Hto.
  rewrite Hrecords in Hto.
  unfold Dns.toCreatePayload in Ho |- *. rewrite Hto in Ho |- *. run_in Ho.
  eexists. split; [reflexivity|].
  destruct (Dns.APIClient.CreateRecordSet r _ _ _) as [[resp|] [e|]];
    run_in Ho; cbn [Dns_created]; try (subst o; reflexivity).
  destruct (Dns.RecordSetResponse.Rrset resp) as [rrset|];
    run_in Ho; cbn [mbind option_bind]; try (subst o; reflexivity).
  destruct (Dns.RecordSet.Id rrset) as [id|];
    run_in Ho; try (subst o; reflexivity).
  destruct (Dns.APIClient.CreateRecordSetWaitHandler r _ _ _ _) as [wr [e|]];
    run_in Ho; try (subst o; reflexivity).
  destruct wr as [got|]; run_in Ho; try (subst o; reflexivity).
  destruct (Dns.mapFields got (Some model)) as [[err|] [m'|]|];
    run_in Ho; subst o; reflexivity.
Qed.

Lemma Dns_Update_trace r model diags st :
  HasError diags = false →
  forallb is_string_value (List_Elements (Dns.Model.Records model)) = true →
  let p := ValueString (Dns.Model.ProjectId model) in
  let z := ValueString (Dns.Model.ZoneId model) in
  let rs := ValueString (Dns.Model.RecordSetId model) in
  ∃ payload,
    Dns.toUpdatePayload (Some model) = (Some payload, None) ∧
    calls (exec (Dns.recordSetResource.Update r {| Dns.UpdatePlan := (model, diags) |})
             (fresh st))
    = Dns.Call.UpdateRecordSet p z rs payload
      :: match Dns.APIClient.UpdateRecordSet r p z rs payload with
         | Some _ => []
         | None =>
             Dns.Call.UpdateRecordSetWaitHandler p z rs (1 * Go.Minute)%Z
             :: match Dns.APIClient.UpdateRecordSetWaitHandler r p z rs (1 * Go.Minute)%Z with
                | (Dns.WaitRecordSetResponse _, None) => [Dns.Call.GetRecordSet p z rs]
                | _ => []
                end
         end.
Proof.
  intros Hdiags Hrecords p z rs. subst p z rs. unfold calls.
  remember (exec _ _) as o eqn:Ho.
  unfold Dns.recordSetResource.Update in Ho. cbn [Dns.UpdatePlan] in Ho.
  unfold exec, fresh in Ho. run_in Ho.
  rewrite Append_nil_l_HasError, Hdiags in Ho. run_in Ho.
  pose proof (Dns_toRecords_spec (List_Elements (Dns.Model.Records model)) 0 []) as Hto.
  rewrite Hrecords in Hto.
  unfold Dns.toUpdatePayload in Ho |- *. rewrite Hto in Ho |- *. run_in Ho.
  eexists. split; [reflexivity|].
  destruct (Dns.APIClient.UpdateRecordSet r _ _ _ _) as [e|];
    run_in Ho; try (subst o; reflexivity).
  destruct (Dns.APIClient.UpdateRecordSetWaitHandler r _ _ _ _) as [wr [e|]];
    run_in Ho; [subst o; by destruct wr|].
  destruct wr as [got|]; run_in Ho; try (subst o; reflexivity).
  destruct (Dns.APIClient.GetRecordSet r _ _ _) as [resp [e|]];
    run_in Ho; try (subst o; reflexivity).
  destruct (Dns.mapFields resp (Some model)) as [[err|] [m'|]|];
    run_in Ho; subst o; reflexivity.
Qed.





(** ** The planned records reach the API *)

(** X9. For a planned model whose records are strings (as every model that
    a plan yields is) and a request that decodes without an error, DNS
    Create and Update do not stop while building the payload: their first
    SDK call is [CreateRecordSet], respectively [UpdateRecordSet] for the
    model's record set id, in the model's project and zone, and its payload
    carries the planned records, one for each element and in the same
    order, and the model's name, comment and ttl (and, for Create, type). *)
Theorem Dns_Create_Update_send_planned_records
  (r : Dns.APIClient.t) (model : Dns.Model.t) (diags : Diagnostics)
  (st : option Dns.Model.t) :
  HasError diags = false →
  forallb is_string_value (List_Elements (Dns.Model.Records model)) = true →
  let p := ValueString (Dns.Model.ProjectId model) in
  let z := ValueString (Dns.Model.ZoneId model) in
  let rs := ValueString (Dns.Model.RecordSetId model) in
  let records := Some (record_of <$> List_Elements (Dns.Model.Records model)) in
  (∃ payload rest,
     calls (exec (Dns.recordSetResource.Create r {| Dns.CreatePlan := (model, diags) |})
              (fresh st))
     = Dns.Call.CreateRecordSet p z payload :: rest ∧
     Dns.CreateRecordSetPayload.Records payload = records ∧
     Dns.CreateRecordSetPayload.Name payload = ValueStringPointer (Dns.Model.Name model) ∧
     Dns.CreateRecordSetPayload.Comment payload
       = ValueStringPointer (Dns.Model.Comment model) ∧
     Dns.CreateRecordSetPayload.Ttl payload = conversion.ToPtrInt32 (Dns.Model.TTL model) ∧
     Dns.CreateRecordSetPayload.Type_ payload = ValueStringPointer (Dns.Model.Type_ model)) ∧
  (∃ payload rest,
     calls (exec (Dns.recordSetResource.Update r {| Dns.UpdatePlan := (model, diags) |})
              (fresh st))
     = Dns.Call.UpdateRecordSet p z rs payload :: rest ∧
     Dns.UpdateRecordSetPayload.Records payload = records ∧
     Dns.UpdateRecordSetPayload.Name payload = ValueStringPointer (Dns.Model.Name model) ∧
     Dns.UpdateRecordSetPayload.Comment payload
       = ValueStringPointer (Dns.Model.Comment model) ∧
     Dns.UpdateRecordSetPayload.Ttl payload = conversion.ToPtrInt32 (Dns.Model.TTL model)).
Proof.
  intros Hdiags Hrecords p z rs records.
  pose proof (Dns_toRecords_spec (List_Elements (Dns.Model.Records model)) 0 []) as Hto.
  rewrite Hrecords in Hto. cbn [app] in Hto.
  split.
  - destruct (Dns_Create_trace r model diags st Hdiags Hrecords)
      as (payload & Hpayload & Hcalls).
    cbv zeta in Hcalls. fold p z in Hcalls.
    exists payload. eexists. split; [exact Hcalls|].
    unfold Dns.toCreatePayload in Hpayload. rewrite Hto in Hpayload.
    injection Hpayload as <-. done.
  - destruct (Dns_Update_trace r model diags st Hdiags Hrecords)
      as (payload & Hpayload & Hcalls).
    cbv zeta in Hcalls. fold p z rs in Hcalls.
    exists payload. eexists. split; [exact Hcalls|].
    unfold Dns.toUpdatePayload in Hpayload. rewrite Hto in Hpayload.
    injection Hpayload as <-. done.
Qed.

Lemma Dns_Create_Update_send_planned_records_witness :
  (∃ payload rest,
     calls (exec (Dns.recordSetResource.Create healthy_dns
                    {| Dns.CreatePlan := (config_with_records, []) |}) (fresh None))
     = Dns.Call.CreateRecordSet "p" "z" payload :: rest ∧
     Dns.CreateRecordSetPayload.Records payload
     = Some [ {| Dns.RecordPayload.Content := Some "1.2.3.4" |};
              {| Dns.RecordPayload.Content := Some "5.6.7.8" |} ] ∧
     Dns.CreateRecordSetPayload.Name payload = Some "www") ∧
  (∃ payload rest,
     calls (exec (Dns.recordSetResource.Update healthy_dns
                    {| Dns.UpdatePlan := (config_with_records, []) |}) (fresh None))
     = Dns.Call.UpdateRecordSet "p" "z" "rs" payload :: rest ∧
     Dns.UpdateRecordSetPayload.Records payload
     = Some [ {| Dns.RecordPayload.Content := Some "1.2.3.4" |};
              {| Dns.RecordPayload.Content := Some "5.6.7.8" |} ] ∧
     Dns.UpdateRecordSetPayload.Name payload = Some "www").
Proof.
  destruct (Dns_Create_Update_send_planned_records healthy_dns config_with_records [] None
              eq_refl eq_refl)
    as [(c & rest_c & Hc & Hrc & Hnc & _) (u & rest_u & Hu & Hru & Hnu & _)].
  split.
  - exists c, rest_c. done.
  - exists u, rest_u. done.
Defined.

(** ** Argus: mapping the same response again *)

Lemma Argus_mapFields_again rr m m' :
  Argus.mapFields (Some rr) (Some m) = Returned None (Some m') →
  Argus.mapFields (Some rr) (Some m') = Returned None (Some m').
Proof.
  intros H.
  pose proof (Argus_mapFields_success _ _ _ H) as (instanceId & Hchosen & _ & Hinst & _).
  rewrite Argus_mapFields_chosen in H |- *.
  rewrite Hchosen in H. rewrite Hinst. cbn [ValueString StringValue].
  assert (Hchosen' : (if negb (instanceId =? "") then Some instanceId
                      else Argus.InstanceResponse.Id rr) = Some instanceId).
  { destruct (instanceId =? "") eqn:He; [|done]. cbn [negb].
    apply String.eqb_eq in He. subst instanceId.
    destruct (negb (ValueString (Argus.Model.InstanceId m) =? "")) eqn:Hm; [|done].
    injection Hchosen as Hc. apply negb_true_iff, String.eqb_neq in Hm. congruence. }
  rewrite Hchosen'. clear Hchosen Hchosen' Hinst.
  unfold Argus.mapParameters, Argus.mapInstance in *.
  destruct (Argus.InstanceResponse.Parameters rr) as [ps|];
    rewrite ?MapValueFrom_strings in *; cbv zeta in *; cbn [HasError existsb] in *;
    (destruct (Argus.InstanceResponse.Instance rr) as [i|];
     [ destruct (Argus.InstanceSensitiveData.MetricsRetentionTimeRaw i); [|done];
       destruct (Argus.InstanceSensitiveData.MetricsRetentionTime5m i); [|done];
       destruct (Argus.InstanceSensitiveData.MetricsRetentionTime1h i); [|done] |]);
    injection H as <-; destruct m; reflexivity.
Qed.

Lemma Dns_mapFields_again resp rrset id m m' :
  Dns.RecordSetResponse.Rrset resp = Some rrset →
  Dns.RecordSet.Id rrset = Some id →
  id ≠ "" →
  ValueString (Dns.Model.RecordSetId m) = "" ∨ ValueString (Dns.Model.RecordSetId m) = id →
  Dns.mapFields (Some resp) (Some m) = Returned None (Some m') →
  Dns.mapFields (Some resp) (Some m') = Returned None (Some m').
Proof.
  intros Hrr Hid Hne Hold H.
  rewrite (Dns_mapFields_chosen _ _ m Hrr) in H.
  rewrite (Dns_mapFields_chosen _ _ m' Hrr).
  assert (Hchosen : (if negb (ValueString (Dns.Model.RecordSetId m) =? "")
                     then Some (ValueString (Dns.Model.RecordSetId m))
                     else Dns.RecordSet.Id rrset) = Some id).
  { destruct Hold as [Hold|Hold]; rewrite Hold.
    - by rewrite Hid.
    - apply String.eqb_neq in Hne. by rewrite Hne. }
  rewrite Hchosen in H. cbv zeta in H. injection H as <-.
  apply String.eqb_neq in Hne.
  destruct m. cbv [apply_update constant]. cbn [Dns.Model.RecordSetId]. rewrite Hid.
  cbn [StringPointerValue ValueString]. rewrite Hne. reflexivity.
Qed.

(** X10. Mapping the same response a second time changes nothing. For the
    Argus instance this holds after every successful [mapFields]; for the
    DNS record set it holds when the response carries a non-empty id and the
    model had no record set id or that same id. *)
Theorem mapFields_again_changes_nothing
  (rr : Argus.InstanceResponse.t) (ma ma' : Argus.Model.t)
  (resp : Dns.RecordSetResponse.t) (rrset : Dns.RecordSet.t) (id : string)
  (md md' : Dns.Model.t) :
  (Argus.mapFields (Some rr) (Some ma) = Returned None (Some ma') →
   Argus.mapFields (Some rr) (Some ma') = Returned None (Some ma')) ∧
  (Dns.RecordSetResponse.Rrset resp = Some rrset →
   Dns.RecordSet.Id rrset = Some id →
   id ≠ "" →
   ValueString (Dns.Model.RecordSetId md) = "" ∨ ValueString (Dns.Model.RecordSetId md) = id →
   Dns.mapFields (Some resp) (Some md) = Returned None (Some md') →
   Dns.mapFields (Some resp) (Some md') = Returned None (Some md')).
Proof.
  split.
  - apply Argus_mapFields_again.
  - apply Dns_mapFields_again.
Qed.

Lemma mapFields_again_changes_nothing_witness :
  (∃ ma', Argus.mapFields (Some sample_instance_response) (Some sample_plan)
          = Returned None (Some ma') ∧
          Argus.mapFields (Some sample_instance_response) (Some ma')
          = Returned None (Some ma')) ∧
  (∃ md', Dns.mapFields (Some {| Dns.RecordSetResponse.Rrset := Some sample_rrset |})
            (Some sample_config) = Returned None (Some md') ∧
          Dns.mapFields (Some {| Dns.RecordSetResponse.Rrset := Some sample_rrset |})
            (Some md') = Returned None (Some md')).
Proof.
  split.
  - eexists. split; [reflexivity|].
    refine (proj1 (mapFields_again_changes_nothing sample_instance_response sample_plan _
                     {| Dns.RecordSetResponse.Rrset := Some sample_rrset |} sample_rrset "rs"
                     sample_config sample_config) eq_refl).
  - eexists. split; [reflexivity|].
    refine (proj2 (mapFields_again_changes_nothing sample_instance_response sample_plan
                     sample_plan
                     {| Dns.RecordSetResponse.Rrset := Some sample_rrset |} sample_rrset "rs"
                     sample_config _) eq_refl eq_refl _ _ eq_refl).
    + vm_compute. discriminate.
    + right. reflexivity.
Defined.

(** ** Argus: what is read and what is sent back *)

Lemma Argus_mapFields_header rr m m' :
  Argus.mapFields (Some rr) (Some m) = Returned None (Some m') →
  Argus.Model.Name m' = StringPointerValue (Argus.InstanceResponse.Name rr) ∧
  Argus.Model.PlanName m' = StringPointerValue (Argus.InstanceResponse.PlanName rr) ∧
  Argus.Model.PlanId m' = StringPointerValue (Argus.InstanceResponse.PlanId rr) ∧
  Argus.Model.IsUpdatable m' = BoolPointerValue (Argus.InstanceResponse.IsUpdatable rr) ∧
  Argus.Model.DashboardURL m' = StringPointerValue (Argus.InstanceResponse.DashboardUrl rr) ∧
  Argus.Model.Parameters m' =
    match Argus.InstanceResponse.Parameters rr with
    | None => MapNull StringType
    | Some ps => MapKnown StringType ((fun v => AString (StringValue v)) <$> ps)
    end.
Proof.
  rewrite Argus_mapFields_chosen.
  destruct (if negb _ then _ else _) as [instanceId|]; [|done].
  unfold Argus.mapParameters, Argus.mapInstance.
  destruct (Argus.InstanceResponse.Parameters rr) as [ps|];
    rewrite ?MapValueFrom_strings; cbv zeta; cbn [HasError existsb];
    (destruct (Argus.InstanceResponse.Instance rr) as [i|];
     [ destruct (Argus.InstanceSensitiveData.MetricsRetentionTimeRaw i); [|done];
       destruct (Argus.InstanceSensitiveData.MetricsRetentionTime5m i); [|done];
       destruct (Argus.InstanceSensitiveData.MetricsRetentionTime1h i); [|done] |]);
    intros [= <-]; repeat split.
Qed.

(** X11. After Argus [mapFields] has mapped a response, the model holds the
    response's parameters as plain strings under the same keys, and the
    update payload built from that model gives back the response's name and
    plan id; each parameter, though, goes out in its quoted rendering (given
    here for parameter values of bytes below 0x80), and a response without
    parameters yields an empty parameter map. *)
Theorem Argus_read_then_update_payload
  (rr : Argus.InstanceResponse.t) (m m' : Argus.Model.t) :
  Argus.mapFields (Some rr) (Some m) = Returned None (Some m') →
  let ps := default ∅ (Argus.InstanceResponse.Parameters rr) in
  map_Forall (fun _ v => is_ascii v = true) ps →
  (∀ k, Map_Elements (Argus.Model.Parameters m') !! k
        = (fun v => AString (Known v)) <$> ps !! k) ∧
  ∃ u pa,
    Argus.toUpdatePayload (Some m') = (Some u, None) ∧
    Argus.UpdateInstancePayload.Name u = Argus.InstanceResponse.Name rr ∧
    Argus.UpdateInstancePayload.PlanId u = Argus.InstanceResponse.PlanId rr ∧
    Argus.UpdateInstancePayload.Parameter_ u = Some pa ∧
    ∀ k, pa !! k = Go.Quote <$> ps !! k.
Proof.
  intros H ps _.
  destruct (Argus_mapFields_header _ _ _ H) as (Hname & _ & Hplan & _ & _ & Hparams).
  assert (Helems : ∀ k, Map_Elements (Argus.Model.Parameters m') !! k
                        = (fun v => AString (Known v)) <$> ps !! k).
  { intros k. rewrite Hparams. subst ps.
    destruct (Argus.InstanceResponse.Parameters rr) as [ps|]; cbn [Map_Elements default].
    - by rewrite lookup_fmap.
    - by rewrite !lookup_empty. }
  split; [exact Helems|].
  unfold Argus.toUpdatePayload. eexists _, _. split; [reflexivity|].
  cbn [Argus.UpdateInstancePayload.Name Argus.UpdateInstancePayload.PlanId
       Argus.UpdateInstancePayload.Parameter_].
  rewrite Hname, Hplan, !ValueStringPointer_StringPointerValue.
  repeat split. intros k. rewrite lookup_fmap, Helems.
  by destruct (ps !! k).
Qed.

Lemma Argus_read_then_update_payload_witness :
  ∃ m',
    Argus.mapFields
      (Some (sample_instance_response
               <|Argus.InstanceResponse.Parameters := Some {[ "retention" := "30" ]}|>))
      (Some sample_plan) = Returned None (Some m') ∧
    Map_Elements (Argus.Model.Parameters m') !! "retention" = Some (AString (Known "30")) ∧
    ∃ u pa,
      Argus.toUpdatePayload (Some m') = (Some u, None) ∧
      Argus.UpdateInstancePayload.Name u = Some "monitoring" ∧
      Argus.UpdateInstancePayload.PlanId u = Some "plan-1" ∧
      Argus.UpdateInstancePayload.Parameter_ u = Some pa ∧
      pa !! "retention" = Some (Go.Quote "30").
Proof.
  eexists. split; [reflexivity|].
  assert (Hascii : map_Forall (fun _ v => is_ascii v = true)
                     ({[ "retention" := "30" ]} : gmap string string))
    by (by apply map_Forall_singleton).
  pose proof (Argus_read_then_update_payload
                (sample_instance_response
                   <|Argus.InstanceResponse.Parameters := Some {[ "retention" := "30" ]}|>)
                sample_plan _ eq_refl Hascii)
    as [Helems (u & pa & Hu & Hname & Hplan & Hpa & Hq)].
  split; [exact (Helems "retention")|].
  exists u, pa. repeat split; try assumption. exact (Hq "retention").
Defined.

(** ** The form of an import identifier *)

Lemma accepted2_form (id : string) :
  accepted 2 id = true ↔
  ∃ p i, id = Go.Join [p; i] core.Separator ∧ p ≠ "" ∧ i ≠ "" ∧
         NoSeparator p = true ∧ NoSeparator i = true.
Proof.
  rewrite accepted_spec. split.
  - intros [Hlen Hne].
    pose proof (Join_Split_Separator id) as Hjoin.
    pose proof (Split_pieces_NoSeparator id) as Hsep.
    destruct (Go.Split id core.Separator) as [|p [|i [|? ?]]]; try done.
    exists p, i.
    apply Forall_cons in Hne as [Hp Hne]. apply Forall_cons in Hne as [Hi _].
    apply Forall_cons in Hsep as [Hsp Hsep]. apply Forall_cons in Hsep as [Hsi _].
    done.
  - intros (p & i & -> & Hp & Hi & Hsp & Hsi).
    rewrite (Split_Join2 p i Hsp Hsi). split; [done|]. by repeat constructor.
Qed.

Lemma accepted3_form (id : string) :
  accepted 3 id = true ↔
  ∃ p z rs, id = Go.Join [p; z; rs] core.Separator ∧ p ≠ "" ∧ z ≠ "" ∧ rs ≠ "" ∧
            NoSeparator p = true ∧ NoSeparator z = true ∧ NoSeparator rs = true.
Proof.
  rewrite accepted_spec. split.
  - intros [Hlen Hne].
    pose proof (Join_Split_Separator id) as Hjoin.
    pose proof (Split_pieces_NoSeparator id) as Hsep.
    destruct (Go.Split id core.Separator) as [|p [|z [|rs [|? ?]]]]; try done.
    exists p, z, rs.
    apply Forall_cons in Hne as [Hp Hne]. apply Forall_cons in Hne as [Hz Hne].
    apply Forall_cons in Hne as [Hrs _].
    apply Forall_cons in Hsep as [Hsp Hsep]. apply Forall_cons in Hsep as [Hsz Hsep].
    apply Forall_cons in Hsep as [Hsrs _].
    done.
  - intros (p & z & rs & -> & Hp & Hz & Hrs & Hsp & Hsz & Hsrs).
    rewrite (Split_Join3 p z rs Hsp Hsz Hsrs). split; [done|]. by repeat constructor.
Qed.

Lemma Argus_ImportState_runs (id : string) (st : Attributes) :
  exec (Argus.ImportState {| Argus.ID := id |}) (fresh st) =
  Finished
    (if accepted 2 id
     then mkResponse [] []
            (<["instance_id" := nth 1 (Go.Split id core.Separator) ""]>
               (<["project_id" := nth 0 (Go.Split id core.Separator) ""]> st))
     else mkResponse []
            [NewErrorDiagnostic "Unexpected Import Identifier"
               ("Expected import identifier with format: [project_id],[instance_id]  Got: "
                ++ Go.Quote id)] st).
Proof.
  unfold Argus.ImportState, accepted. cbn [Argus.ID]. rewrite guard2.
  by destruct (_ && _).
Qed.

Lemma Dns_ImportState_runs (id : string) (st : Attributes) :
  exec (Dns.recordSetResource.ImportState {| Dns.ID := id |}) (fresh st) =
  Finished
    (if accepted 3 id
     then mkResponse [] []
            (<["record_set_id" := nth 2 (Go.Split id core.Separator) ""]>
               (<["zone_id" := nth 1 (Go.Split id core.Separator) ""]>
                  (<["project_id" := nth 0 (Go.Split id core.Separator) ""]> st)))
     else mkResponse []
            [NewErrorDiagnostic "Unexpected Import Identifier"
               ("Expected import identifier with format [project_id],[zone_id],[record_set_id], got "
                ++ Go.Quote id)] st).
Proof.
  unfold Dns.recordSetResource.ImportState, accepted. cbn [Dns.ID]. rewrite guard3.
  by destruct (_ && _).
Qed.

(** X12. ImportState goes through without a diagnostic exactly for the
    identifiers that are non-empty, separator-free parts joined by the
    separator (project id and instance id for Argus; project id, zone id and
    record set id for DNS), and it then writes exactly these parts to the key
    attributes. In particular a part can never hold a separator, and a
    leading, trailing or doubled separator is refused. *)
Theorem ImportState_takes_joined_key_attributes (id : string) (st : Attributes) :
  (∃ w, exec (Argus.ImportState {| Argus.ID := id |}) (fresh st) = Finished w ∧
        (Diags w = [] ↔
         ∃ p i, id = Go.Join [p; i] core.Separator ∧ p ≠ "" ∧ i ≠ "" ∧
                NoSeparator p = true ∧ NoSeparator i = true ∧
                State w = <["instance_id" := i]> (<["project_id" := p]> st))) ∧
  (∃ w, exec (Dns.recordSetResource.ImportState {| Dns.ID := id |}) (fresh st) = Finished w ∧
        (Diags w = [] ↔
         ∃ p z rs, id = Go.Join [p; z; rs] core.Separator ∧ p ≠ "" ∧ z ≠ "" ∧ rs ≠ "" ∧
                   NoSeparator p = true ∧ NoSeparator z = true ∧ NoSeparator rs = true ∧
                   State w = <["record_set_id" := rs]>
                               (<["zone_id" := z]> (<["project_id" := p]> st)))).
Proof.
  split.
  - rewrite Argus_ImportState_runs. eexists. split; [reflexivity|].
    destruct (accepted 2 id) eqn:Hacc; cbn [Diags State].
    + split; [intros _|done].
      apply accepted2_form in Hacc as (p & i & -> & Hp & Hi & Hsp & Hsi).
      exists p, i. rewrite (Split_Join2 p i Hsp Hsi). done.
    + split; [done|]. intros (p & i & Hid & Hp & Hi & Hsp & Hsi & _).
      assert (accepted 2 id = true) by (apply accepted2_form; eauto 10). congruence.
  - rewrite Dns_ImportState_runs. eexists. split; [reflexivity|].
    destruct (accepted 3 id) eqn:Hacc; cbn [Diags State].
    + split; [intros _|done].
      apply accepted3_form in Hacc as (p & z & rs & -> & Hp & Hz & Hrs & Hsp & Hsz & Hsrs).
      exists p, z, rs. rewrite (Split_Join3 p z rs Hsp Hsz Hsrs). done.
    + split; [done|]. intros (p & z & rs & Hid & Hp & Hz & Hrs & Hsp & Hsz & Hsrs & _).
      assert (accepted 3 id = true) by (apply accepted3_form; eauto 12). congruence.
Qed.

(** ** From the id of the model back to the key attributes *)

Lemma Dns_mapFields_id_chosen resp m m' :
  Dns.mapFields (Some resp) (Some m) = Returned None (Some m') →
  ∃ rrset recordSetId,
    Dns.RecordSetResponse.Rrset resp = Some rrset ∧
    (if negb (ValueString (Dns.Model.RecordSetId m) =? "")
     then Some (ValueString (Dns.Model.RecordSetId m))
     else Dns.RecordSet.Id rrset) = Some recordSetId ∧
    Dns.Model.Id m' =
      StringValue (Go.Join [ValueString (Dns.Model.ProjectId m);
                            ValueString (Dns.Model.ZoneId m); recordSetId] core.Separator) ∧
    Dns.Model.ProjectId m' = Dns.Model.ProjectId m ∧
    Dns.Model.ZoneId m' = Dns.Model.ZoneId m.
Proof.
  destruct (Dns.RecordSetResponse.Rrset resp) as [rrset|] eqn:Hrr.
  - rewrite (Dns_mapFields_chosen _ _ _ Hrr).
    destruct (if negb _ then _ else _) as [recordSetId|] eqn:Hch; [|done].
    cbv zeta. intros [= <-]. exists rrset, recordSetId. by destruct m.
  - unfold Dns.mapFields.
    change (Some resp ≫= Dns.RecordSetResponse.Rrset) with (Dns.RecordSetResponse.Rrset resp).
    by rewrite Hrr.
Qed.

(** X13. The id that a successful [mapFields] leaves in the model is an
    import identifier: as long as the parts it was joined from are non-empty
    and free of the separator, ImportState takes the id apart into the
    model's project id (and zone id) and the entity id [mapFields] chose
    (the model's own if it had one, else the response's). *)
Theorem mapFields_id_imports_back :
  (∀ rr m m' st,
     Argus.mapFields (Some rr) (Some m) = Returned None (Some m') →
     let p := ValueString (Argus.Model.ProjectId m') in
     let i := ValueString (Argus.Model.InstanceId m') in
     p ≠ "" → i ≠ "" → NoSeparator p = true → NoSeparator i = true →
     exec (Argus.ImportState {| Argus.ID := ValueString (Argus.Model.Id m') |}) (fresh st)
     = Finished (mkResponse [] [] (<["instance_id" := i]> (<["project_id" := p]> st)))) ∧
  (∀ resp m m' st,
     Dns.mapFields (Some resp) (Some m) = Returned None (Some m') →
     let p := ValueString (Dns.Model.ProjectId m') in
     let z := ValueString (Dns.Model.ZoneId m') in
     let rs := if negb (ValueString (Dns.Model.RecordSetId m) =? "")
               then ValueString (Dns.Model.RecordSetId m)
               else ValueString (Dns.Model.RecordSetId m') in
     p ≠ "" → z ≠ "" → rs ≠ "" →
     NoSeparator p = true → NoSeparator z = true → NoSeparator rs = true →
     exec (Dns.recordSetResource.ImportState {| Dns.ID := ValueString (Dns.Model.Id m') |})
       (fresh st)
     = Finished (mkResponse [] []
                   (<["record_set_id" := rs]> (<["zone_id" := z]> (<["project_id" := p]> st))))).
Proof.
  split.
  - intros rr m m' st Hmap. exact (Argus_mapFields_id_imports rr m m' st Hmap).
  - intros resp m m' st Hmap p z rs Hp Hz Hrs Hsp Hsz Hsrs.
    pose proof Hmap as Hmap'.
    apply Dns_mapFields_id_chosen in Hmap' as (rrset & recordSetId & Hrr & Hch & Hid & Hpid & Hzid).
    assert (Heq : rs = recordSetId).
    { subst rs. rewrite (Dns_mapFields_chosen _ _ _ Hrr), Hch in Hmap.
      cbv zeta in Hmap. injection Hmap as <-.
      destruct (ValueString (Dns.Model.RecordSetId m) =? "") eqn:Hm; cbn [negb] in *.
      - destruct m. cbv [apply_update constant]. cbn [Dns.Model.RecordSetId].
        by rewrite Hch.
      - by injection Hch as <-. }
    rewrite Hid. subst p z. rewrite Hpid, Hzid in *. rewrite <- Heq.
    rewrite Dns_ImportState_runs. cbn [ValueString StringValue].
    rewrite (Split_Join3 _ _ rs Hsp Hsz Hsrs).
    assert (Hacc : accepted 3 (Go.Join [ValueString (Dns.Model.ProjectId m);
                                        ValueString (Dns.Model.ZoneId m); rs] core.Separator)
                   = true) by (apply accepted3_form; eauto 12).
    by rewrite Hacc.
Qed.

Lemma mapFields_id_imports_back_witness :
  exec (Argus.ImportState {| Argus.ID := "p,i" |}) (fresh ∅)
  = Finished (mkResponse [] [] (<["instance_id" := "i"]> (<["project_id" := "p"]> ∅))) ∧
  exec (Dns.recordSetResource.ImportState {| Dns.ID := "p,z,rs" |}) (fresh ∅)
  = Finished (mkResponse [] []
                (<["record_set_id" := "rs"]> (<["zone_id" := "z"]> (<["project_id" := "p"]> ∅)))).
Proof.
  split.
  - exact (proj1 mapFields_id_imports_back sample_instance_response sample_plan _ ∅ eq_refl
             ltac:(discriminate) ltac:(discriminate) eq_refl eq_refl).
  - exact (proj2 mapFields_id_imports_back
             {| Dns.RecordSetResponse.Rrset := Some sample_rrset |} sample_config _ ∅ eq_refl
             ltac:(discriminate) ltac:(discriminate) ltac:(discriminate)
             eq_refl eq_refl eq_refl).
Defined.

(** ** Configure *)

Ltac in_options :=
  repeat match goal with
         | H : _ ∈ _ |- _ => inversion H; subst; clear H
         end;
  try done.

Ltac has_option := repeat first [ apply list_elem_of_here | apply list_elem_of_further ].

Lemma Argus_Configure_runs NewAPIClient req before :
  ∃ w, exec (Argus.Configure NewAPIClient req) (fresh before) = Finished w ∧
       configured_by NewAPIClient (Argus.ProviderData req) before w ∧
       ∀ providerData options,
         Argus.ProviderData req = core.IsProviderData providerData →
         options ∈ Trace w →
         options_of providerData true options ∧
         (config.WithEndpoint (core.ArgusCustomEndpoint providerData) ∈ options
          ∨ core.ArgusCustomEndpoint providerData = ""
            ∧ config.WithRegion (core.Region providerData) ∈ options).
Proof.
  unfold Argus.Configure, configured_by.
  destruct (Argus.ProviderData req) as [|providerData|typeName].
  - eexists. split; [reflexivity|]. split; [reflexivity|]. intros ? ? [=].
  - remember (if negb (core.ArgusCustomEndpoint providerData =? "") then _ else _)
      as options eqn:Hoptions.
    assert (Hopt : options_of providerData true options ∧
                   (config.WithEndpoint (core.ArgusCustomEndpoint providerData) ∈ options
                    ∨ core.ArgusCustomEndpoint providerData = ""
                      ∧ config.WithRegion (core.Region providerData) ∈ options)).
    { subst options. unfold options_of.
      destruct (core.ArgusCustomEndpoint providerData =? "") eqn:He; cbn [negb].
      - apply String.eqb_eq in He.
        split; [|right; split; [done|has_option]].
        split; [has_option|]. split; [intros e Hin|intros r Hin]; in_options.
      - apply String.eqb_neq in He.
        split; [|left; has_option].
        split; [has_option|]. split; [intros e Hin|intros r Hin]; in_options.
        split; [done|]. intros r Hin. in_options. }
    cbv zeta. unfold exec, fresh. run.
    destruct (NewAPIClient options) as [apiClient [e|]] eqn:Hnew; run;
      (eexists; split; [reflexivity|]); cbn [Trace Diags State].
    + split.
      * exists options. split; [done|]. left. rewrite Hnew. eauto.
      * intros pd o [= <-] Ho. apply list_elem_of_singleton in Ho as ->. done.
    + split.
      * exists options. split; [done|]. right. by rewrite Hnew.
      * intros pd o [= <-] Ho. apply list_elem_of_singleton in Ho as ->. done.
  - unfold exec, fresh. run. eexists. split; [reflexivity|]. split; [done|]. intros ? ? [=].
Qed.

Lemma Dns_options_of providerData :
  let options :=
    if negb (core.DnsCustomEndpoint providerData =? "")
    then [ config.WithCustomAuth (core.RoundTripper_ providerData);
           config.WithEndpoint (core.DnsCustomEndpoint providerData) ]
    else [ config.WithCustomAuth (core.RoundTripper_ providerData) ] in
  options_of providerData false options ∧
  (config.WithEndpoint (core.DnsCustomEndpoint providerData) ∈ options
   ∨ core.DnsCustomEndpoint providerData = "").
Proof.
  unfold options_of.
  destruct (core.DnsCustomEndpoint providerData =? "") eqn:He; cbn [negb].
  - apply String.eqb_eq in He. split; [|by right].
    split; [has_option|]. split; [intros e Hin|intros r Hin]; in_options.
  - apply String.eqb_neq in He. split; [|left; has_option].
    split; [has_option|]. split; [intros e Hin|intros r Hin]; in_options.
    split; [done|]. intros r Hin. in_options.
Qed.

Ltac solve_Dns_Configure NewAPIClient req :=
  unfold configured_by;
  destruct (Dns.ProviderData req) as [|providerData|typeName];
  [ eexists; split; [reflexivity|]; split; [reflexivity|]; intros ? ? [=]
  | pose proof (Dns_options_of providerData) as Hopt; cbv zeta in Hopt |- *;
    remember (if negb (core.DnsCustomEndpoint providerData =? "") then _ else _)
      as options eqn:Hoptions;
    unfold exec, fresh; run;
    destruct (NewAPIClient options) as [apiClient [e|]] eqn:Hnew; run;
    (eexists; split; [reflexivity|]); cbn [Trace Diags State];
    (split;
     [ exists options; split; [done|]; rewrite Hnew; eauto
     | intros pd o [= <-] Ho; apply list_elem_of_singleton in Ho as ->; done ])
  | unfold exec, fresh; run; eexists; split; [reflexivity|]; split; [done|];
    intros ? ? [=] ].

Lemma Dns_Configure_runs NewAPIClient req before :
  ∃ w, exec (Dns.recordSetResource.Configure NewAPIClient req) (fresh before) = Finished w ∧
       configured_by NewAPIClient (Dns.ProviderData req) before w ∧
       ∀ providerData options,
         Dns.ProviderData req = core.IsProviderData providerData →
         options ∈ Trace w →
         options_of providerData false options ∧
         (config.WithEndpoint (core.DnsCustomEndpoint providerData) ∈ options
          ∨ core.DnsCustomEndpoint providerData = "").
Proof. unfold Dns.recordSetResource.Configure. solve_Dns_Configure NewAPIClient req. Qed.

Lemma Dns_DataSource_Configure_runs NewAPIClient req before :
  ∃ w, exec (Dns.recordSetDataSource.Configure NewAPIClient req) (fresh before) = Finished w ∧
       configured_by NewAPIClient (Dns.ProviderData req) before w ∧
       ∀ providerData options,
         Dns.ProviderData req = core.IsProviderData providerData →
         options ∈ Trace w →
         options_of providerData false options ∧
         (config.WithEndpoint (core.DnsCustomEndpoint providerData) ∈ options
          ∨ core.DnsCustomEndpoint providerData = "").
Proof. unfold Dns.recordSetDataSource.Configure. solve_Dns_Configure NewAPIClient req. Qed.

(** X14. Each of the three Configure methods, started without diagnostics,
    does nothing for a provider that is not configured, and only reports an
    error for provider data of another type. Otherwise it calls the SDK's
    constructor once: with the provider's round tripper, with the service's
    custom endpoint if that is not empty, and (Argus only) with the
    provider's region if it is; never with both, never with an empty
    endpoint, and for DNS never with a region. It holds the client the
    constructor answered if that came without an error, and else reports
    the error and keeps the client it had. *)
Theorem Configure_calls_constructor_once
  (newArgus : list config.ConfigurationOption → option Argus.APIClient.t * option Go.error)
  (newDns : list config.ConfigurationOption → option Dns.APIClient.t * option Go.error)
  (providerData : core.AnyProviderData)
  (argusBefore : option Argus.APIClient.t) (dnsBefore : option Dns.APIClient.t) :
  (∃ w, exec (Argus.Configure newArgus {| Argus.ProviderData := providerData |})
          (fresh argusBefore) = Finished w ∧
        configured_by newArgus providerData argusBefore w ∧
        ∀ pd options,
          providerData = core.IsProviderData pd → options ∈ Trace w →
          options_of pd true options ∧
          (config.WithEndpoint (core.ArgusCustomEndpoint pd) ∈ options
           ∨ core.ArgusCustomEndpoint pd = "" ∧ config.WithRegion (core.Region pd) ∈ options)) ∧
  (∃ w, exec (Dns.recordSetResource.Configure newDns {| Dns.ProviderData := providerData |})
          (fresh dnsBefore) = Finished w ∧
        configured_by newDns providerData dnsBefore w ∧
        ∀ pd options,
          providerData = core.IsProviderData pd → options ∈ Trace w →
          options_of pd false options ∧
          (config.WithEndpoint (core.DnsCustomEndpoint pd) ∈ options
           ∨ core.DnsCustomEndpoint pd = "")) ∧
  (∃ w, exec (Dns.recordSetDataSource.Configure newDns {| Dns.ProviderData := providerData |})
          (fresh dnsBefore) = Finished w ∧
        configured_by newDns providerData dnsBefore w ∧
        ∀ pd options,
          providerData = core.IsProviderData pd → options ∈ Trace w →
          options_of pd false options ∧
          (config.WithEndpoint (core.DnsCustomEndpoint pd) ∈ options
           ∨ core.DnsCustomEndpoint pd = "")).
Proof.
  split; [|split].
  - exact (Argus_Configure_runs newArgus {| Argus.ProviderData := providerData |} argusBefore).
  - exact (Dns_Configure_runs newDns {| Dns.ProviderData := providerData |} dnsBefore).
  - exact (Dns_DataSource_Configure_runs newDns {| Dns.ProviderData := providerData |}
             dnsBefore).
Qed.

(** ** The keys of the SDK calls *)

Ltac solve_keys :=
  subst;
  unfold Argus_call_for, Dns_call_for, Argus_call_in_project, Dns_call_in_zone;
  cbn [final Trace forallb Argus_call_keys Dns_call_keys names_only fst snd];
  rewrite ?String.eqb_refl; reflexivity.

Lemma Argus_Read_keys r req st :
  forallb (Argus_call_for (Argus.ReadState req).1)
    (Trace (final (exec (Argus.Read r req) (fresh st)))) = true.
Proof.
  remember (exec (Argus.Read r req) (fresh st)) as o eqn:Ho.
  unfold Argus.Read in Ho.
  destruct (Argus.ReadState req) as [model diags]. cbn [fst].
  enter o Ho diags; [solve_keys|].
  destruct (Argus.APIClient.GetInstance r _ _) as [resp [e|]];
    run_in Ho; try (solve [solve_keys]).
  destruct (Argus.mapFields resp (Some model)) as [[err|] [m'|]|];
    run_in Ho; solve [solve_keys].
Qed.

Lemma Argus_Update_keys r req st :
  forallb (Argus_call_for (Argus.UpdatePlan req).1)
    (Trace (final (exec (Argus.Update r req) (fresh st)))) = true.
Proof.
  remember (exec (Argus.Update r req) (fresh st)) as o eqn:Ho.
  unfold Argus.Update, Argus.toUpdatePayload in Ho.
  destruct (Argus.UpdatePlan req) as [model diags]. cbn [fst].
  enter o Ho diags; [solve_keys|].
  rewrite step_bind in Ho.
  match type of Ho with context [Argus.loadPlanId r model ?w] =>
    destruct (Argus_loadPlanId_cases r model w)
      as [(model' & w' & Hl & Htr & _)|(w' & Hl & Htr & _)]
  end; rewrite Hl in Ho; cbn [Trace app] in Htr.
  2: { subst o. cbn [final Trace]. rewrite Htr. solve_keys. }
  run_in Ho. rewrite Htr in Ho. cbn [app] in Ho. clear Hl Htr.
  destruct (Argus.APIClient.UpdateInstance r _ _ _) as [e|];
    run_in Ho; try (solve [solve_keys]).
  destruct (Argus.APIClient.UpdateInstanceWaitHandler r _ _ _) as [wr [e|]];
    run_in Ho; try (solve [solve_keys]).
  destruct wr as [got|]; run_in Ho; try (solve [solve_keys]).
  destruct (Argus.mapFields got (Some model')) as [[err|] [m'|]|];
    run_in Ho; solve [solve_keys].
Qed.

Lemma Argus_Delete_keys r req st :
  forallb (Argus_call_for (Argus.DeleteState req).1)
    (Trace (final (exec (Argus.Delete r req) (fresh st)))) = true.
Proof.
  remember (exec (Argus.Delete r req) (fresh st)) as o eqn:Ho.
  unfold Argus.Delete in Ho.
  destruct (Argus.DeleteState req) as [model diags]. cbn [fst].
  enter o Ho diags; [solve_keys|].
  destruct (Argus.APIClient.DeleteInstance r _ _) as [e|];
    run_in Ho; try (solve [solve_keys]).
  destruct (Argus.APIClient.DeleteInstanceWaitHandler r _ _ _) as [e|];
    run_in Ho; solve [solve_keys].
Qed.

Lemma Dns_Read_keys r req st :
  forallb (Dns_call_for (Dns.ReadState req).1)
    (Trace (final (exec (Dns.recordSetResource.Read r req) (fresh st)))) = true.
Proof.
  remember (exec (Dns.recordSetResource.Read r req) (fresh st)) as o eqn:Ho.
  unfold Dns.recordSetResource.Read in Ho.
  destruct (Dns.ReadState req) as [model diags]. cbn [fst].
  enter o Ho diags; [solve_keys|].
  destruct (Dns.APIClient.GetRecordSet r _ _ _) as [resp [e|]];
    run_in Ho; try (solve [solve_keys]).
  destruct (Dns.mapFields resp (Some model)) as [[err|] [m'|]|];
    run_in Ho; solve [solve_keys].
Qed.

Lemma Dns_Update_keys r req st :
  forallb (Dns_call_for (Dns.UpdatePlan req).1)
    (Trace (final (exec (Dns.recordSetResource.Update r req) (fresh st)))) = true.
Proof.
  remember (exec (Dns.recordSetResource.Update r req) (fresh st)) as o eqn:Ho.
  unfold Dns.recordSetResource.Update, Dns.toUpdatePayload in Ho.
  destruct (Dns.UpdatePlan req) as [model diags]. cbn [fst].
  enter o Ho diags; [solve_keys|].
  destruct (Dns.toRecords _ _ _) as [records [err|]]; run_in Ho; try (solve [solve_keys]).
  destruct (Dns.APIClient.UpdateRecordSet r _ _ _ _) as [e|];
    run_in Ho; try (solve [solve_keys]).
  destruct (Dns.APIClient.UpdateRecordSetWaitHandler r _ _ _ _) as [wr [e|]];
    run_in Ho; try (solve [solve_keys]).
  destruct wr as [got|]; run_in Ho; try (solve [solve_keys]).
  destruct (Dns.APIClient.GetRecordSet r _ _ _) as [resp [e|]];
    run_in Ho; try (solve [solve_keys]).
  destruct (Dns.mapFields resp (Some model)) as [[err|] [m'|]|];
    run_in Ho; solve [solve_keys].
Qed.

Lemma Dns_Delete_keys r req st :
  forallb (Dns_call_for (Dns.DeleteState req).1)
    (Trace (final (exec (Dns.recordSetResource.Delete r req) (fresh st)))) = true.
Proof.
  remember (exec (Dns.recordSetResource.Delete r req) (fresh st)) as o eqn:Ho.
  unfold Dns.recordSetResource.Delete in Ho.
  destruct (Dns.DeleteState req) as [model diags]. cbn [fst].
  enter o Ho diags; [solve_keys|].
  destruct (Dns.APIClient.DeleteRecordSet r _ _ _) as [e|]; run_in Ho;
    (destruct (Dns.APIClient.DeleteRecordSetWaitHandler r _ _ _ _) as [e'|];
     run_in Ho; solve [solve_keys]).
Qed.

Lemma Dns_DataSource_Read_keys r req st :
  forallb (Dns_call_for (Dns.Config req).1)
    (Trace (final (exec (Dns.recordSetDataSource.Read r req) (fresh st)))) = true.
Proof.
  remember (exec (Dns.recordSetDataSource.Read r req) (fresh st)) as o eqn:Ho.
  unfold Dns.recordSetDataSource.Read in Ho.
  destruct (Dns.Config req) as [model diags]. cbn [fst].
  enter o Ho diags; [solve_keys|].
  destruct (Dns.APIClient.GetRecordSet r _ _ _) as [resp [e|]];
    run_in Ho; try (solve [solve_keys]).
  destruct (Dns.mapFields resp (Some model)) as [[err|] [m'|]|];
    run_in Ho; try (solve [solve_keys]).
  match type of Ho with context [HasError ?ds] => destruct (HasError ds) end;
    run_in Ho; solve [solve_keys].
Qed.

Lemma Argus_Create_keys r req st :
  forallb (Argus_call_in_project (Argus.CreatePlan req).1)
    (Trace (final (exec (Argus.Create r req) (fresh st)))) = true.
Proof.
  remember (exec (Argus.Create r req) (fresh st)) as o eqn:Ho.
  unfold Argus.Create, Argus.toCreatePayload in Ho.
  destruct (Argus.CreatePlan req) as [model diags]. cbn [fst].
  enter o Ho diags; [solve_keys|].
  rewrite step_bind in Ho.
  match type of Ho with context [Argus.loadPlanId r model ?w] =>
    destruct (Argus_loadPlanId_cases r model w)
      as [(model' & w' & Hl & Htr & _)|(w' & Hl & Htr & _)]
  end; rewrite Hl in Ho; cbn [Trace app] in Htr.
  2: { subst o. cbn [final Trace]. rewrite Htr. solve_keys. }
  run_in Ho. rewrite Htr in Ho. cbn [app] in Ho. clear Hl Htr.
  destruct (Argus.APIClient.CreateInstance r _ _) as [[createResp|] [e|]];
    run_in Ho; try (solve [solve_keys]).
  destruct (Argus.CreateInstanceResponse.InstanceId createResp) as [[|a s]|];
    run_in Ho; try (solve [solve_keys]).
  destruct (Argus.APIClient.CreateInstanceWaitHandler r _ _ _) as [wr [e|]];
    run_in Ho; try (solve [solve_keys]).
  destruct wr as [got|]; run_in Ho; try (solve [solve_keys]).
  destruct (Argus.mapFields got (Some model')) as [[err|] [m'|]|];
    run_in Ho; solve [solve_keys].
Qed.

Lemma Dns_Create_keys r req st :
  forallb (Dns_call_in_zone (Dns.CreatePlan req).1)
    (Trace (final (exec (Dns.recordSetResource.Create r req) (fresh st)))) = true.
Proof.
  remember (exec (Dns.recordSetResource.Create r req) (fresh st)) as o eqn:Ho.
  unfold Dns.recordSetResource.Create, Dns.toCreatePayload in Ho.
  destruct (Dns.CreatePlan req) as [model diags]. cbn [fst].
  enter o Ho diags; [solve_keys|].
  destruct (Dns.toRecords _ _ _) as [records [err|]]; run_in Ho; try (solve [solve_keys]).
  destruct (Dns.APIClient.CreateRecordSet r _ _ _) as [[resp|] [e|]];
    run_in Ho; try (solve [solve_keys]).
  destruct (Dns.RecordSetResponse.Rrset resp) as [rrset|];
    run_in Ho; try (solve [solve_keys]).
  destruct (Dns.RecordSet.Id rrset) as [id|];
    run_in Ho; try (solve [solve_keys]).
  destruct (Dns.APIClient.CreateRecordSetWaitHandler r _ _ _ _) as [wr [e|]];
    run_in Ho; try (solve [solve_keys]).
  destruct wr as [got|]; run_in Ho; try (solve [solve_keys]).
  destruct (Dns.mapFields got (Some model)) as [[err|] [m'|]|];
    run_in Ho; solve [solve_keys].
Qed.

(** X15. Every SDK call a method makes is addressed to the key attributes
    of the model in its request. Read, Update and Delete of both resources
    and Read of the data source use the model's project id, (for DNS) its
    zone id, and, wherever the call names an instance or a record set, the
    model's instance id or record set id. The two Create methods use the
    model's project id and (for DNS) zone id. This holds on every path, also
    the ones that end in an error or in a nil dereference. *)
Theorem calls_are_addressed_to_the_model_keys
  (ra : Argus.APIClient.t) (rd : Dns.APIClient.t)
  (ma : Argus.Model.t) (md : Dns.Model.t) (diags : Diagnostics)
  (sta : option Argus.Model.t) (std : option Dns.Model.t) :
  let sent {Call St} (o : Outcome Call St) : list Call := Trace (final o) in
  forallb (Argus_call_in_project ma)
    (sent (exec (Argus.Create ra {| Argus.CreatePlan := (ma, diags) |}) (fresh sta))) = true ∧
  forallb (Argus_call_for ma)
    (sent (exec (Argus.Read ra {| Argus.ReadState := (ma, diags) |}) (fresh sta))) = true ∧
  forallb (Argus_call_for ma)
    (sent (exec (Argus.Update ra {| Argus.UpdatePlan := (ma, diags) |}) (fresh sta))) = true ∧
  forallb (Argus_call_for ma)
    (sent (exec (Argus.Delete ra {| Argus.DeleteState := (ma, diags) |}) (fresh sta))) = true ∧
  forallb (Dns_call_in_zone md)
    (sent (exec (Dns.recordSetResource.Create rd {| Dns.CreatePlan := (md, diags) |})
             (fresh std))) = true ∧
  forallb (Dns_call_for md)
    (sent (exec (Dns.recordSetResource.Read rd {| Dns.ReadState := (md, diags) |})
             (fresh std))) = true ∧
  forallb (Dns_call_for md)
    (sent (exec (Dns.recordSetResource.Update rd {| Dns.UpdatePlan := (md, diags) |})
             (fresh std))) = true ∧
  forallb (Dns_call_for md)
    (sent (exec (Dns.recordSetResource.Delete rd {| Dns.DeleteState := (md, diags) |})
             (fresh std))) = true ∧
  forallb (Dns_call_for md)
    (sent (exec (Dns.recordSetDataSource.Read rd {| Dns.Config := (md, diags) |})
             (fresh std))) = true.
Proof.
  intros sent. subst sent. cbv beta.
  repeat split.
  - exact (Argus_Create_keys ra {| Argus.CreatePlan := (ma, diags) |} sta).
  - exact (Argus_Read_keys ra {| Argus.ReadState := (ma, diags) |} sta).
  - exact (Argus_Update_keys ra {| Argus.UpdatePlan := (ma, diags) |} sta).
  - exact (Argus_Delete_keys ra {| Argus.DeleteState := (ma, diags) |} sta).
  - exact (Dns_Create_keys rd {| Dns.CreatePlan := (md, diags) |} std).
  - exact (Dns_Read_keys rd {| Dns.ReadState := (md, diags) |} std).
  - exact (Dns_Update_keys rd {| Dns.UpdatePlan := (md, diags) |} std).
  - exact (Dns_Delete_keys rd {| Dns.DeleteState := (md, diags) |} std).
  - exact (Dns_DataSource_Read_keys rd {| Dns.Config := (md, diags) |} std).
Qed.

(** * The destroy check of the PostgreSQL acceptance test *)

(** X16. [checkInstanceDeleteSuccess] answers true exactly for an instance
    whose last operation is a delete that succeeded and whose description
    contains neither "DeleteFailed" nor "failed". It reads the state only
    for a delete and the description only for a succeeded delete: a last
    operation of another type gives false even when state and description
    are nil, and the nil dereferences are exactly a nil last operation, a
    nil type, a delete with a nil state, and a succeeded delete with a nil
    description. *)
Theorem checkInstanceDeleteSuccess_cases
  (InstanceTypeDelete InstanceStateSuccess : string) (i : postgresql.Instance.t) :
  let check := postgresql_test.checkInstanceDeleteSuccess InstanceTypeDelete InstanceStateSuccess in
  let field (f : postgresql.InstanceLastOperation.t → option string) : option string :=
    postgresql.Instance.LastOperation i ≫= f in
  (check i = Some true ↔
   field postgresql.InstanceLastOperation.Type_ = Some InstanceTypeDelete ∧
   field postgresql.InstanceLastOperation.State = Some InstanceStateSuccess ∧
   ∃ description,
     field postgresql.InstanceLastOperation.Description = Some description ∧
     Go.Contains description "DeleteFailed" = false ∧
     Go.Contains description "failed" = false) ∧
  (check i = None ↔
   field postgresql.InstanceLastOperation.Type_ = None ∨
   field postgresql.InstanceLastOperation.Type_ = Some InstanceTypeDelete ∧
   (field postgresql.InstanceLastOperation.State = None ∨
    field postgresql.InstanceLastOperation.State = Some InstanceStateSuccess ∧
    field postgresql.InstanceLastOperation.Description = None)) ∧
  (∀ type, field postgresql.InstanceLastOperation.Type_ = Some type →
           type ≠ InstanceTypeDelete → check i = Some false).
Proof.
  intros check field. subst check field.
  unfold postgresql_test.checkInstanceDeleteSuccess.
  destruct (postgresql.Instance.LastOperation i) as [op|]; cbn [mbind option_bind];
    [|split; [|split]; [split; [done|by intros [? _]] | split; [by left|done] | done]].
  destruct (postgresql.InstanceLastOperation.Type_ op) as [type|];
    [|split; [|split]; [split; [done|by intros [? _]] | split; [by left|done] | done]].
  destruct (type =? InstanceTypeDelete) eqn:Htype; cbn [negb].
  2: { apply String.eqb_neq in Htype.
       split; [|split]; [split; [done|intros [[= ?] _]; done] | | done].
       split; [done|]. intros [?|[[= ?] _]]; done. }
  apply String.eqb_eq in Htype as ->.
  destruct (postgresql.InstanceLastOperation.State op) as [state|];
    [|split; [|split]; [split; [done|by intros (_ & ? & _)] | split; [right; split; [done|by left]|done]
                        | intros ? [= <-] ?; done]].
  destruct (state =? InstanceStateSuccess) eqn:Hstate; cbn [negb].
  2: { apply String.eqb_neq in Hstate.
       split; [|split]; [split; [done|intros (_ & [= ?] & _); done] | | intros ? [= <-] ?; done].
       split; [done|]. intros [?|[_ [?|[[= ?] _]]]]; done. }
  apply String.eqb_eq in Hstate as ->.
  destruct (postgresql.InstanceLastOperation.Description op) as [description|];
    [|split; [|split]; [split; [done|by intros (_ & _ & ? & ? & _)]
                        | split; [right; split; [done|by right]|done]
                        | intros ? [= <-] ?; done]].
  destruct (Go.Contains description "DeleteFailed") eqn:H1;
    destruct (Go.Contains description "failed") eqn:H2; cbn [orb];
    (split; [|split];
     [ split; [first [discriminate | intros _; eauto 10]
              | intros (_ & _ & d & [= <-] & ? & ?); congruence]
     | split; [done | intros [?|[_ [?|[_ ?]]]]; done]
     | intros ? [= <-] ?; done ]).
Qed.

Lemma utils_Contains_elem_of (slice : list string) (element : string) :
  utils.Contains slice element = true ↔ element ∈ slice.
Proof.
  unfold utils.Contains. rewrite existsb_exists. split.
  - intros (x & Hin & Heq). apply String.eqb_eq in Heq as ->. by apply list_elem_of_In.
  - intros Hin. exists element. split; [by apply list_elem_of_In|apply String.eqb_refl].
Qed.

Lemma instancesToDestroy_loop_names (s : terraform.State) (acc found : list string) :
  postgresql_test.instancesToDestroy_loop s acc = Some found →
  ∀ instanceId, instanceId ∈ found ↔ instanceId ∈ acc ∨ names_instance s instanceId.
Proof.
  revert acc. induction s as [|rs s IH]; intros acc; cbn [postgresql_test.instancesToDestroy_loop].
  - intros [= <-] instanceId. split; [by left|].
    intros [?|(rs & id & Hin & _)]; [done|]. by apply elem_of_nil in Hin.
  - destruct (terraform.Type_ rs =? "stackit_postgresql_instance") eqn:Htype; cbn [negb].
    + apply String.eqb_eq in Htype.
      destruct (terraform.Primary rs) as [id|] eqn:Hprimary; [|done].
      destruct (nth_error (Go.Split id core.Separator) 1) as [part|] eqn:Hpart; [|done].
      intros Hloop instanceId. rewrite (IH _ Hloop instanceId), elem_of_app.
      rewrite list_elem_of_singleton. split.
      * intros [[ ? | -> ]|(rs' & id' & Hin & ?)]; [by left| |].
        -- right. exists rs, id. split; [apply list_elem_of_here|done].
        -- right. exists rs', id'. split; [by apply list_elem_of_further|done].
      * intros [?|(rs' & id' & Hin & Ht & Hp & Hn)]; [by left; left|].
        apply elem_of_cons in Hin as [ -> | Hin ].
        -- left. right. congruence.
        -- right. by exists rs', id'.
    + apply String.eqb_neq in Htype.
      intros Hloop instanceId. rewrite (IH _ Hloop instanceId). split.
      * intros [?|(rs' & id' & Hin & ?)]; [by left|].
        right. exists rs', id'. split; [by apply list_elem_of_further|done].
      * intros [?|(rs' & id' & Hin & Ht & Hp & Hn)]; [by left|].
        apply elem_of_cons in Hin as [ -> | Hin ]; [done|].
        right. by exists rs', id'.
Qed.

(** What the second loop does, from any response on: it only adds calls
    that delete, or wait for the deletion of, a listed instance that is to
    destroy and whose last operation is not a successful delete; when it
    runs to its end it has left the returned error alone, and every such
    instance has been deleted and waited for without an error. *)
Lemma destroy_loop_runs T S P client toDestroy instances
  (w : Response postgresql.Call.t (option Go.error)) :
  let step := postgresql_test.destroy_loop T S P client toDestroy instances w in
  ∃ calls,
    Trace (landed step) = (Trace w ++ calls)%list ∧
    (∀ c, c ∈ calls →
          ∃ i instanceId,
            i ∈ instances ∧ postgresql.Instance.InstanceId i = Some instanceId ∧
            instanceId ∈ toDestroy ∧
            postgresql_test.checkInstanceDeleteSuccess T S i = Some false ∧
            (c = postgresql.Call.DeleteInstanceExecute P instanceId ∨
             c = postgresql.Call.DeleteInstanceWaitHandler P instanceId)) ∧
    match step with
    | Next _ _ w' =>
        State w' = State w ∧
        ∀ i instanceId,
          i ∈ instances → postgresql.Instance.InstanceId i = Some instanceId →
          instanceId ∈ toDestroy →
          postgresql_test.checkInstanceDeleteSuccess T S i = Some true ∨
          (postgresql.APIClient.DeleteInstanceExecute client P instanceId = None ∧
           postgresql.APIClient.DeleteInstanceWaitHandler client P instanceId = None ∧
           postgresql.Call.DeleteInstanceExecute P instanceId ∈ calls ∧
           postgresql.Call.DeleteInstanceWaitHandler P instanceId ∈ calls)
    | Return _ w' => ∃ e, State w' = Some e
    | Panic _ w' => State w' = State w
    end.
Proof.
  revert w. induction instances as [|i instances IH]; intros w;
    cbn [postgresql_test.destroy_loop].
  - exists []. cbn [landed]. rewrite app_nil_r. split; [done|]. split.
    + intros c Hin. by apply elem_of_nil in Hin.
    + split; [done|]. intros i id Hin. by apply elem_of_nil in Hin.
  - assert (Hskip :
      (∀ instanceId, postgresql.Instance.InstanceId i = Some instanceId →
                     instanceId ∈ toDestroy →
                     postgresql_test.checkInstanceDeleteSuccess T S i = Some true) →
      let step := postgresql_test.destroy_loop T S P client toDestroy instances w in
      ∃ calls,
        Trace (landed step) = (Trace w ++ calls)%list ∧
        (∀ c, c ∈ calls →
              ∃ i0 instanceId,
                i0 ∈ i :: instances ∧ postgresql.Instance.InstanceId i0 = Some instanceId ∧
                instanceId ∈ toDestroy ∧
                postgresql_test.checkInstanceDeleteSuccess T S i0 = Some false ∧
                (c = postgresql.Call.DeleteInstanceExecute P instanceId ∨
                 c = postgresql.Call.DeleteInstanceWaitHandler P instanceId)) ∧
        match step with
        | Next _ _ w' =>
            State w' = State w ∧
            ∀ i0 instanceId,
              i0 ∈ i :: instances → postgresql.Instance.InstanceId i0 = Some instanceId →
              instanceId ∈ toDestroy →
              postgresql_test.checkInstanceDeleteSuccess T S i0 = Some true ∨
              (postgresql.APIClient.DeleteInstanceExecute client P instanceId = None ∧
               postgresql.APIClient.DeleteInstanceWaitHandler client P instanceId = None ∧
               postgresql.Call.DeleteInstanceExecute P instanceId ∈ calls ∧
               postgresql.Call.DeleteInstanceWaitHandler P instanceId ∈ calls)
        | Return _ w' => ∃ e, State w' = Some e
        | Panic _ w' => State w' = State w
        end).
    { intros Hdone step. subst step.
      destruct (IH w) as (calls & Htr & Hcalls & Hend).
      exists calls. split; [done|]. split.
      - intros c Hc. destruct (Hcalls c Hc) as (i0 & id & Hin & ?).
        exists i0, id. split; [by apply list_elem_of_further|done].
      - destruct (postgresql_test.destroy_loop T S P client toDestroy instances w);
          [|done..].
        destruct Hend as [Hst Hall]. split; [done|].
        intros i0 id Hin Hid Hto. apply elem_of_cons in Hin as [ -> | Hin ].
        + left. by apply (Hdone id).
        + by apply Hall. }
    destruct (postgresql.Instance.InstanceId i) as [instanceId|] eqn:Hid;
      [|apply Hskip; intros ? [=]].
    destruct (utils.Contains toDestroy instanceId) eqn:Hto.
    2: { apply Hskip. intros id [= <-] Hin.
         apply utils_Contains_elem_of in Hin. congruence. }
    apply utils_Contains_elem_of in Hto.
    destruct (postgresql_test.checkInstanceDeleteSuccess T S i) as [[|]|] eqn:Hcheck.
    + apply Hskip. by intros id [= <-] _.
    + clear Hskip. autorewrite with op.
      assert (Hthis : ∀ c,
                c = postgresql.Call.DeleteInstanceExecute P instanceId ∨
                c = postgresql.Call.DeleteInstanceWaitHandler P instanceId →
                ∃ i0 id,
                  i0 ∈ i :: instances ∧ postgresql.Instance.InstanceId i0 = Some id ∧
                  id ∈ toDestroy ∧
                  postgresql_test.checkInstanceDeleteSuccess T S i0 = Some false ∧
                  (c = postgresql.Call.DeleteInstanceExecute P id ∨
                   c = postgresql.Call.DeleteInstanceWaitHandler P id)).
      { intros c Hc. exists i, instanceId. split; [apply list_elem_of_here|done]. }
      destruct (postgresql.APIClient.DeleteInstanceExecute client P instanceId)
        as [e|] eqn:Hdel.
      * exists [postgresql.Call.DeleteInstanceExecute P instanceId].
        split; [reflexivity|]. split; [|by eexists].
        intros c Hc. apply list_elem_of_singleton in Hc. apply Hthis. by left.
      * autorewrite with op.
        destruct (postgresql.APIClient.DeleteInstanceWaitHandler client P instanceId)
          as [e|] eqn:Hwait.
        -- exists [postgresql.Call.DeleteInstanceExecute P instanceId;
                   postgresql.Call.DeleteInstanceWaitHandler P instanceId].
           split; [cbn [landed Trace]; by rewrite <- app_assoc|]. split; [|by eexists].
           intros c Hc. apply Hthis.
           apply elem_of_cons in Hc as [ -> | Hc ]; [by left|].
           apply list_elem_of_singleton in Hc. by right.
        -- match goal with |- context [postgresql_test.destroy_loop _ _ _ _ _ _ ?w1] =>
             set (w1' := w1);
             assert (Htr1 : Trace w1'
                            = ((Trace w ++ [postgresql.Call.DeleteInstanceExecute P instanceId])
                               ++ [postgresql.Call.DeleteInstanceWaitHandler P instanceId])%list)
               by reflexivity;
             assert (Hst1 : State w1' = State w) by reflexivity;
             clearbody w1';
             destruct (IH w1') as (calls & Htr & Hcalls & Hend)
           end.
           rewrite Htr1 in Htr. rewrite Hst1 in Hend.
           exists (postgresql.Call.DeleteInstanceExecute P instanceId
                   :: postgresql.Call.DeleteInstanceWaitHandler P instanceId :: calls).
           split; [rewrite Htr; by rewrite <- !app_assoc|]. split.
           ++ intros c Hc. apply elem_of_cons in Hc as [ -> | Hc ]; [apply Hthis; by left|].
              apply elem_of_cons in Hc as [ -> | Hc ]; [apply Hthis; by right|].
              destruct (Hcalls c Hc) as (i0 & id & Hin & ?).
              exists i0, id. split; [by apply list_elem_of_further|done].
           ++ destruct (postgresql_test.destroy_loop T S P client toDestroy instances _);
                [|done..].
              destruct Hend as [Hst Hall]. split; [done|].
              intros i0 id Hin Hid0 Hto0. apply elem_of_cons in Hin as [ -> | Hin ].
              ** right. assert (id = instanceId) as -> by congruence.
                 repeat split; try done; [apply list_elem_of_here|].
                 apply list_elem_of_further, list_elem_of_here.
              ** destruct (Hall i0 id Hin Hid0 Hto0) as [?|(? & ? & ? & ?)]; [by left|].
                 right. repeat split; try done; by do 2 apply list_elem_of_further.
    + exists []. cbn [landed]. rewrite app_nil_r. split; [done|]. split; [|done].
      intros c Hc. by apply elem_of_nil in Hc.
Qed.

Lemma step_return_error {A} (e : Go.error)
  (w : Response postgresql.Call.t (option Go.error)) :
  (postgresql_test.return_error e : postgresql_test.Check A) w
  = Return A (mkResponse (Trace w) (Diags w) (Some e)).
Proof. reflexivity. Qed.

(** The run of the destroy check, case by case. *)
Lemma destroy_check_runs T S P E NewAPIClient (s : terraform.State) :
  let options := if E =? "" then [] else [config.WithEndpoint E] in
  let step := postgresql_test.testAccCheckPostgreSQLDestroy T S P E NewAPIClient s (fresh None) in
  let created := mkResponse [postgresql.Call.NewAPIClient options] [] None in
  match NewAPIClient options with
  | (_, Some e) =>
      step = Return _ (mkResponse [postgresql.Call.NewAPIClient options] []
                         (Some ("creating client: " ++ e)))
  | (client, None) =>
  match postgresql_test.instancesToDestroy_loop s [] with
  | None => step = Panic _ created
  | Some instancesToDestroy =>
  match client with
  | None => step = Panic _ created
  | Some client =>
  let listed := mkResponse [postgresql.Call.NewAPIClient options;
                            postgresql.Call.GetInstances P] [] None in
  match postgresql.APIClient.GetInstances client P with
  | (_, Some e) =>
      step = Return _ (mkResponse (Trace listed) [] (Some ("getting instancesResp: " ++ e)))
  | (instancesResp, None) =>
  match instancesResp ≫= postgresql.InstancesResponse.Instances with
  | None => step = Panic _ listed
  | Some instances =>
      step = postgresql_test.destroy_loop T S P client instancesToDestroy instances listed
  end end end end end.
Proof.
  intros options step created. subst step created.
  unfold postgresql_test.testAccCheckPostgreSQLDestroy. fold options.
  unfold fresh. autorewrite with op. cbn [Trace Diags State app].
  destruct (NewAPIClient options) as [client [e|]]; [apply step_return_error|].
  destruct (postgresql_test.instancesToDestroy_loop s []) as [instancesToDestroy|];
    [|reflexivity].
  destruct client as [client|]; [|reflexivity].
  cbv zeta. autorewrite with op. cbn [Trace Diags State app].
  destruct (postgresql.APIClient.GetInstances client P) as [instancesResp [e|]];
    [apply step_return_error|].
  destruct (instancesResp ≫= postgresql.InstancesResponse.Instances); reflexivity.
Qed.

(** X17. The destroy check deletes, and waits for the deletion of, only
    instances that the API lists for the test project, that the Terraform
    state names (as the second part of the id of one of its PostgreSQL
    instances), and whose last operation is not a successful delete. Apart
    from these calls it only constructs the client and lists the
    instances. *)
Theorem destroy_check_deletes_only_named_instances
  (InstanceTypeDelete InstanceStateSuccess ProjectId PostgreSQLCustomEndpoint : string)
  (NewAPIClient : list config.ConfigurationOption
                  → option postgresql.APIClient.t * option Go.error)
  (s : terraform.State) (c : postgresql.Call.t) :
  let options :=
    if PostgreSQLCustomEndpoint =? "" then []
    else [config.WithEndpoint PostgreSQLCustomEndpoint] in
  c ∈ Trace (final (exec (postgresql_test.testAccCheckPostgreSQLDestroy
                            InstanceTypeDelete InstanceStateSuccess ProjectId
                            PostgreSQLCustomEndpoint NewAPIClient s) (fresh None))) →
  c = postgresql.Call.NewAPIClient options ∨
  c = postgresql.Call.GetInstances ProjectId ∨
  ∃ client instancesResp instances i instanceId,
    NewAPIClient options = (Some client, None) ∧
    postgresql.APIClient.GetInstances client ProjectId = (Some instancesResp, None) ∧
    postgresql.InstancesResponse.Instances instancesResp = Some instances ∧
    i ∈ instances ∧ postgresql.Instance.InstanceId i = Some instanceId ∧
    names_instance s instanceId ∧
    postgresql_test.checkInstanceDeleteSuccess InstanceTypeDelete InstanceStateSuccess i
      = Some false ∧
    (c = postgresql.Call.DeleteInstanceExecute ProjectId instanceId ∨
     c = postgresql.Call.DeleteInstanceWaitHandler ProjectId instanceId).
Proof.
  intros options.
  pose proof (destroy_check_runs InstanceTypeDelete InstanceStateSuccess ProjectId
                PostgreSQLCustomEndpoint NewAPIClient s) as Hrun.
  cbv zeta in Hrun. fold options in Hrun. unfold exec.
  destruct (NewAPIClient options) as [client [e|]] eqn:Hnew.
  { rewrite Hrun. cbn [final Trace]. intros Hc. apply list_elem_of_singleton in Hc. by left. }
  destruct (postgresql_test.instancesToDestroy_loop s []) as [instancesToDestroy|] eqn:Hloop.
  2: { rewrite Hrun. cbn [final Trace]. intros Hc.
       apply list_elem_of_singleton in Hc. by left. }
  destruct client as [client|].
  2: { rewrite Hrun. cbn [final Trace]. intros Hc.
       apply list_elem_of_singleton in Hc. by left. }
  destruct (postgresql.APIClient.GetInstances client ProjectId)
    as [instancesResp [e|]] eqn:Hget.
  { rewrite Hrun. cbn [final Trace]. intros Hc.
    apply elem_of_cons in Hc as [ -> | Hc ]; [by left|].
    apply list_elem_of_singleton in Hc. by right; left. }
  destruct instancesResp as [instancesResp|]; cbn [mbind option_bind] in Hrun.
  2: { rewrite Hrun. cbn [final Trace]. intros Hc.
       apply elem_of_cons in Hc as [ -> | Hc ]; [by left|].
       apply list_elem_of_singleton in Hc. by right; left. }
  destruct (postgresql.InstancesResponse.Instances instancesResp) as [instances|] eqn:Hinst.
  2: { rewrite Hrun. cbn [final Trace]. intros Hc.
       apply elem_of_cons in Hc as [ -> | Hc ]; [by left|].
       apply list_elem_of_singleton in Hc. by right; left. }
  rewrite Hrun.
  match goal with |- context [postgresql_test.destroy_loop _ _ _ _ _ _ ?w1] =>
    destruct (destroy_loop_runs InstanceTypeDelete InstanceStateSuccess ProjectId client
                instancesToDestroy instances w1) as (calls & Htr & Hcalls & _)
  end.
  cbv zeta in Htr. cbn [Trace] in Htr.
  intros Hc.
  assert (Hc' : c ∈ ([postgresql.Call.NewAPIClient options;
                      postgresql.Call.GetInstances ProjectId] ++ calls)%list).
  { rewrite <- Htr.
    destruct (postgresql_test.destroy_loop _ _ _ _ _ _ _); exact Hc. }
  apply elem_of_app in Hc' as [Hc'|Hc'].
  - apply elem_of_cons in Hc' as [ -> | Hc' ]; [by left|].
    apply list_elem_of_singleton in Hc'. by right; left.
  - right; right.
    destruct (Hcalls c Hc') as (i & instanceId & Hin & Hid & Hto & Hcheck & Hcall).
    exists client, instancesResp, instances, i, instanceId.
    repeat split; try done.
    apply (instancesToDestroy_loop_names s [] _ Hloop) in Hto as [Hto|Hto]; [|done].
    by apply elem_of_nil in Hto.
Qed.

Lemma destroy_check_deletes_only_named_instances_witness :
  ∃ i, i ∈ [running_instance] ∧ postgresql.Instance.InstanceId i = Some "i" ∧
       names_instance postgres_state "i" ∧
       postgresql_test.checkInstanceDeleteSuccess "delete" "succeeded" i = Some false.
Proof.
  destruct (destroy_check_deletes_only_named_instances "delete" "succeeded" "p" ""
              (fun _ => (Some healthy_postgresql, None)) postgres_state
              (postgresql.Call.DeleteInstanceExecute "p" "i"))
    as [Hc|[Hc|(client & resp & instances & i & id & Hnew & Hget & Hinst & Hin & Hid
                & Hname & Hcheck & Hcall)]].
  - cbn. apply list_elem_of_further, list_elem_of_further, list_elem_of_here.
  - discriminate Hc.
  - discriminate Hc.
  - injection Hnew as <-. injection Hget as <-. injection Hinst as <-.
    destruct Hcall as [[= <-]|[=]].
    exists i. done.
Defined.

(** X18. The destroy check returns nil only when the client was
    constructed and the instances were listed without an error, and every
    listed instance that the state names either has a successful delete as
    its last operation or was deleted and waited for, both without an
    error. *)
Theorem destroy_check_passes_only_when_all_deleted
  (InstanceTypeDelete InstanceStateSuccess ProjectId PostgreSQLCustomEndpoint : string)
  (NewAPIClient : list config.ConfigurationOption
                  → option postgresql.APIClient.t * option Go.error)
  (s : terraform.State) (w : Response postgresql.Call.t (option Go.error)) :
  let options :=
    if PostgreSQLCustomEndpoint =? "" then []
    else [config.WithEndpoint PostgreSQLCustomEndpoint] in
  exec (postgresql_test.testAccCheckPostgreSQLDestroy
          InstanceTypeDelete InstanceStateSuccess ProjectId
          PostgreSQLCustomEndpoint NewAPIClient s) (fresh None) = Finished w →
  State w = None →
  ∃ client instancesResp instances,
    NewAPIClient options = (Some client, None) ∧
    postgresql.APIClient.GetInstances client ProjectId = (Some instancesResp, None) ∧
    postgresql.InstancesResponse.Instances instancesResp = Some instances ∧
    ∀ i instanceId,
      i ∈ instances → postgresql.Instance.InstanceId i = Some instanceId →
      names_instance s instanceId →
      postgresql_test.checkInstanceDeleteSuccess InstanceTypeDelete InstanceStateSuccess i
        = Some true ∨
      (postgresql.APIClient.DeleteInstanceExecute client ProjectId instanceId = None ∧
       postgresql.APIClient.DeleteInstanceWaitHandler client ProjectId instanceId = None ∧
       postgresql.Call.DeleteInstanceExecute ProjectId instanceId ∈ Trace w ∧
       postgresql.Call.DeleteInstanceWaitHandler ProjectId instanceId ∈ Trace w).
Proof.
  intros options.
  pose proof (destroy_check_runs InstanceTypeDelete InstanceStateSuccess ProjectId
                PostgreSQLCustomEndpoint NewAPIClient s) as Hrun.
  cbv zeta in Hrun. fold options in Hrun. unfold exec.
  destruct (NewAPIClient options) as [client [e|]] eqn:Hnew.
  { rewrite Hrun. by intros [= <-]. }
  destruct (postgresql_test.instancesToDestroy_loop s []) as [instancesToDestroy|] eqn:Hloop;
    [|by rewrite Hrun].
  destruct client as [client|]; [|by rewrite Hrun].
  destruct (postgresql.APIClient.GetInstances client ProjectId)
    as [instancesResp [e|]] eqn:Hget.
  { rewrite Hrun. by intros [= <-]. }
  destruct instancesResp as [instancesResp|]; cbn [mbind option_bind] in Hrun;
    [|by rewrite Hrun].
  destruct (postgresql.InstancesResponse.Instances instancesResp) as [instances|] eqn:Hinst;
    [|by rewrite Hrun].
  rewrite Hrun.
  match goal with |- context [postgresql_test.destroy_loop _ _ _ _ _ _ ?w1] =>
    destruct (destroy_loop_runs InstanceTypeDelete InstanceStateSuccess ProjectId client
                instancesToDestroy instances w1) as (calls & Htr & _ & Hend)
  end.
  cbv zeta in Htr, Hend. cbn [Trace State] in Htr, Hend.
  destruct (postgresql_test.destroy_loop _ _ _ _ _ _ _) as [[] w'|w'|w'];
    cbn [landed] in Htr; [| |done].
  - intros [= <-] _. destruct Hend as [_ Hall].
    exists client, instancesResp, instances. repeat split; try done.
    intros i instanceId Hin Hid Hname.
    destruct (Hall i instanceId Hin Hid) as [?|(? & ? & ? & ?)]; [|by left|].
    + apply (instancesToDestroy_loop_names s [] _ Hloop). by right.
    + right. rewrite Htr. repeat split; try done;
        apply elem_of_app; by right.
  - intros [= <-] Hnil. destruct Hend as [e He]. congruence.
Qed.

Lemma destroy_check_passes_only_when_all_deleted_witness :
  ∃ w, exec (sample_destroy_check postgres_state) (fresh None) = Finished w ∧
       postgresql.Call.DeleteInstanceExecute "p" "i" ∈ Trace w ∧
       postgresql.Call.DeleteInstanceWaitHandler "p" "i" ∈ Trace w.
Proof.
  eexists. split; [reflexivity|].
  destruct (destroy_check_passes_only_when_all_deleted "delete" "succeeded" "p" ""
              (fun _ => (Some healthy_postgresql, None)) postgres_state _ eq_refl eq_refl)
    as (client & resp & instances & Hnew & Hget & Hinst & Hall).
  injection Hnew as <-. injection Hget as <-. injection Hinst as <-.
  destruct (Hall running_instance "i") as [Hcheck|(_ & _ & Hdel & Hwait)].
  - apply list_elem_of_here.
  - reflexivity.
  - exists {| terraform.Type_ := "stackit_postgresql_instance";
              terraform.Primary := Some "p,i" |}, "p,i".
    split; [apply list_elem_of_here|done].
  - discriminate Hcheck.
  - done.
Defined.

Lemma instancesToDestroy_loop_panics (s : terraform.State) (acc : list string)
  (rs : terraform.ResourceState) :
  rs ∈ s → terraform.Type_ rs = "stackit_postgresql_instance" →
  terraform.Primary rs ≫= (fun id => nth_error (Go.Split id core.Separator) 1) = None →
  postgresql_test.instancesToDestroy_loop s acc = None.
Proof.
  intros Hin Htype Hid. revert acc.
  induction s as [|rs' s IH]; intros acc; [by apply elem_of_nil in Hin|].
  cbn [postgresql_test.instancesToDestroy_loop].
  apply elem_of_cons in Hin as [ <- | Hin ].
  - rewrite Htype. cbn [String.eqb Ascii.eqb Bool.eqb negb].
    destruct (terraform.Primary rs) as [id|]; [|done].
    cbn [mbind option_bind] in Hid. by rewrite Hid.
  - destruct (negb _); [by apply IH|].
    destruct (terraform.Primary rs') as [id|]; [|done].
    destruct (nth_error _ 1); [by apply IH|done].
Qed.

(** X19. If one PostgreSQL instance in the state has a nil primary
    instance, or an id that does not contain the separator, the destroy check
    panics (index out of range) right after constructing the client: it
    lists and deletes nothing. *)
Theorem destroy_check_panics_on_id_without_separator
  (InstanceTypeDelete InstanceStateSuccess ProjectId PostgreSQLCustomEndpoint : string)
  (NewAPIClient : list config.ConfigurationOption
                  → option postgresql.APIClient.t * option Go.error)
  (s : terraform.State) (rs : terraform.ResourceState) :
  let options :=
    if PostgreSQLCustomEndpoint =? "" then []
    else [config.WithEndpoint PostgreSQLCustomEndpoint] in
  (NewAPIClient options).2 = None →
  rs ∈ s → terraform.Type_ rs = "stackit_postgresql_instance" →
  match terraform.Primary rs with
  | None => True
  | Some id => NoSeparator id = true
  end →
  exec (postgresql_test.testAccCheckPostgreSQLDestroy
          InstanceTypeDelete InstanceStateSuccess ProjectId
          PostgreSQLCustomEndpoint NewAPIClient s) (fresh None)
  = Panicked (mkResponse [postgresql.Call.NewAPIClient options] [] None).
Proof.
  intros options Hnew Hin Htype Hid.
  pose proof (destroy_check_runs InstanceTypeDelete InstanceStateSuccess ProjectId
                PostgreSQLCustomEndpoint NewAPIClient s) as Hrun.
  cbv zeta in Hrun. fold options in Hrun. unfold exec.
  destruct (NewAPIClient options) as [client [e|]]; [done|].
  rewrite (instancesToDestroy_loop_panics s [] rs Hin Htype) in Hrun.
  - by rewrite Hrun.
  - destruct (terraform.Primary rs) as [id|]; [|done]. cbn [mbind option_bind].
    unfold Go.Split, core.Separator. by rewrite split_scan_last.
Qed.

Lemma destroy_check_panics_on_id_without_separator_witness :
  exec (sample_destroy_check
          [ {| terraform.Type_ := "stackit_postgresql_instance";
               terraform.Primary := Some "i" |} ]) (fresh None)
  = Panicked (mkResponse [postgresql.Call.NewAPIClient []] [] None).
Proof.
  apply (destroy_check_panics_on_id_without_separator "delete" "succeeded" "p" ""
           (fun _ => (Some healthy_postgresql, None)) _
           {| terraform.Type_ := "stackit_postgresql_instance";
              terraform.Primary := Some "i" |}).
  - reflexivity.
  - apply list_elem_of_here.
  - reflexivity.
  - reflexivity.
Defined.
